(** * Invoice OCR extractor: the text-to-structure core of [streamlitx.py]

    The development embeds the helper functions of [streamlitx.py]
    ([extract_header], [extract_vendor], [crop], [parse_entries],
    [extract_line_items], [extract_summary]) together with the parts of
    Python they rest on: [str] methods, the backtracking semantics of the
    [re] module for the patterns the program uses, list indexing, [int()]
    on floats and the [sort_values]/[groupby] pair of pandas.
    The computation of the script on an uploaded image is [on_upload].

    Conventions.
    - A Python [str] is a [string]; a character is a code point below 256
      and the character classes are those of CPython on that range.
    - A Python exception is a constructor of [exn]; a call that may raise
      returns a [res].
    - The OCR engine and the image library are parameters of the section
      [Pipeline]; their calls may raise. *)

From Stdlib Require Import List String Ascii Bool Arith NArith ZArith Lia Sorted.
From Stdlib Require Import Permutation.
From Stdlib Require Import Floats.
Import ListNotations.

Local Open Scope string_scope.
Local Open Scope list_scope.

(** ** Exceptions *)

Inductive exn : Type :=
| IndexError
| ValueError
| OverflowError
| TypeError
| DecompressionBombError
| LibraryError (cls : string).  (* any other class, raised by a library *)

Inductive res (A : Type) : Type :=
| Ok (a : A)
| Raise (e : exn).

Arguments Ok {A} a.
Arguments Raise {A} e.

Definition bind {A B : Type} (m : res A) (f : A -> res B) : res B :=
  match m with
  | Ok a => f a
  | Raise e => Raise e
  end.

Declare Scope res_scope.
Delimit Scope res_scope with res.
Notation "x <- m ;; k" := (bind m (fun x => k))
  (at level 61, m at next level, right associativity) : res_scope.
Local Open Scope res_scope.

(** ** Python strings *)

Module Py.

Definition code (c : ascii) : N := N_of_ascii c.

Definition between (lo hi : N) (c : ascii) : bool :=
  ((lo <=? code c) && (code c <=? hi))%N.

Definition is_code (n : N) (c : ascii) : bool := (code c =? n)%N.

(** [str.isspace] on one character; also the class [\s]. *)
Definition isspace (c : ascii) : bool :=
  between 9 13 c || between 28 32 c || is_code 133 c || is_code 160 c.

(** The class [\d] (decimal digits). *)
Definition isdecimal (c : ascii) : bool := between 48 57 c.

(** ASCII letters, the class [[A-Za-z]]. *)
Definition isasciialpha (c : ascii) : bool :=
  between 65 90 c || between 97 122 c.

(** The class [\w]: alphanumeric characters and the underscore. *)
Definition isword (c : ascii) : bool :=
  isdecimal c || isasciialpha c || is_code 95 c
  || is_code 170 c || is_code 178 c || is_code 179 c || is_code 181 c
  || is_code 185 c || is_code 186 c || between 188 190 c
  || between 192 214 c || between 216 246 c || between 248 255 c.

(** Line boundaries of [str.splitlines]. *)
Definition islinebreak (c : ascii) : bool :=
  between 10 13 c || between 28 30 c || is_code 133 c.

Definition lower_char (c : ascii) : ascii :=
  if between 65 90 c || (between 192 222 c && negb (is_code 215 c))
  then ascii_of_N (code c + 32)
  else c.

(** [str.upper] on one character.  The sharp s becomes two letters.  The
    upper-case forms of the micro sign and of y with diaeresis lie above
    code point 255; they are no ASCII letters, and the two characters
    stand for them here. *)
Definition upper_char (c : ascii) : string :=
  if between 97 122 c || (between 224 254 c && negb (is_code 247 c))
  then String (ascii_of_N (code c - 32)) ""
  else if is_code 223 c then "SS"
  else String c "".

Fixpoint lower (s : string) : string :=
  match s with
  | "" => ""
  | String c t => String (lower_char c) (lower t)
  end.

Fixpoint upper (s : string) : string :=
  match s with
  | "" => ""
  | String c t => upper_char c ++ upper t
  end.

Definition is_empty (s : string) : bool :=
  match s with
  | "" => true
  | _ => false
  end.

Fixpoint startswith (p s : string) : bool :=
  match p, s with
  | "", _ => true
  | String a p', String b s' => Ascii.eqb a b && startswith p' s'
  | String _ _, "" => false
  end.

(** [sub in s]. *)
Fixpoint contains (sub s : string) : bool :=
  startswith sub s ||
  match s with
  | "" => false
  | String _ t => contains sub t
  end.

Fixpoint take (n : nat) (s : string) : string :=
  match n, s with
  | S n', String c t => String c (take n' t)
  | _, _ => ""
  end.

Fixpoint drop (n : nat) (s : string) : string :=
  match n, s with
  | S n', String _ t => drop n' t
  | _, _ => s
  end.

Fixpoint lstrip_by (p : ascii -> bool) (s : string) : string :=
  match s with
  | "" => ""
  | String c t => if p c then lstrip_by p t else s
  end.

Fixpoint rstrip_by (p : ascii -> bool) (s : string) : string :=
  match s with
  | "" => ""
  | String c t =>
      let t' := rstrip_by p t in
      if is_empty t' && p c then "" else String c t'
  end.

(** [s.strip()] *)
Definition strip (s : string) : string := lstrip_by isspace (rstrip_by isspace s).

(** [s.rstrip(chars)] *)
Definition rstrip_chars (chars s : string) : string :=
  rstrip_by (fun c => contains (String c "") chars) s.

(** [sep.join(l)] *)
Fixpoint join (sep : string) (l : list string) : string :=
  match l with
  | [] => ""
  | [x] => x
  | x :: t => x ++ sep ++ join sep t
  end.

(** [s.splitlines()]: [cur] is the line read so far. *)
Fixpoint splitlines_from (cur s : string) : list string :=
  match s with
  | "" => if is_empty cur then [] else [cur]
  | String c t =>
      if is_code 13 c then
        match t with
        | String c' t' =>
            if is_code 10 c' then cur :: splitlines_from "" t'
            else cur :: splitlines_from "" t
        | "" => cur :: splitlines_from "" t
        end
      else if islinebreak c then cur :: splitlines_from "" t
      else splitlines_from (cur ++ String c "") t
  end.

Definition splitlines (s : string) : list string := splitlines_from "" s.

(** [s.replace(old, new)] for a non-empty [old]; [skip] counts the
    characters of the occurrence being replaced that are still ahead. *)
Fixpoint replace_from (old new : string) (skip : nat) (s : string) : string :=
  match s with
  | "" => ""
  | String c t =>
      match skip with
      | S k => replace_from old new k t
      | O =>
          if startswith old s
          then new ++ replace_from old new (String.length old - 1) t
          else String c (replace_from old new 0 t)
      end
  end.

Definition replace (old new s : string) : string := replace_from old new 0 s.

(** [s.split(sep, 1)] for a non-empty [sep]. *)
Fixpoint find (sep s : string) : option nat :=
  if startswith sep s then Some 0
  else
    match s with
    | "" => None
    | String _ t => option_map S (find sep t)
    end.

Definition split1 (sep s : string) : list string :=
  match find sep s with
  | Some i => [take i s; drop (i + String.length sep) s]
  | None => [s]
  end.

(** [l[i]] with Python's negative indices. *)
Definition index {A : Type} (l : list A) (i : Z) : res A :=
  let n := Z.of_nat (List.length l) in
  let j := (if i <? 0 then i + n else i)%Z in
  if ((j <? 0) || (n <=? j))%Z then Raise IndexError
  else
    match nth_error l (Z.to_nat j) with
    | Some x => Ok x
    | None => Raise IndexError
    end.

End Py.

(** ** The [re] module

    A backtracking matcher with the priorities of CPython's engine: the
    alternatives of [|] are tried from left to right, the quantifiers are
    greedy, a search takes the leftmost start at which a match exists.
    The matcher is written in continuation-passing style: the continuation
    is the rest of the pattern, and [None] makes the matcher backtrack.
    The patterns hold at most one capturing group. *)

Module Re.

Import Py.

Inductive cls : Type :=
| Lit (c : ascii)        (* an ordinary character *)
| Digit                  (* \d *)
| Space                  (* \s *)
| AsciiAlpha             (* [A-Za-z] *)
| OneOf (cs : string)    (* [...] of ordinary characters *)
| Dot.                   (* . without DOTALL *)

Inductive regex : Type :=
| Eps
| Chr (c : cls)
| Seq (r1 r2 : regex)
| Alt (r1 r2 : regex)
| Star (r : regex)       (* r*, greedy *)
| Group (r : regex)      (* ( r ), group 1 *)
| Bol                    (* ^ without MULTILINE *)
| Eol                    (* $ without MULTILINE *)
| WordB.                 (* \b *)

Definition Plus (r : regex) : regex := Seq r (Star r).
Definition Opt (r : regex) : regex := Alt r Eps.

Fixpoint Str (s : string) : regex :=
  match s with
  | "" => Eps
  | String c t => Seq (Chr (Lit c)) (Str t)
  end.

Fixpoint Cat (rs : list regex) : regex :=
  match rs with
  | [] => Eps
  | r :: t => Seq r (Cat t)
  end.

Fixpoint Times (n : nat) (r : regex) : regex :=
  match n with
  | O => Eps
  | S n' => Seq r (Times n' r)
  end.

Fixpoint Upto (n : nat) (r : regex) : regex :=
  match n with
  | O => Eps
  | S n' => Opt (Seq r (Upto n' r))
  end.

(** [r{m,n}], greedy. *)
Definition Rep (m n : nat) (r : regex) : regex := Seq (Times m r) (Upto (n - m) r).

Definition char_eq (ic : bool) (a x : ascii) : bool :=
  if ic then Ascii.eqb (lower_char x) (lower_char a) else Ascii.eqb x a.

Fixpoint one_of (ic : bool) (cs : string) (x : ascii) : bool :=
  match cs with
  | "" => false
  | String a t => char_eq ic a x || one_of ic t x
  end.

(** [ic] is the flag [re.I]. *)
Definition cls_mem (ic : bool) (c : cls) (x : ascii) : bool :=
  match c with
  | Lit a => char_eq ic a x
  | Digit => isdecimal x
  | Space => isspace x
  | AsciiAlpha => isasciialpha x
  | OneOf cs => one_of ic cs x
  | Dot => negb (is_code 10 x)
  end.

Definition wordch (o : option ascii) : bool :=
  match o with
  | Some c => isword c
  | None => false
  end.

Definition head (s : string) : option ascii :=
  match s with
  | "" => None
  | String c _ => Some c
  end.

(** The end of a match: the text that follows it and group 1. *)
Definition result : Type := string * option string.

(** A position is the character before it ([None] at the start of the
    text) and the text from it on. *)
Definition cont : Type := option ascii -> string -> option string -> option result.

(** The loop of [r*]: [body] matches [r] once; an iteration that reads no
    character is not repeated.  No star of the program has a body that
    matches the empty string. *)
Fixpoint star_loop (body : option ascii -> string -> option string -> cont -> option result)
         (k : cont) (n : nat) (prev : option ascii) (s : string) (g : option string)
         {struct n} : option result :=
  match n with
  | O => k prev s g
  | S n' =>
      match body prev s g
              (fun p' s' g' =>
                 if Nat.ltb (String.length s') (String.length s)
                 then star_loop body k n' p' s' g' else None) with
      | Some x => Some x
      | None => k prev s g
      end
  end.

Fixpoint run (ic : bool) (r : regex) (prev : option ascii) (s : string)
         (g : option string) (k : cont) {struct r} : option result :=
  match r with
  | Eps => k prev s g
  | Chr c =>
      match s with
      | String x t => if cls_mem ic c x then k (Some x) t g else None
      | "" => None
      end
  | Seq r1 r2 => run ic r1 prev s g (fun p' s' g' => run ic r2 p' s' g' k)
  | Alt r1 r2 =>
      match run ic r1 prev s g k with
      | Some x => Some x
      | None => run ic r2 prev s g k
      end
  | Star r1 => star_loop (run ic r1) k (S (String.length s)) prev s g
  | Group r1 =>
      run ic r1 prev s g
        (fun p' s' _ => k p' s' (Some (take (String.length s - String.length s') s)))
  | Bol =>
      match prev with
      | None => k prev s g
      | Some _ => None
      end
  | Eol =>
      match s with
      | "" => k prev s g
      | String c "" => if is_code 10 c then k prev s g else None
      | _ => None
      end
  | WordB => if xorb (wordch prev) (wordch (head s)) then k prev s g else None
  end.

(** A match object: where it starts, [group(0)] and [group(1)]. *)
Record match_obj : Type := MatchObj
  { m_start : nat;
    group0 : string;
    group1 : option string }.

(** The match of [r] that starts at the position [(prev, s)], if any. *)
Definition match_at (ic : bool) (r : regex) (prev : option ascii) (s : string)
  : option (nat * option string) :=
  match run ic r prev s None (fun _ s' g => Some (s', g)) with
  | Some (s', g) => Some (String.length s - String.length s', g)
  | None => None
  end.

(** The match of [r] that starts [i] characters after the position
    [(prev, s)], if any. *)
Fixpoint match_pos (ic : bool) (r : regex) (prev : option ascii) (s : string)
         (i : nat) {struct i} : option (nat * option string) :=
  match i with
  | O => match_at ic r prev s
  | S i' =>
      match s with
      | "" => None
      | String c t => match_pos ic r (Some c) t i'
      end
  end.

Fixpoint search_from (ic : bool) (r : regex) (pos : nat) (prev : option ascii)
         (s : string) : option match_obj :=
  match match_at ic r prev s with
  | Some (n, g) => Some (MatchObj pos (take n s) g)
  | None =>
      match s with
      | "" => None
      | String c t => search_from ic r (S pos) (Some c) t
      end
  end.

(** [re.search(r, s)], with [re.I] when [ic]. *)
Definition search (ic : bool) (r : regex) (s : string) : option match_obj :=
  search_from ic r 0 None s.

(** [re.match(r, s)], with [re.I] when [ic]. *)
Definition match_ (ic : bool) (r : regex) (s : string) : option match_obj :=
  match match_at ic r None s with
  | Some (n, g) => Some (MatchObj 0 (take n s) g)
  | None => None
  end.

(** [re.findall(r, s)] for a pattern without group: the matches from left
    to right, none overlapping another.  [skip] counts the characters of
    the last match that are still ahead. *)
Fixpoint findall_from (ic : bool) (r : regex) (skip : nat) (prev : option ascii)
         (s : string) : list string :=
  match skip with
  | S k =>
      match s with
      | "" => []
      | String c t => findall_from ic r k (Some c) t
      end
  | O =>
      match match_at ic r prev s with
      | Some (n, _) =>
          take n s ::
            match s with
            | "" => []
            | String c t => findall_from ic r (n - 1) (Some c) t
            end
      | None =>
          match s with
          | "" => []
          | String c t => findall_from ic r 0 (Some c) t
          end
      end
  end.

Definition findall (ic : bool) (r : regex) (s : string) : list string :=
  findall_from ic r 0 None s.

(** [re.sub(r, repl, s)] for a replacement without back-reference. *)
Fixpoint sub_from (ic : bool) (r : regex) (repl : string) (skip : nat)
         (prev : option ascii) (s : string) : string :=
  match skip with
  | S k =>
      match s with
      | "" => ""
      | String c t => sub_from ic r repl k (Some c) t
      end
  | O =>
      match match_at ic r prev s with
      | Some (O, _) =>
          repl ++
            match s with
            | "" => ""
            | String c t => String c (sub_from ic r repl 0 (Some c) t)
            end
      | Some (S n, _) =>
          repl ++
            match s with
            | "" => ""
            | String c t => sub_from ic r repl n (Some c) t
            end
      | None =>
          match s with
          | "" => ""
          | String c t => String c (sub_from ic r repl 0 (Some c) t)
          end
      end
  end.

Definition sub (ic : bool) (r : regex) (repl s : string) : string :=
  sub_from ic r repl 0 None s.

End Re.

(** ** The patterns of the program *)

Module Pat.

Import Re.

Definition d : regex := Chr Digit.
Definition ws : regex := Chr Space.
Definition sep : regex := Chr (OneOf ":-").

(** [Invoice\s*No\.?[:\-]?\s*(\d+)] *)
Definition invoice_no : regex :=
  Cat [Str "Invoice"; Star ws; Str "No"; Opt (Chr (Lit ".")); Opt sep; Star ws;
       Group (Plus d)].

(** [Inv#?[:\-]?\s*(\d+)] *)
Definition inv : regex :=
  Cat [Str "Inv"; Opt (Chr (Lit "#")); Opt sep; Star ws; Group (Plus d)].

(** [Invoice\s*ID[:\-]?\s*(\d+)] *)
Definition invoice_id : regex :=
  Cat [Str "Invoice"; Star ws; Str "ID"; Opt sep; Star ws; Group (Plus d)].

(** [\d{1,2}/\d{1,2}/\d{2,4}] *)
Definition date_numeric : regex :=
  Cat [Rep 1 2 d; Chr (Lit "/"); Rep 1 2 d; Chr (Lit "/"); Rep 2 4 d].

(** [[A-Za-z]{3,9}\s+\d{1,2},\s*\d{4}] *)
Definition date_month : regex :=
  Cat [Rep 3 9 (Chr AsciiAlpha); Plus ws; Rep 1 2 d; Chr (Lit ","); Star ws;
       Rep 4 4 d].

(** [^(?:Seller|Vendor)\s*[:\-]\s*(.+)$] *)
Definition inline_label : regex :=
  Cat [Bol; Alt (Str "Seller") (Str "Vendor"); Star ws; sep; Star ws;
       Group (Plus (Chr Dot)); Eol].

(** [^\s*\d+\.\s+] *)
Definition numbered : regex :=
  Cat [Bol; Star ws; Plus d; Chr (Lit "."); Plus ws].

(** [\beach\b] *)
Definition each : regex := Cat [WordB; Str "each"; WordB].

(** [(?:\d+(?:[.,]\d+)+|\d+\s\d+|\d+%)] *)
Definition number_token : regex :=
  Alt (Seq (Plus d) (Plus (Seq (Chr (OneOf ".,")) (Plus d))))
    (Alt (Cat [Plus d; ws; Plus d])
       (Seq (Plus d) (Chr (Lit "%")))).

(** [^\s*\d+\.?\s*] *)
Definition leading_number : regex :=
  Cat [Bol; Star ws; Plus d; Opt (Chr (Lit ".")); Star ws].

(** [[\d]+(?:[.,]\d+)?] *)
Definition numeric : regex :=
  Seq (Plus d) (Opt (Seq (Chr (OneOf ".,")) (Plus d))).

(** [\s+] *)
Definition spaces : regex := Plus ws.

(** [^Summary] *)
Definition summary : regex := Seq Bol (Str "Summary").

End Pat.

(** ** Numbers: [int * float] and [int()] *)

Module Num.

(** The conversion of an [int] that [int * float] starts with; an [int]
    beyond the range of a [float] raises. *)
Definition float_of_int (n : Z) : res float :=
  let f := SF2Prim (binary_normalize prec emax n 0 false) in
  if PrimFloat.is_infinity f then Raise OverflowError else Ok f.

(** [n * x] *)
Definition int_mul_float (n : Z) (x : float) : res float :=
  f <- float_of_int n ;; Ok (PrimFloat.mul f x).

(** [int(x)]: the integer part, rounded toward zero. *)
Definition int_of_float (x : float) : res Z :=
  match Prim2SF x with
  | S754_nan => Raise ValueError
  | S754_infinity _ => Raise OverflowError
  | S754_zero _ => Ok 0%Z
  | S754_finite s m e =>
      let v := (if 0 <=? e then Z.pos m * 2 ^ e else Z.pos m / 2 ^ (- e))%Z in
      Ok (if s then (- v)%Z else v)
  end.

Definition f0_2 : float := 0x1.999999999999ap-3%float.  (* 0.2 *)
Definition f0_8 : float := 0x1.999999999999ap-1%float.  (* 0.8 *)
Definition f1_0 : float := 1%float.                     (* 1.0 *)

End Num.

(** ** The table read from the OCR output

    [pd.read_csv(StringIO(raw), sep='\t')] yields one row per recognised
    element and infers the type of the column [text] from its values: a
    column whose words all read as numbers holds numbers, one whose words
    all read as truth values holds Booleans, any other column holds
    strings.  A text that is absent, or that [read_csv] takes for the
    mark of a missing value, is [NaN]. *)

Inductive cell : Type :=
| NaN
| Text (s : string)
| Integer (n : Z)
| Number (x : float)
| Boolean (b : bool).

Record row : Type := Row
  { text : cell;
    block_num : Z;
    par_num : Z;
    line_num : Z;
    word_num : Z }.

Module Pd.

(** [pd.isna] on one value. *)
Definition isna (c : cell) : bool :=
  match c with
  | NaN => true
  | Number x => PrimFloat.is_nan x
  | _ => false
  end.

(** [df.dropna(subset=['text'])] *)
Definition dropna (df : list row) : list row :=
  filter (fun r => negb (isna (text r))) df.

(** The order of [sort_values(['block_num','par_num','line_num','word_num'])]. *)
Definition row_leb (a b : row) : bool :=
  (if block_num a =? block_num b then
     if par_num a =? par_num b then
       if line_num a =? line_num b then word_num a <=? word_num b
       else line_num a <? line_num b
     else par_num a <? par_num b
   else block_num a <? block_num b)%Z.

Fixpoint insert {A : Type} (leb : A -> A -> bool) (x : A) (l : list A) : list A :=
  match l with
  | [] => [x]
  | y :: t => if leb x y then x :: l else y :: insert leb x t
  end.

(** A stable sort: equal rows keep their order. *)
Fixpoint sort {A : Type} (leb : A -> A -> bool) (l : list A) : list A :=
  match l with
  | [] => []
  | x :: t => insert leb x (sort leb t)
  end.

Definition sort_values (df : list row) : list row := sort row_leb df.

Fixpoint uniq (l : list Z) : list Z :=
  match l with
  | x :: ((y :: _) as t) => if (x =? y)%Z then uniq t else x :: uniq t
  | _ => l
  end.

(** The keys of [df.groupby('line_num')], in increasing order. *)
Definition group_keys (df : list row) : list Z :=
  uniq (sort Z.leb (map line_num df)).

(** The texts of the rows that hold a string. *)
Definition texts (df : list row) : list string :=
  flat_map (fun r => match text r with Text t => [t] | _ => [] end) df.

(** The items of [sep.join(ws)]: a value that is no [str] raises
    [TypeError]. *)
Fixpoint strings (ws : list cell) : res (list string) :=
  match ws with
  | [] => Ok []
  | Text t :: rest => l <- strings rest ;; Ok (t :: l)
  | _ :: _ => Raise TypeError
  end.

(** [sep.join(ws)] on the column [text] of a group. *)
Definition join_texts (sep : string) (df : list row) : res string :=
  l <- strings (map text df) ;; Ok (Py.join sep l).

(** The calls of [f] on the elements of [l], from left to right, up to the
    first that raises. *)
Fixpoint traverse {A B : Type} (f : A -> res B) (l : list A) : res (list B) :=
  match l with
  | [] => Ok []
  | x :: t => y <- f x ;; ys <- traverse f t ;; Ok (y :: ys)
  end.

(** [df.groupby('line_num')['text'].apply(lambda ws: ' '.join(ws)).tolist()]:
    one string per value of [line_num], the rows of a group in the order
    of [df]; [TypeError] when the column holds no strings. *)
Definition groupby_line_num_join (df : list row) : res (list string) :=
  traverse (fun k => join_texts " " (filter (fun r => (line_num r =? k)%Z) df))
    (group_keys df).

End Pd.

(** ** The program *)

Record line_item : Type := LineItem
  { item_no : Z;
    description : string;
    quantity : string;
    unit_price : string;
    net_worth : string;
    vat : string;
    gross_worth : string }.

(** The loops [for pat in [...]: m = re.search(pat, txt, ...); if m: ...; break]
    of [extract_header]. *)
Fixpoint first_search (ic : bool) (pats : list Re.regex) (txt : string)
  : option Re.match_obj :=
  match pats with
  | [] => None
  | pat :: rest =>
      match Re.search ic pat txt with
      | Some m => Some m
      | None => first_search ic rest txt
      end
  end.

Definition inv_no_patterns : list Re.regex := [Pat.invoice_no; Pat.inv; Pat.invoice_id].
Definition inv_dt_patterns : list Re.regex := [Pat.date_numeric; Pat.date_month].

(** Lines 34 to 39 of [extract_header]: [inv_no] from the header text. *)
Definition header_inv_no (txt : string) : option string :=
  match first_search true inv_no_patterns txt with
  | Some m => Re.group1 m
  | None => None
  end.

(** Lines 40 to 45 of [extract_header]: [inv_dt] from the header text. *)
Definition header_inv_dt (txt : string) : option string :=
  match first_search false inv_dt_patterns txt with
  | Some m => Some (Re.group0 m)
  | None => None
  end.

(** The scan [for nxt in lines[i+1:]] of [extract_vendor]. *)
Fixpoint next_name (lines : list string) : option string :=
  match lines with
  | [] => None
  | nxt :: rest =>
      if Py.is_empty nxt then next_name rest
      else if Py.startswith "client" (Py.lower nxt) then next_name rest
      else Some nxt
  end.

Definition is_seller_label (ln : string) : bool :=
  Py.startswith "seller:" (Py.lower ln)
  && String.eqb (Py.lower (Py.strip (Py.rstrip_chars ":" ln))) "seller".

(** The first loop of [extract_vendor]. *)
Fixpoint standalone_seller (lines : list string) : option string :=
  match lines with
  | [] => None
  | ln :: rest =>
      if is_seller_label ln then
        match next_name rest with
        | Some nxt => Some nxt
        | None => standalone_seller rest
        end
      else standalone_seller rest
  end.

(** The second loop of [extract_vendor]. *)
Fixpoint inline_seller (lines : list string) : option string :=
  match lines with
  | [] => None
  | ln :: rest =>
      match Re.match_ true Pat.inline_label ln with
      | Some m =>
          match Re.group1 m with
          | Some g =>
              let name := Py.strip g in
              if negb (String.eqb (Py.lower name) "client") then Some name
              else inline_seller rest
          | None => inline_seller rest
          end
      | None => inline_seller rest
      end
  end.

(** The third loop of [extract_vendor]. *)
Fixpoint first_plain_line (lines : list string) : option string :=
  match lines with
  | [] => None
  | ln :: rest =>
      if negb (Py.is_empty ln)
         && match Re.search false Pat.d ln with Some _ => false | None => true end
      then Some ln
      else first_plain_line rest
  end.

Definition extract_vendor (txt : string) : option string :=
  let lines := map Py.strip (Py.splitlines txt) in
  match standalone_seller lines with
  | Some v => Some v
  | None =>
      match inline_seller lines with
      | Some v => Some v
      | None => first_plain_line lines
      end
  end.

Definition is_match (m : option Re.match_obj) : bool :=
  match m with
  | Some _ => true
  | None => false
  end.

(** The loop of [parse_entries]; [ents] is the list built so far. *)
Fixpoint collect_entries (stop_summary : bool) (lines ents : list string)
  : list string :=
  match lines with
  | [] => ents
  | ln :: rest =>
      if stop_summary && Py.contains "SUMMARY" (Py.upper ln) then ents
      else if is_match (Re.match_ false Pat.numbered ln)
      then collect_entries stop_summary rest (ents ++ [Py.strip ln])
      else
        match ents with
        | [] => collect_entries stop_summary rest ents
        | _ :: _ =>
            collect_entries stop_summary rest
              (removelast ents ++ [last ents "" ++ " " ++ Py.strip ln]%string)
        end
  end.

(** Lines 84 to 86 of [parse_entries]: the list [lines], from the table on. *)
Definition table_lines (df : list row) : res (list string) :=
  let df := Pd.dropna df in
  let df := Pd.sort_values df in
  Pd.groupby_line_num_join df.

(** Lines 84 to 95 of [parse_entries], from the table on. *)
Definition entries_of_table (df : list row) (stop_summary : bool)
  : res (list string) :=
  lines <- table_lines df ;;
  Ok (collect_entries stop_summary lines []).

(** The body of the loop of [extract_line_items] for one entry. *)
Definition line_item_of (x : Z) (entry : string) : res line_item :=
  let clean := Re.sub true Pat.each "" entry in
  let nums := Re.findall false Pat.number_token entry in
  let item_no := x in
  quantity <- Py.index nums 0 ;;
  unit_price <- Py.index nums 1 ;;
  net_worth <- Py.index nums 2 ;;
  n3 <- Py.index nums 3 ;;
  let vat := (n3 ++ "%")%string in
  gross_worth <- Py.index nums 4 ;;
  let desc := Re.sub false Pat.leading_number "" clean in
  let desc := Re.sub false Pat.numeric "" desc in
  let desc := Py.replace "," "" (Py.strip (Re.sub false Pat.spaces " " desc)) in
  Ok (LineItem item_no desc quantity unit_price net_worth vat gross_worth).

(** Lines 104 to 133 of [extract_line_items]: the loop over the entries. *)
Fixpoint line_items_loop (ents : list string) (x : Z) (items : list line_item)
  : res (list line_item) :=
  match ents with
  | [] => Ok items
  | entry :: rest =>
      let x := (x + 1)%Z in
      item <- line_item_of x entry ;;
      line_items_loop rest x (items ++ [item])
  end.

Definition line_items_of_entries (ents : list string) : res (list line_item) :=
  line_items_loop ents 0 [].

(** The body of the loop of [extract_summary] for one entry that is kept.
    The one-entry dictionary [{key: val}] is the pair [(key, val)]. *)
Definition summary_pair (entry : string) : res (string * string) :=
  match firstn 2 (Py.split1 ":" entry ++ [""]) with
  | [key; val] => Ok (Py.strip key, Py.strip val)
  | _ => Raise ValueError
  end.

(** Lines 138 to 144 of [extract_summary]: the loop over the entries. *)
Fixpoint summary_loop (ents : list string) (summary : list (string * string))
  : res (list (string * string)) :=
  match ents with
  | [] => Ok summary
  | entry :: rest =>
      if is_match (Re.match_ true Pat.summary entry) then summary_loop rest summary
      else
        kv <- summary_pair entry ;;
        summary_loop rest (summary ++ [kv])
  end.

Definition summary_of_entries (ents : list string) : res (list (string * string)) :=
  summary_loop ents [].

(** *** The functions on images

    The image type, [Image.size], [Image.crop] and the two calls of
    pytesseract are parameters: [image_to_table] is [image_to_data]
    followed by [pd.read_csv].  The OCR engine and the reader of the
    table may raise, as [Image.crop] may. *)

Section Pipeline.

Variable Image : Type.
Variable size : Image -> Z * Z.
Variable pil_crop : Image -> Z * Z * Z * Z -> res Image.
Variable image_to_string : Image -> string -> res string.
Variable image_to_table : Image -> string -> res (list row).

Definition crop (img : Image) (top bot : float) : res Image :=
  let '(w, h) := size img in
  ft <- Num.int_mul_float h top ;;
  t <- Num.int_of_float ft ;;
  fb <- Num.int_mul_float h bot ;;
  b <- Num.int_of_float fb ;;
  pil_crop img (0, t, w, b)%Z.

Definition extract_header (img : Image) : res (option string * option string) :=
  let '(w, h) := size img in
  fb <- Num.int_mul_float h Num.f0_2 ;;
  b <- Num.int_of_float fb ;;
  hdr <- pil_crop img (0, 0, w, b)%Z ;;
  txt <- image_to_string hdr "--psm 6" ;;
  Ok (header_inv_no txt, header_inv_dt txt).

Definition parse_entries (img : Image) (stop_summary : bool) : res (list string) :=
  df <- image_to_table img "--psm 6" ;;
  entries_of_table df stop_summary.

Definition extract_line_items (img : Image) : res (list line_item) :=
  band <- crop img Num.f0_2 Num.f0_8 ;;
  ents <- parse_entries band true ;;
  line_items_of_entries ents.

Definition extract_summary (img : Image) : res (list (string * string)) :=
  band <- crop img Num.f0_8 Num.f1_0 ;;
  ents <- parse_entries band false ;;
  summary_of_entries ents.

End Pipeline.

Arguments crop {Image} size pil_crop img top bot.
Arguments extract_header {Image} size pil_crop image_to_string img.
Arguments parse_entries {Image} image_to_table img stop_summary.
Arguments extract_line_items {Image} size pil_crop image_to_table img.
Arguments extract_summary {Image} size pil_crop image_to_table img.

(** *** The script

    Lines 149 to 168: what the script computes from an uploaded image and
    shows with [st.json].  The summary is computed and not shown.  The
    three steps of [preprocess] are operations of Pillow on the pixels;
    [preprocess] is a parameter, and it may raise: the pixels of the file
    are decoded there. *)

Record report : Type := Report
  { vendor : option string;
    invoice_number : option string;
    invoice_date : option string;
    line_items : list line_item }.

Section Script.

Context {Image : Type}.
Variable size : Image -> Z * Z.
Variable pil_crop : Image -> Z * Z * Z * Z -> res Image.
Variable image_to_string : Image -> string -> res string.
Variable image_to_table : Image -> string -> res (list row).
Variable preprocess : Image -> res Image.

Definition on_upload (img : Image) : res report :=
  proc <- preprocess img ;;
  txt <- image_to_string proc "--psm 3" ;;
  let vendor := extract_vendor txt in
  hdr <- extract_header size pil_crop image_to_string proc ;;
  let '(inv_no, inv_dt) := hdr in
  items <- extract_line_items size pil_crop image_to_table proc ;;
  summary <- extract_summary size pil_crop image_to_table proc ;;
  Ok (Report vendor inv_no inv_dt items).

End Script.

Arguments on_upload {Image} size pil_crop image_to_string image_to_table preprocess img.

(** *** A concrete page

    An image stands for what the collaborators return on it: its size,
    the transcript and the table of the OCR engine.  [Image.crop] is that
    of Pillow: a box whose right or lower edge lies before its left or
    upper edge raises [ValueError]; a box of more than twice
    [MAX_IMAGE_PIXELS] pixels, a side of no pixel counted as one, raises
    [DecompressionBombError]; a coordinate outside the range of a C [int]
    raises [OverflowError]; any other box is accepted, also one that
    leaves the image.  What the engine reads is taken from the region
    itself, so a crop changes the size only. *)

Module Page.

Record image : Type := Image
  { width : Z;
    height : Z;
    transcript : string;
    table : list row }.

Definition size (img : image) : Z * Z := (width img, height img).

(** [Image.MAX_IMAGE_PIXELS] *)
Definition max_image_pixels : Z := 89478485.

(** The values of a C [int]. *)
Definition c_int (z : Z) : bool := ((- 2 ^ 31 <=? z) && (z <? 2 ^ 31))%Z.

Definition pil_crop (img : image) (box : Z * Z * Z * Z) : res image :=
  let '(x0, y0, x1, y1) := box in
  if (x1 <? x0)%Z then Raise ValueError
  else if (y1 <? y0)%Z then Raise ValueError
  else if (2 * max_image_pixels <? Z.max 1 (x1 - x0) * Z.max 1 (y1 - y0))%Z
  then Raise DecompressionBombError
  else if negb (c_int x0 && c_int y0 && c_int x1 && c_int y1)
  then Raise OverflowError
  else Ok (Image (x1 - x0) (y1 - y0) (transcript img) (table img)).

Definition image_to_string (img : image) (config : string) : res string :=
  Ok (transcript img).
Definition image_to_table (img : image) (config : string) : res (list row) :=
  Ok (table img).

Definition crop := crop size pil_crop.
Definition extract_header := extract_header size pil_crop image_to_string.
Definition parse_entries := parse_entries image_to_table.
Definition extract_line_items := extract_line_items size pil_crop image_to_table.
Definition extract_summary := extract_summary size pil_crop image_to_table.

(** The words of one text line, numbered from 1, as rows of the table. *)
Fixpoint words (b p l w : Z) (ws : list string) : list row :=
  match ws with
  | [] => []
  | x :: t => Row (Text x) b p l w :: words b p l (w + 1) t
  end.

End Page.

(** ** What the specification says, where it is compared with the code *)

Module Spec.

(** The key of a logical line: block, paragraph and line index. *)
Definition line_key (r : row) : Z * Z * Z := (block_num r, par_num r, line_num r).

Definition same_line (a b : row) : bool :=
  ((block_num a =? block_num b) && (par_num a =? par_num b)
   && (line_num a =? line_num b))%Z.

(** The partition of a table, sorted by the four indices, into runs of
    rows with the same key. *)
Fixpoint partition_lines (df : list row) : list (list row) :=
  match df with
  | [] => []
  | r :: t =>
      match partition_lines t with
      | (r' :: g) :: gs =>
          if same_line r r' then (r :: r' :: g) :: gs else [r] :: (r' :: g) :: gs
      | _ => [[r]]
      end
  end.

(** The logical lines of the specification: the tokens with a text,
    sorted, one line per key, the texts joined by single spaces. *)
Definition logical_lines (df : list row) : list string :=
  map (fun g => Py.join " " (Pd.texts g))
    (partition_lines (Pd.sort_values (Pd.dropna df))).

(** A percentage ["<value>%"]: a value without percent sign, then one. *)
Fixpoint is_percentage (s : string) : bool :=
  match s with
  | "" => false
  | String c "" => Ascii.eqb c "%"
  | String c t => negb (Ascii.eqb c "%") && is_percentage t
  end.

(** An entry that starts with "Summary", in any case. *)
Definition starts_with_summary (entry : string) : bool :=
  Py.startswith "summary" (Py.lower entry).

(** The part of an entry before its first colon, the whole entry when it
    has none. *)
Fixpoint before_colon (s : string) : string :=
  match s with
  | "" => ""
  | String c t => if Ascii.eqb c ":" then "" else String c (before_colon t)
  end.

(** The part of an entry after its first colon, empty when it has none. *)
Fixpoint after_colon (s : string) : string :=
  match s with
  | "" => ""
  | String c t => if Ascii.eqb c ":" then t else after_colon t
  end.

Definition summary_pairs (ents : list string) : list (string * string) :=
  map (fun e => (Py.strip (before_colon e), Py.strip (after_colon e)))
    (filter (fun e => negb (starts_with_summary e)) ents).

Fixpoint all_colons (s : string) : bool :=
  match s with
  | "" => true
  | String c t => Ascii.eqb c ":" && all_colons t
  end.

(** A line that is "seller", in any case, followed by colons, at least
    one, and nothing else. *)
Definition seller_label (ln : string) : bool :=
  Py.startswith "seller:" (Py.lower ln) && all_colons (Py.drop 7 ln).

(** A line that the scan after the label passes over. *)
Definition skipped (ln : string) : bool :=
  Py.is_empty ln || Py.startswith "client" (Py.lower ln).

End Spec.

(** ** Notions of the statements *)

(** The numeric tokens of an entry: the list [nums] of [extract_line_items]. *)
Definition tokens (entry : string) : list string :=
  Re.findall false Pat.number_token entry.

(** [int(h * x)], as in [crop]. *)
Definition int_of_product (h : Z) (x : float) : res Z :=
  f <- Num.int_mul_float h x ;; Num.int_of_float f.

(** The text starts with a decimal digit. *)
Definition starts_with_digit (s : string) : bool :=
  match s with
  | String c _ => Py.isdecimal c
  | "" => false
  end.

(** Every character of the text satisfies [p]. *)
Fixpoint all_chars (p : ascii -> bool) (s : string) : bool :=
  match s with
  | "" => true
  | String c t => p c && all_chars p t
  end.

(** The last character of the text [String c s]. *)
Fixpoint last_char (c : ascii) (s : string) : ascii :=
  match s with
  | "" => c
  | String d t => last_char d t
  end.

(** A text that neither starts nor ends with a white-space character. *)
Definition clean_ends (t : string) : bool :=
  match t with
  | "" => true
  | String c t' => negb (Py.isspace c) && negb (Py.isspace (last_char c t'))
  end.

(** [t] is [raw], trimmed: [raw] is [t] between two runs of white space,
    and [t] has no white space at its ends. *)
Definition trimmed (raw t : string) : Prop :=
  exists l r,
    raw = (l ++ t ++ r)%string
    /\ all_chars Py.isspace l = true /\ all_chars Py.isspace r = true
    /\ clean_ends t = true.

(** The pair of an entry of the summary: the text before the first colon
    and the text after it, each trimmed. *)
Definition pair_of_entry (entry : string) (kv : string * string) : Prop :=
  trimmed (Spec.before_colon entry) (fst kv)
  /\ trimmed (Spec.after_colon entry) (snd kv).

(** Between [lo] and [hi] decimal digits. *)
Definition digits (lo hi : nat) (s : string) : Prop :=
  all_chars Py.isdecimal s = true /\ lo <= String.length s <= hi.

(** A date in numeric form: one or two digits, a slash, one or two digits,
    a slash, two to four digits. *)
Definition numeric_date (w : string) : Prop :=
  exists a b c,
    w = (a ++ "/" ++ b ++ "/" ++ c)%string
    /\ digits 1 2 a /\ digits 1 2 b /\ digits 2 4 c.

(** The order of the lines by [line_num]. *)
Definition line_le (a b : row) : Prop := (line_num a <= line_num b)%Z.

(** All rows of the table lie in one block and one paragraph. *)
Definition one_paragraph (df : list row) : Prop :=
  forall r r', In r df -> In r' df ->
               block_num r = block_num r' /\ par_num r = par_num r'.

(** The rows of a group of [groupby('line_num')]. *)
Definition with_line (k : Z) (l : list row) : list row :=
  filter (fun r => (line_num r =? k)%Z) l.

(** A value of the column [text] that does not stop line 86: a string, or
    a missing value, which [dropna] removes. *)
Definition joinable (c : cell) : bool :=
  match c with
  | Text _ => true
  | _ => Pd.isna c
  end.

(** A literal is a prefix of the text, in any case when [ic]. *)
Fixpoint prefix_ci (ic : bool) (lit s : string) : bool :=
  match lit, s with
  | "", _ => true
  | String a lit', String x s' => Re.char_eq ic a x && prefix_ci ic lit' s'
  | String _ _, "" => false
  end.

(** The character before the position [n] characters further. *)
Fixpoint prev_after (prev : option ascii) (n : nat) (s : string) : option ascii :=
  match n, s with
  | S n', String c t => prev_after (Some c) n' t
  | _, _ => prev
  end.

(** Two continuations agree on the texts of at most [n] characters. *)
Definition agree_below (n : nat) (k1 k2 : Re.cont) : Prop :=
  forall p s g, String.length s <= n -> k1 p s g = k2 p s g.

(** A matcher calls its continuation on no text longer than its own. *)
Definition local_body
           (body : option ascii -> string -> option string -> Re.cont -> option Re.result)
  : Prop :=
  forall prev s g k1 k2,
    agree_below (String.length s) k1 k2 -> body prev s g k1 = body prev s g k2.

(** The greedy loop of [c*] for a class [c], by recursion on the text. *)
Fixpoint star_chr (ic : bool) (c : Re.cls) (k : Re.cont) (prev : option ascii)
         (s : string) (g : option string) : option Re.result :=
  match s with
  | String x t =>
      if Re.cls_mem ic c x then
        match star_chr ic c k (Some x) t g with
        | Some r => Some r
        | None => k prev s g
        end
      else k prev s g
  | "" => k prev s g
  end.

(** ** Inputs of the examples *)

(** The line feed. *)
Definition nl : string := String (ascii_of_N 10) "".

(** The entry of the specification's example: its quantity 2 is a plain
    integer. *)
Definition widget_entry : string := "1. Widget 2 10.00 20.00 5% 21.00".

(** An entry with five numeric tokens, the fourth a percentage. *)
Definition percent_entry : string := "1. Widget 2,00 10.00 20.00 5% 21.00".

(** Two paragraphs of one block, each with a line numbered 1. *)
Definition two_paragraphs : list row :=
  Page.words 1 1 1 1 ["1."; "Widget"] ++ Page.words 1 2 1 1 ["2."; "Gadget"].

(** An empty page of 80 by 100 pixels. *)
Definition a_page : Page.image := Page.Image 80 100 "" [].

(** A page whose body holds a well-formed entry, then one with a single
    numeric token. *)
Definition short_entry_page : Page.image :=
  Page.Image 80 100 ""
    (Page.words 1 1 1 1 ["1."; "Widget"; "2,00"; "10.00"; "20.00"; "5,0"; "21.00"]
     ++ Page.words 1 1 2 1 ["2."; "Gadget"; "3,00"]).

(** A summary band with two lines "key: value" and no numbered line. *)
Definition totals_page : Page.image :=
  Page.Image 80 100 ""
    (Page.words 1 1 1 1 ["Subtotal:"; "100.00"] ++ Page.words 1 1 2 1 ["Tax:"; "5.00"]).

(** ** Notions of the further properties *)

(** An item numbered [n] is made of the first five numeric tokens of an
    entry, the fourth with a percent sign after it. *)
Definition item_of_entry (n : Z) (entry : string) (it : line_item) : Prop :=
  item_no it = n
  /\ exists q u w v g,
      firstn 5 (tokens entry) = [q; u; w; v; g]
      /\ quantity it = q /\ unit_price it = u /\ net_worth it = w
      /\ vat it = (v ++ "%")%string /\ gross_worth it = g.

(** The description of an entry, as [extract_line_items] computes it. *)
Definition description_of (entry : string) : string :=
  let clean := Re.sub true Pat.each "" entry in
  let desc := Re.sub false Pat.leading_number "" clean in
  let desc := Re.sub false Pat.numeric "" desc in
  Py.replace "," "" (Py.strip (Re.sub false Pat.spaces " " desc)).

Definition not_digit (c : ascii) : bool := negb (Py.isdecimal c).
Definition not_comma (c : ascii) : bool := negb (Ascii.eqb c ",").

(** A line that opens an entry: white space, none or more; decimal digits,
    one or more; a full stop; a white-space character. *)
Definition numbered_line (ln : string) : bool :=
  match Py.lstrip_by Py.isspace ln with
  | String x t =>
      Py.isdecimal x
      && match Py.lstrip_by Py.isdecimal t with
         | String y (String w _) => Ascii.eqb y "." && Py.isspace w
         | _ => false
         end
  | "" => false
  end.

(** A line at which [parse_entries] stops when asked to stop at the
    summary. *)
Definition summary_line (ln : string) : bool :=
  Py.contains "SUMMARY" (Py.upper ln).

(** Two entries as they come from the body of an invoice; the numbers that
    the OCR engine read in front are 4 and 9. *)
Definition two_entries : list string :=
  ["4. Blue Widget each 2,00 10.00 20.00 5,0 21.00";
   "9. Nut, bolt 3 sets 1,50 4,50 4,50 10.0 4,95 99.00"].

Definition two_items : list line_item :=
  [LineItem 1 "Blue Widget" "2,00" "10.00" "20.00" "5,0%" "21.00";
   LineItem 2 "Nut bolt sets" "1,50" "4,50" "4,50" "10.0%" "4,95"].

Definition not_colon (c : ascii) : bool := negb (Ascii.eqb c ":").

(** The lines of a body: a heading, an entry on two lines, an entry. *)
Definition wrapped_lines : list string :=
  ["Item Qty Price"; "1. Widget 2,00"; "  wrapped"; "2. Gadget"].

(** The lines of a body that runs into the summary. *)
Definition body_lines : list string :=
  ["1. Widget"; "wrapped"; "Summary of totals"; "2. Late"].

(** A line that [extract_vendor] cannot take as a name of last resort: it
    is blank or holds a decimal digit. *)
Definition blank_or_digit (ln : string) : bool :=
  Py.is_empty ln || negb (all_chars not_digit ln).

(** A line that starts with neither of the labels, in any case. *)
Definition unlabelled (ln : string) : bool :=
  negb (Py.startswith "seller" (Py.lower ln))
  && negb (Py.startswith "vendor" (Py.lower ln)).

Definition not_linefeed (c : ascii) : bool := negb (Py.is_code 10 c).

(** A line that carries its name after the label: "Seller" or "Vendor" in
    any case, white space, a colon or a hyphen, white space, and the name.
    The name is not empty, has no white space at its ends and no line
    feed. *)
Definition inline_vendor_line (ln name : string) : Prop :=
  exists (label gap1 : string) (c : ascii) (gap2 : string),
    ln = (label ++ gap1 ++ String c (gap2 ++ name))%string
    /\ (Py.lower label = "seller" \/ Py.lower label = "vendor")
    /\ all_chars Py.isspace gap1 = true
    /\ (c = ":" \/ c = "-")%char
    /\ all_chars Py.isspace gap2 = true
    /\ name <> "" /\ Py.strip name = name
    /\ all_chars not_linefeed name = true.

Definition vendor_text : string :=
  String.concat nl ["INVOICE 2024"; ""; "Vendor -  Beta LLC "; "Seller: Gamma"].

Definition plain_text : string :=
  String.concat nl ["  12 Main St"; ""; " Acme Tools "; "Client: Bob"].

(** Between [lo] and [hi] ASCII letters. *)
Definition letters (lo hi : nat) (s : string) : Prop :=
  all_chars Py.isasciialpha s = true /\ lo <= String.length s <= hi.

(** A date with the name of a month: three to nine letters, white space,
    one or two digits, a comma, white space or none, four digits. *)
Definition month_date (w : string) : Prop :=
  exists m g1 a g2 y,
    w = (m ++ g1 ++ a ++ "," ++ g2 ++ y)%string
    /\ letters 3 9 m
    /\ (g1 <> "" /\ all_chars Py.isspace g1 = true)
    /\ digits 1 2 a
    /\ all_chars Py.isspace g2 = true
    /\ digits 4 4 y.

(** The table of a band that holds amounts only: the row of the line,
    without text, and two words that [pd.read_csv] reads as numbers. *)
Definition amounts_table : list row :=
  [Row NaN 1 1 1 0; Row (Number 100) 1 1 1 1; Row (Number 5) 1 1 1 2].

Definition amounts_page : Page.image := Page.Image 80 100 "" amounts_table.

(** The four indices of a row, the keys of [sort_values] in
    [parse_entries]. *)
Definition word_key (r : row) : Z * Z * Z * Z :=
  (block_num r, par_num r, line_num r, word_num r).

(** * Properties *)

(** ** List indexing *)

Lemma index_cases {A : Type} (l : list A) (i : Z) :
  (exists x, Py.index l i = Ok x) \/ Py.index l i = Raise IndexError.
Proof.
  unfold Py.index.
  destruct (_ || _); [now right|].
  destruct (nth_error _ _); [left; eauto | now right].
Qed.

Lemma index_beyond {A : Type} (l : list A) (i : Z) :
  (Z.of_nat (List.length l) <= i)%Z -> Py.index l i = Raise IndexError.
Proof.
  intros H. unfold Py.index.
  destruct (i <? 0)%Z eqn:Hi; [apply Z.ltb_lt in Hi; lia|].
  replace (Z.of_nat (List.length l) <=? i)%Z with true
    by (symmetry; apply Z.leb_le; lia).
  now rewrite orb_true_r.
Qed.

Lemma index_nth_error {A : Type} (l : list A) (k : nat) (x : A) :
  nth_error l k = Some x -> Py.index l (Z.of_nat k) = Ok x.
Proof.
  intros E.
  assert (Hk : k < List.length l) by (apply nth_error_Some; congruence).
  unfold Py.index.
  destruct (Z.of_nat k <? 0)%Z eqn:Hi; [apply Z.ltb_lt in Hi; lia|].
  rewrite Hi.
  replace (Z.of_nat (List.length l) <=? Z.of_nat k)%Z with false
    by (symmetry; apply Z.leb_gt; lia).
  simpl. now rewrite Nat2Z.id, E.
Qed.

(** ** The loop of [extract_line_items] *)

Lemma line_item_of_cases (x : Z) (entry : string) :
  (exists it, line_item_of x entry = Ok it) \/ line_item_of x entry = Raise IndexError.
Proof.
  unfold line_item_of.
  destruct (index_cases (Re.findall false Pat.number_token entry) 0) as [[q ->]| ->];
    [simpl|now right].
  destruct (index_cases (Re.findall false Pat.number_token entry) 1) as [[u ->]| ->];
    [simpl|now right].
  destruct (index_cases (Re.findall false Pat.number_token entry) 2) as [[n ->]| ->];
    [simpl|now right].
  destruct (index_cases (Re.findall false Pat.number_token entry) 3) as [[v ->]| ->];
    [simpl|now right].
  destruct (index_cases (Re.findall false Pat.number_token entry) 4) as [[w ->]| ->];
    [simpl|now right].
  left; eauto.
Qed.

Lemma line_item_of_short (x : Z) (entry : string) :
  List.length (tokens entry) < 5 -> line_item_of x entry = Raise IndexError.
Proof.
  intros H.
  destruct (line_item_of_cases x entry) as [[it E]|E]; [|exact E].
  exfalso. unfold line_item_of in E. fold (tokens entry) in E.
  assert (H4 : Py.index (tokens entry) 4 = Raise IndexError)
    by (apply index_beyond; lia).
  rewrite H4 in E.
  destruct (Py.index (tokens entry) 0); [|discriminate].
  destruct (Py.index (tokens entry) 1); [|discriminate].
  destruct (Py.index (tokens entry) 2); [|discriminate].
  destruct (Py.index (tokens entry) 3); discriminate.
Qed.

Lemma line_item_of_enough (x : Z) (entry : string) :
  5 <= List.length (tokens entry) ->
  exists q u n v g d,
    firstn 5 (tokens entry) = [q; u; n; v; g] /\
    line_item_of x entry = Ok (LineItem x d q u n (v ++ "%")%string g).
Proof.
  intros H. unfold line_item_of. fold (tokens entry).
  destruct (tokens entry) as [|q [|u [|n [|v [|g rest]]]]] eqn:E; simpl in H; try lia.
  exists q, u, n, v, g. eexists. split; [reflexivity|].
  rewrite (index_nth_error _ 0 q), (index_nth_error _ 1 u), (index_nth_error _ 2 n),
    (index_nth_error _ 3 v), (index_nth_error _ 4 g) by reflexivity.
  reflexivity.
Qed.

Lemma line_items_loop_short (ents : list string) :
  forall x items,
    Exists (fun entry => List.length (tokens entry) < 5) ents ->
    line_items_loop ents x items = Raise IndexError.
Proof.
  induction ents as [|entry rest IH]; intros x items H.
  - inversion H.
  - simpl.
    destruct (line_item_of_cases (x + 1) entry) as [[it E]|E]; rewrite E; simpl.
    + apply IH. inversion H as [? ? Hs|]; subst; [|assumption].
      rewrite line_item_of_short in E by assumption. discriminate.
    + reflexivity.
Qed.

(** ** The loop of [parse_entries] *)

Lemma collect_entries_no_numbered (stop_summary : bool) (lines : list string) :
  Forall (fun ln => Re.match_ false Pat.numbered ln = None) lines ->
  collect_entries stop_summary lines [] = [].
Proof.
  induction 1 as [|ln rest Hln _ IH]; simpl; [reflexivity|].
  rewrite Hln. simpl.
  destruct (stop_summary && _); [reflexivity | exact IH].
Qed.

(** ** The functions on images *)

Section PipelineFacts.

Context {Image : Type}.
Variable size : Image -> Z * Z.
Variable pil_crop : Image -> Z * Z * Z * Z -> res Image.
Variable image_to_table : Image -> string -> res (list row).

(** C1.  When the body band holds a logical entry with fewer than five
    numeric tokens, [extract_line_items] raises [IndexError]: it returns
    no list of line items, whatever the other entries are and wherever
    the short entry stands.  The entries are those that [parse_entries]
    returns on the band. *)
Theorem extract_line_items_aborts (img band : Image) (ents : list string) :
  crop size pil_crop img Num.f0_2 Num.f0_8 = Ok band ->
  parse_entries image_to_table band true = Ok ents ->
  Exists (fun entry => List.length (tokens entry) < 5) ents ->
  extract_line_items size pil_crop image_to_table img = Raise IndexError.
Proof.
  intros Hcrop Hents Hshort.
  unfold extract_line_items. rewrite Hcrop. cbn [bind]. rewrite Hents. cbn [bind].
  unfold line_items_of_entries.
  now apply line_items_loop_short.
Qed.

(** C10.  When no line of the summary band matches the pattern of a
    numbered entry, [parse_entries] returns no entry and
    [extract_summary] returns the empty list.  The lines are those that
    line 86 builds from the table read on the band: on a band whose texts
    are no strings that line raises [TypeError] and there is no line. *)
Theorem extract_summary_without_numbered_line (img band : Image)
        (df : list row) (lines : list string) :
  crop size pil_crop img Num.f0_8 Num.f1_0 = Ok band ->
  image_to_table band "--psm 6" = Ok df ->
  table_lines df = Ok lines ->
  Forall (fun ln => Re.match_ false Pat.numbered ln = None) lines ->
  parse_entries image_to_table band false = Ok []
  /\ extract_summary size pil_crop image_to_table img = Ok [].
Proof.
  intros Hcrop Hdf Htable Hlines.
  assert (E : parse_entries image_to_table band false = Ok []).
  { unfold parse_entries, entries_of_table. rewrite Hdf. cbn [bind].
    rewrite Htable. cbn [bind].
    now rewrite collect_entries_no_numbered. }
  split; [exact E|].
  unfold extract_summary. rewrite Hcrop. cbn [bind].
  now rewrite E.
Qed.

End PipelineFacts.

(** On a page whose second entry has one numeric token the extraction
    raises, although the first entry is well formed. *)
Lemma extract_line_items_aborts_witness :
  Page.crop short_entry_page Num.f0_2 Num.f0_8
  = Ok (Page.Image 80 60 "" (Page.table short_entry_page))
  /\ Page.parse_entries (Page.Image 80 60 "" (Page.table short_entry_page)) true
     = Ok ["1. Widget 2,00 10.00 20.00 5,0 21.00"; "2. Gadget 3,00"]
  /\ tokens "2. Gadget 3,00" = ["3,00"]
  /\ Page.extract_line_items short_entry_page = Raise IndexError.
Proof.
  split; [reflexivity|]. split; [reflexivity|]. split; [reflexivity|].
  apply (extract_line_items_aborts Page.size Page.pil_crop Page.image_to_table
           short_entry_page (Page.Image 80 60 "" (Page.table short_entry_page))
           ["1. Widget 2,00 10.00 20.00 5,0 21.00"; "2. Gadget 3,00"]).
  - reflexivity.
  - reflexivity.
  - apply Exists_cons_tl, Exists_cons_hd. vm_compute. lia.
Defined.

(** On a summary band with the lines "Subtotal: 100.00" and "Tax: 5.00"
    the summary is empty. *)
Lemma extract_summary_without_numbered_line_witness :
  table_lines (Page.table totals_page) = Ok ["Subtotal: 100.00"; "Tax: 5.00"]
  /\ Page.parse_entries (Page.Image 80 20 "" (Page.table totals_page)) false = Ok []
  /\ Page.extract_summary totals_page = Ok [].
Proof.
  split; [reflexivity|].
  apply (extract_summary_without_numbered_line Page.size Page.pil_crop
           Page.image_to_table totals_page
           (Page.Image 80 20 "" (Page.table totals_page))
           (Page.table totals_page) ["Subtotal: 100.00"; "Tax: 5.00"]).
  - reflexivity.
  - reflexivity.
  - reflexivity.
  - repeat constructor.
Defined.

(** ** The numeric tokens of an entry *)

(** C2, as stated: the scan of the entry would yield the four tokens
    "10.00", "20.00", "5%" and "21.00".  It does not. *)
Lemma tokens_widget_entry_not_as_claimed :
  tokens widget_entry <> ["10.00"; "20.00"; "5%"; "21.00"].
Proof.
  intros H.
  assert (E : hd_error (tokens widget_entry) = Some "10.00") by now rewrite H.
  vm_compute in E. discriminate E.
Qed.

(** C2, amended.  The scan of the entry yields the four tokens "2 10",
    "00 20", "00 5" and "21.00": the second shape, two integers around
    one white-space character, applies at "2 10" before the first shape
    can apply at "10.00", and so on.  These are fewer than five, and the
    extraction of the line items of the entry raises [IndexError]. *)
Theorem tokens_widget_entry :
  tokens widget_entry = ["2 10"; "00 20"; "00 5"; "21.00"]
  /\ List.length (tokens widget_entry) < 5
  /\ line_items_of_entries [widget_entry] = Raise IndexError.
Proof.
  split; [reflexivity|]. split; [vm_compute; lia | reflexivity].
Qed.

(** ** The field [vat] *)

Lemma vat_is_fourth_token (x : Z) (entry : string) (it : line_item) :
  line_item_of x entry = Ok it ->
  exists v, nth_error (tokens entry) 3 = Some v /\ vat it = (v ++ "%")%string.
Proof.
  intros E.
  destruct (Nat.lt_ge_cases (List.length (tokens entry)) 5) as [Hlt|Hge].
  - rewrite line_item_of_short in E by assumption. discriminate.
  - destruct (line_item_of_enough x entry Hge) as (q & u & n & v & g & d & Hf & Hi).
    rewrite Hi in E. injection E as <-. exists v. split; [|reflexivity].
    rewrite <- (firstn_skipn 5 (tokens entry)), Hf. reflexivity.
Qed.

(** C5, at an entry whose fourth token has the shape of an integer
    followed by a percent sign: the entry is extracted, its fourth token
    is "5%", and the field [vat] is "5%%", which is no percentage of the
    form "<value>%". *)
Theorem vat_of_percent_entry :
  tokens percent_entry = ["2,00"; "10.00"; "20.00"; "5%"; "21.00"]
  /\ line_items_of_entries [percent_entry]
     = Ok [LineItem 1 "Widget %" "2,00" "10.00" "20.00" "5%%" "21.00"]
  /\ Spec.is_percentage "5%%" = false
  /\ Spec.is_percentage "5%" = true.
Proof.
  repeat split; reflexivity.
Qed.

(** ** The lines of [parse_entries] *)

(** C3, at a table with two lines of the same [line_num] in different
    paragraphs: the specification keeps them apart, two lines and two
    entries; the program groups by [line_num] alone and joins them into
    one line, hence one entry. *)
Theorem table_lines_join_paragraphs :
  Spec.logical_lines two_paragraphs = ["1. Widget"; "2. Gadget"]
  /\ collect_entries false (Spec.logical_lines two_paragraphs) []
     = ["1. Widget"; "2. Gadget"]
  /\ table_lines two_paragraphs = Ok ["1. Widget 2. Gadget"]
  /\ entries_of_table two_paragraphs false = Ok ["1. Widget 2. Gadget"].
Proof.
  repeat split; reflexivity.
Qed.

(** *** Tables of one paragraph

    The lines of the program are those of the specification on a table
    whose rows lie in one block and one paragraph. *)

Lemma insert_In {A} (leb : A -> A -> bool) (x y : A) (l : list A) :
  In y (Pd.insert leb x l) <-> y = x \/ In y l.
Proof.
  induction l as [|z t IH]; simpl.
  - intuition auto.
  - destruct (leb x z); simpl; [intuition auto|]. rewrite IH. intuition auto.
Qed.

Lemma sort_In {A} (leb : A -> A -> bool) (y : A) (l : list A) :
  In y (Pd.sort leb l) <-> In y l.
Proof.
  induction l as [|x t IH]; simpl; [reflexivity|].
  rewrite insert_In, IH. intuition auto.
Qed.

Lemma insert_sorted (x : row) (l : list row) :
  (forall y, In y l -> block_num x = block_num y /\ par_num x = par_num y) ->
  one_paragraph l ->
  StronglySorted line_le l ->
  StronglySorted line_le (Pd.insert Pd.row_leb x l).
Proof.
  intros Hx Hl Hs. induction Hs as [|z t Hs IH Hz]; simpl.
  - repeat constructor.
  - destruct (Pd.row_leb x z) eqn:E.
    + assert (Hxz : line_le x z).
      { unfold Pd.row_leb in E. destruct (Hx z (or_introl eq_refl)) as [Eb Ep].
        rewrite Eb, Ep, !Z.eqb_refl in E. unfold line_le.
        destruct (line_num x =? line_num z)%Z eqn:El.
        - apply Z.eqb_eq in El. lia.
        - apply Z.ltb_lt in E. lia. }
      constructor; [constructor; assumption|].
      constructor; [exact Hxz|].
      rewrite Forall_forall in Hz |- *. intros y Hy. specialize (Hz y Hy).
      unfold line_le in *. lia.
    + assert (Hzx : line_le z x).
      { unfold Pd.row_leb in E. destruct (Hx z (or_introl eq_refl)) as [Eb Ep].
        rewrite Eb, Ep, !Z.eqb_refl in E. unfold line_le.
        destruct (line_num x =? line_num z)%Z eqn:El.
        - apply Z.eqb_eq in El. lia.
        - apply Z.ltb_ge in E. lia. }
      constructor.
      * apply IH.
        -- intros y Hy. apply Hx. now right.
        -- intros r r' Hr Hr'. apply Hl; now right.
      * rewrite Forall_forall in Hz |- *. intros y Hy.
        apply insert_In in Hy as [->|Hy]; [exact Hzx | now apply Hz].
Qed.

Lemma sort_sorted (l : list row) :
  one_paragraph l -> StronglySorted line_le (Pd.sort Pd.row_leb l).
Proof.
  induction l as [|x t IH]; intros H; simpl; [constructor|].
  apply insert_sorted.
  - intros y Hy. apply sort_In in Hy. apply H; [now left | now right].
  - intros r r' Hr Hr'. apply sort_In in Hr, Hr'. apply H; now right.
  - apply IH. intros r r' Hr Hr'. apply H; now right.
Qed.

Lemma sort_keys_sorted (l : list Z) :
  StronglySorted Z.le l -> Pd.sort Z.leb l = l.
Proof.
  induction 1 as [|x t Hs IH Hx]; simpl; [reflexivity|].
  rewrite IH. destruct t as [|y t']; simpl; [reflexivity|].
  inversion Hx as [|? ? Hxy _]; subst.
  now replace (x <=? y)%Z with true by (symmetry; apply Z.leb_le; exact Hxy).
Qed.

Lemma map_line_sorted (l : list row) :
  StronglySorted line_le l -> StronglySorted Z.le (map line_num l).
Proof.
  induction 1 as [|x t Hs IH Hx]; simpl; constructor; [exact IH|].
  rewrite Forall_forall in *. intros k Hk. apply in_map_iff in Hk as (y & <- & Hy).
  now apply Hx.
Qed.

Lemma with_line_above (k : Z) (l : list row) :
  Forall (fun r => (k < line_num r)%Z) l -> with_line k l = [].
Proof.
  induction 1 as [|x t Hx _ IH]; simpl; [reflexivity|].
  replace (line_num x =? k)%Z with false by (symmetry; apply Z.eqb_neq; lia).
  exact IH.
Qed.

Lemma uniq_head (x : Z) (l : list Z) :
  StronglySorted Z.le (x :: l) ->
  exists ks, Pd.uniq (x :: l) = x :: ks /\ Forall (fun k => (x < k)%Z) ks
             /\ (forall k, In k ks -> In k l).
Proof.
  revert x. induction l as [|y t IH]; intros x Hs.
  - exists []. simpl. repeat split; [constructor | intros k []].
  - inversion Hs as [|? ? Hs' Hx]; subst.
    inversion Hx as [|? ? Hxy Hxt]; subst.
    destruct (IH y Hs') as (ks & Eks & Hks & Hin).
    cbn [Pd.uniq]. destruct (x =? y)%Z eqn:E.
    + apply Z.eqb_eq in E. subst y. exists ks. repeat split; try assumption.
      intros k Hk. right. now apply Hin.
    + apply Z.eqb_neq in E. exists (Pd.uniq (y :: t)). repeat split.
      * rewrite Eks. constructor; [lia|].
        rewrite Forall_forall in Hks |- *. intros k Hk. specialize (Hks k Hk). lia.
      * intros k Hk. rewrite Eks in Hk. destruct Hk as [<-|Hk]; [now left|].
        right. now apply Hin.
Qed.

Lemma with_line_cons_other (k : Z) (r : row) (l : list row) :
  line_num r <> k -> with_line k (r :: l) = with_line k l.
Proof.
  intros H. unfold with_line. simpl.
  now replace (line_num r =? k)%Z with false by (symmetry; apply Z.eqb_neq; exact H).
Qed.

Lemma with_line_cons_same (r : row) (l : list row) :
  with_line (line_num r) (r :: l) = r :: with_line (line_num r) l.
Proof.
  unfold with_line. simpl. now rewrite Z.eqb_refl.
Qed.

Lemma partition_lines_cons (r : row) (t : list row) :
  Spec.partition_lines (r :: t)
  = match Spec.partition_lines t with
    | (r' :: g) :: gs =>
        if Spec.same_line r r' then (r :: r' :: g) :: gs else [r] :: (r' :: g) :: gs
    | _ => [[r]]
    end.
Proof. reflexivity. Qed.

Lemma uniq_cons2 (x y : Z) (l : list Z) :
  Pd.uniq (x :: y :: l) = if (x =? y)%Z then Pd.uniq (y :: l) else x :: Pd.uniq (y :: l).
Proof. reflexivity. Qed.

Lemma groups_partition (l : list row) :
  one_paragraph l ->
  StronglySorted line_le l ->
  map (fun k => with_line k l) (Pd.uniq (map line_num l)) = Spec.partition_lines l.
Proof.
  induction l as [|r t IH]; intros Hp Hs; [reflexivity|].
  inversion Hs as [|? ? Hs' Hr]; subst.
  assert (Hp' : one_paragraph t) by (intros a b Ha Hb; apply Hp; now right).
  specialize (IH Hp' Hs').
  destruct t as [|r' t'].
  - simpl. unfold with_line. simpl. now rewrite Z.eqb_refl.
  - destruct (uniq_head (line_num r') (map line_num t')) as (ks & Eks & Hks & Hin).
    { apply (map_line_sorted (r' :: t')). exact Hs'. }
    change (map line_num (r' :: t')) with (line_num r' :: map line_num t') in IH.
    rewrite Eks in IH. cbn [map] in IH. rewrite with_line_cons_same in IH.
    inversion Hr as [|? ? Hrr' Hrt']; subst. unfold line_le in Hrr'.
    change (map line_num (r :: r' :: t'))
      with (line_num r :: line_num r' :: map line_num t').
    rewrite uniq_cons2, partition_lines_cons, <- IH, Eks.
    destruct (Hp r r' (or_introl eq_refl) (or_intror (or_introl eq_refl))) as [Eb Ep].
    unfold Spec.same_line. rewrite Eb, Ep, !Z.eqb_refl. cbn [andb].
    destruct (line_num r =? line_num r')%Z eqn:E.
    + apply Z.eqb_eq in E. cbn [map].
      rewrite <- E, with_line_cons_same, E, with_line_cons_same. f_equal.
      apply map_ext_in. intros k Hk.
      rewrite Forall_forall in Hks. specialize (Hks k Hk).
      apply with_line_cons_other. lia.
    + apply Z.eqb_neq in E. cbn [map].
      rewrite with_line_cons_same.
      rewrite (with_line_above (line_num r) (r' :: t')).
      * f_equal. rewrite (with_line_cons_other (line_num r') r) by exact E.
        rewrite with_line_cons_same. f_equal.
        apply map_ext_in. intros k Hk.
        rewrite Forall_forall in Hks. specialize (Hks k Hk).
        apply with_line_cons_other. lia.
      * inversion Hs' as [|? ? _ Hr't']; subst.
        constructor; [lia|].
        rewrite Forall_forall in Hr't' |- *. intros y Hy. specialize (Hr't' y Hy).
        unfold line_le in Hr't'. lia.
Qed.

Lemma dropna_In (r : row) (df : list row) : In r (Pd.dropna df) -> In r df.
Proof. unfold Pd.dropna. intros H. now apply filter_In in H. Qed.

Lemma traverse_ok {A B : Type} (f : A -> res B) (g : A -> B) (l : list A) :
  (forall x, In x l -> f x = Ok (g x)) -> Pd.traverse f l = Ok (map g l).
Proof.
  induction l as [|x t IH]; intros H; cbn [Pd.traverse map]; [reflexivity|].
  rewrite (H x (or_introl eq_refl)). cbn [bind].
  rewrite IH by (intros y Hy; apply H; now right). reflexivity.
Qed.

Lemma join_texts_strings (sep : string) (l : list row) :
  Forall (fun r => joinable (text r) = true) l ->
  Forall (fun r => Pd.isna (text r) = false) l ->
  Pd.join_texts sep l = Ok (Py.join sep (Pd.texts l)).
Proof.
  intros Hj Hn. unfold Pd.join_texts.
  assert (E : Pd.strings (map text l) = Ok (Pd.texts l)).
  { induction Hj as [|r t Hr _ IH]; [reflexivity|].
    inversion Hn as [|? ? Hr' Hn']; subst.
    cbn [map Pd.strings Pd.texts flat_map]. unfold joinable in Hr.
    destruct (text r) eqn:E; try congruence.
    fold (Pd.texts t). rewrite (IH Hn'). reflexivity. }
  now rewrite E.
Qed.

Lemma dropna_joinable (df : list row) :
  Forall (fun r => joinable (text r) = true) df ->
  Forall (fun r => joinable (text r) = true) (Pd.dropna df)
  /\ Forall (fun r => Pd.isna (text r) = false) (Pd.dropna df).
Proof.
  intros H. unfold Pd.dropna. split; apply Forall_forall; intros r Hr;
    apply filter_In in Hr as [Hin Hna].
  - rewrite Forall_forall in H. now apply H.
  - now apply negb_true_iff in Hna.
Qed.

(** On a table whose texts are strings the lines are read: one per value
    of [line_num], the texts of its rows joined. *)
Lemma table_lines_strings (df : list row) :
  Forall (fun r => joinable (text r) = true) df ->
  table_lines df
  = Ok (map (fun k => Py.join " " (Pd.texts (with_line k (Pd.sort_values (Pd.dropna df)))))
          (Pd.group_keys (Pd.sort_values (Pd.dropna df)))).
Proof.
  intros H. unfold table_lines, Pd.groupby_line_num_join.
  destruct (dropna_joinable df H) as [Hj Hn].
  apply traverse_ok. intros k _.
  apply join_texts_strings; apply Forall_forall; intros r Hr;
    apply filter_In in Hr as [Hr _]; apply sort_In in Hr.
  - rewrite Forall_forall in Hj. now apply Hj.
  - rewrite Forall_forall in Hn. now apply Hn.
Qed.

Lemma table_lines_one_paragraph (df : list row) :
  one_paragraph df ->
  Forall (fun r => joinable (text r) = true) df ->
  table_lines df = Ok (Spec.logical_lines df).
Proof.
  intros H Hj. rewrite (table_lines_strings df Hj). f_equal.
  unfold Spec.logical_lines, Pd.group_keys.
  set (l := Pd.sort_values (Pd.dropna df)).
  assert (Hp : one_paragraph l).
  { intros a b Ha Hb. apply sort_In in Ha, Hb. apply H; now apply dropna_In. }
  assert (Hs : StronglySorted line_le l).
  { apply sort_sorted. intros a b Ha Hb. apply H; now apply dropna_In. }
  rewrite sort_keys_sorted by now apply map_line_sorted.
  rewrite <- groups_partition by assumption.
  rewrite map_map. reflexivity.
Qed.

(** ** Literal patterns *)

Lemma run_Str (ic : bool) (lit : string) :
  forall prev s g k,
    Re.run ic (Re.Str lit) prev s g k
    = if prefix_ci ic lit s
      then k (prev_after prev (String.length lit) s) (Py.drop (String.length lit) s) g
      else None.
Proof.
  induction lit as [|a lit IH]; intros prev s g k; simpl.
  - now destruct s.
  - destruct s as [|x s]; [reflexivity|].
    destruct (Re.char_eq ic a x); simpl; [apply IH | reflexivity].
Qed.

Lemma prefix_ci_lower (lit s : string) :
  prefix_ci true lit s = Py.startswith (Py.lower lit) (Py.lower s).
Proof.
  revert s. induction lit as [|a lit IH]; intros s; simpl; [reflexivity|].
  destruct s as [|x s]; simpl; [reflexivity|].
  rewrite IH. f_equal. apply Ascii.eqb_sym.
Qed.

Lemma match_summary (entry : string) :
  is_match (Re.match_ true Pat.summary entry) = Spec.starts_with_summary entry.
Proof.
  unfold Re.match_, Re.match_at, Pat.summary, Spec.starts_with_summary.
  change (Re.run true (Re.Seq Re.Bol (Re.Str "Summary")) None entry None
            (fun _ s' g => Some (s', g)))
    with (Re.run true (Re.Str "Summary") None entry None (fun _ s' g => Some (s', g))).
  rewrite run_Str, prefix_ci_lower.
  change (Py.lower "Summary") with "summary".
  now destruct (Py.startswith "summary" (Py.lower entry)).
Qed.

(** ** [split(':', 1)] *)

Lemma find_colon (s : string) :
  match Py.find ":" s with
  | Some i => Py.take i s = Spec.before_colon s /\ Py.drop (i + 1) s = Spec.after_colon s
  | None => Spec.before_colon s = s /\ Spec.after_colon s = ""
  end.
Proof.
  induction s as [|c t IH]; [now split|].
  cbn [Py.find Py.startswith Spec.before_colon Spec.after_colon].
  rewrite andb_true_r, (Ascii.eqb_sym ":" c).
  destruct (Ascii.eqb c ":"); [now split|].
  destruct (Py.find ":" t) as [i|]; simpl.
  - destruct IH as [-> ->]. now split.
  - destruct IH as [-> ->]. now split.
Qed.

Lemma summary_pair_spec (entry : string) :
  summary_pair entry
  = Ok (Py.strip (Spec.before_colon entry), Py.strip (Spec.after_colon entry)).
Proof.
  unfold summary_pair, Py.split1.
  pose proof (find_colon entry) as H.
  destruct (Py.find ":" entry) as [i|]; destruct H as [H1 H2]; simpl.
  - change (String.length ":") with 1. now rewrite H1, H2.
  - now rewrite H1, H2.
Qed.

Lemma summary_loop_spec (ents : list string) :
  forall summary, summary_loop ents summary = Ok (summary ++ Spec.summary_pairs ents).
Proof.
  induction ents as [|entry rest IH]; intros summary; simpl.
  - now rewrite app_nil_r.
  - rewrite match_summary. unfold Spec.summary_pairs. simpl.
    destruct (Spec.starts_with_summary entry); simpl.
    + apply IH.
    + rewrite summary_pair_spec. simpl. rewrite IH.
      unfold Spec.summary_pairs. now rewrite <- app_assoc.
Qed.

(** ** The region of [crop] *)

Lemma int_of_float_raises (x : float) (e : exn) :
  Num.int_of_float x = Raise e -> e = ValueError \/ e = OverflowError.
Proof.
  unfold Num.int_of_float.
  destruct (Prim2SF x); intros H; inversion H; auto.
Qed.

Lemma int_of_product_raises (h : Z) (x : float) (e : exn) :
  int_of_product h x = Raise e -> e = ValueError \/ e = OverflowError.
Proof.
  unfold int_of_product, Num.int_mul_float, Num.float_of_int.
  destruct (PrimFloat.is_infinity _); simpl.
  - intros H; inversion H; auto.
  - apply int_of_float_raises.
Qed.

(** C4, as stated: a bottom fraction above 1, or two equal fractions,
    would make the operation fail.  On a page of 80 by 100 pixels the
    fractions 0 and 1.5 give a band of 150 rows and the fractions 0.5 and
    0.5 give a band of no row. *)
Lemma crop_accepts_fractions_outside_claim :
  PrimFloat.ltb 1 1.5 = true
  /\ Page.crop a_page 0 1.5 = Ok (Page.Image 80 150 "" [])
  /\ PrimFloat.leb 0.5 0.5 = true
  /\ Page.crop a_page 0.5 0.5 = Ok (Page.Image 80 0 "" []).
Proof.
  repeat split; reflexivity.
Qed.

Section CropFacts.

Context {Image : Type}.
Variable size : Image -> Z * Z.
Variable pil_crop : Image -> Z * Z * Z * Z -> res Image.

Lemma crop_eq (img : Image) (top bot : float) :
  crop size pil_crop img top bot
  = (t <- int_of_product (snd (size img)) top ;;
     b <- int_of_product (snd (size img)) bot ;;
     pil_crop img (0, t, fst (size img), b)%Z).
Proof.
  unfold crop, int_of_product. destruct (size img) as [w h]. simpl.
  destruct (Num.int_mul_float h top) as [ft|e]; simpl; [|reflexivity].
  destruct (Num.int_of_float ft) as [t|e]; simpl; [|reflexivity].
  destruct (Num.int_mul_float h bot) as [fb|e]; reflexivity.
Qed.

(** C4, amended.  [crop] checks nothing about its fractions and has no
    failure of its own for them.  When [int(h * top)] is [t] and
    [int(h * bot)] is [b], the result is that of the crop of the image
    library on the box of full width from row [t] to row [b], whatever
    the fractions are.  Otherwise [int()] raises, on a product that is
    not finite, and [crop] raises the same [ValueError] or
    [OverflowError]. *)
Theorem crop_hands_box_to_library (img : Image) (top bot : float) :
  match int_of_product (snd (size img)) top, int_of_product (snd (size img)) bot with
  | Ok t, Ok b => crop size pil_crop img top bot = pil_crop img (0, t, fst (size img), b)%Z
  | Raise e, _ | Ok _, Raise e =>
      crop size pil_crop img top bot = Raise e /\ (e = ValueError \/ e = OverflowError)
  end.
Proof.
  rewrite crop_eq.
  pose proof (int_of_product_raises (snd (size img)) top) as Ht.
  pose proof (int_of_product_raises (snd (size img)) bot) as Hb.
  destruct (int_of_product (snd (size img)) top) as [t|e]; simpl; [|auto].
  destruct (int_of_product (snd (size img)) bot) as [b|e]; simpl; auto.
Qed.

End CropFacts.

(** With the crop of Pillow: a band of [b - t] rows, or [ValueError] when
    [b] is less than [t], [DecompressionBombError] when the band is too
    large, [OverflowError] when a coordinate is no C [int]. *)
Lemma page_crop_band (img : Page.image) (top bot : float) (t b : Z) :
  (0 <= Page.width img)%Z ->
  int_of_product (Page.height img) top = Ok t ->
  int_of_product (Page.height img) bot = Ok b ->
  Page.crop img top bot
  = if (b <? t)%Z then Raise ValueError
    else if (2 * Page.max_image_pixels
             <? Z.max 1 (Page.width img) * Z.max 1 (b - t))%Z
    then Raise DecompressionBombError
    else if negb (Page.c_int t && Page.c_int (Page.width img) && Page.c_int b)
    then Raise OverflowError
    else Ok (Page.Image (Page.width img) (b - t) (Page.transcript img) (Page.table img)).
Proof.
  intros Hw Ht Hb.
  unfold Page.crop. rewrite crop_eq. cbn [Page.size fst snd]. rewrite Ht, Hb.
  cbn [bind]. unfold Page.pil_crop.
  destruct (Page.width img <? 0)%Z eqn:E; [apply Z.ltb_lt in E; lia|].
  rewrite Z.sub_0_r. change (Page.c_int 0) with true. cbn [andb]. reflexivity.
Qed.

(** ** Searching *)

Lemma search_from_finds (ic : bool) (r : Re.regex) (s : string) :
  forall pos prev m,
    Re.search_from ic r pos prev s = Some m ->
    exists j n,
      m = Re.MatchObj (pos + j) (Py.take n (Py.drop j s)) (Re.group1 m)
      /\ Re.match_pos ic r prev s j = Some (n, Re.group1 m)
      /\ forall k, k < j -> Re.match_pos ic r prev s k = None.
Proof.
  induction s as [|c t IH]; intros pos prev m H; simpl in H.
  - destruct (Re.match_at ic r prev "") as [[n g]|] eqn:E; [|discriminate].
    injection H as <-. exists 0, n. rewrite Nat.add_0_r. simpl.
    repeat split; [exact E | intros k Hk; lia].
  - destruct (Re.match_at ic r prev (String c t)) as [[n g]|] eqn:E.
    + injection H as <-. exists 0, n. rewrite Nat.add_0_r. simpl.
      repeat split; [exact E | intros k Hk; lia].
    + destruct (IH _ _ _ H) as (j & n & Hm & Hj & Hk).
      exists (S j), n. rewrite Nat.add_succ_r. simpl.
      repeat split; [exact Hm | exact Hj |].
      intros [|k] Hlt; simpl; [exact E | apply Hk; lia].
Qed.

Lemma search_from_leftmost (ic : bool) (r : Re.regex) (s : string) :
  forall pos prev j n g,
    Re.match_pos ic r prev s j = Some (n, g) ->
    (forall k, k < j -> Re.match_pos ic r prev s k = None) ->
    Re.search_from ic r pos prev s
    = Some (Re.MatchObj (pos + j) (Py.take n (Py.drop j s)) g).
Proof.
  induction s as [|c t IH]; intros pos prev j n g Hj Hk.
  - destruct j; simpl in Hj; [|discriminate].
    simpl. rewrite Hj, Nat.add_0_r. reflexivity.
  - destruct j as [|j]; simpl in Hj.
    + simpl. rewrite Hj, Nat.add_0_r. reflexivity.
    + pose proof (Hk 0 (Nat.lt_0_succ j)) as H0. simpl in H0.
      simpl. rewrite H0, Nat.add_succ_r.
      apply (IH (S pos) (Some c) j n g Hj).
      intros k Hlt. apply (Hk (S k)). lia.
Qed.

Lemma search_from_exists (ic : bool) (r : Re.regex) (s : string) :
  forall pos prev i x,
    Re.match_pos ic r prev s i = Some x ->
    exists m, Re.search_from ic r pos prev s = Some m /\ Re.m_start m <= pos + i.
Proof.
  induction s as [|c t IH]; intros pos prev i x Hi.
  - destruct i; simpl in Hi; [|discriminate].
    simpl. rewrite Hi. destruct x as [n g]. eexists. split; [reflexivity|simpl; lia].
  - simpl. destruct (Re.match_at ic r prev (String c t)) as [[n g]|] eqn:E.
    + eexists. split; [reflexivity|simpl; lia].
    + destruct i as [|i]; simpl in Hi; [congruence|].
      destruct (IH (S pos) (Some c) i x Hi) as (m & Hm & Hle).
      exists m. split; [exact Hm | lia].
Qed.

Lemma match_pos_app (ic : bool) (r : Re.regex) (pre : string) :
  forall prev rest,
    Re.match_pos ic r prev (pre ++ rest) (String.length pre)
    = Re.match_at ic r (prev_after prev (String.length pre) pre) rest.
Proof.
  induction pre as [|c pre IH]; intros prev rest; simpl; [reflexivity|].
  apply IH.
Qed.

Lemma take_drop_app (pre rest : string) :
  Py.drop (String.length pre) (pre ++ rest) = rest.
Proof.
  induction pre as [|c pre IH]; simpl; [now destruct rest | exact IH].
Qed.

Lemma take_app (w rest : string) : Py.take (String.length w) (w ++ rest) = w.
Proof.
  induction w as [|c w IH]; simpl; [now destruct rest | now rewrite IH].
Qed.

Lemma take_drop (n : nat) (s : string) : (Py.take n s ++ Py.drop n s)%string = s.
Proof.
  revert s. induction n as [|n IH]; intros [|c t]; simpl; try reflexivity.
  now rewrite IH.
Qed.

Lemma length_take_le (n : nat) (s : string) : String.length (Py.take n s) <= n.
Proof.
  revert s. induction n as [|n IH]; intros [|c t]; simpl; try lia.
  specialize (IH t). lia.
Qed.

(** ** The bound of the loop of a star

    The loop of [r*] is bounded by the length of the text plus one.  Every
    iteration reads a character, so the bound is never reached: any larger
    bound gives the same result. *)

Lemma star_loop_ext body (Hb : local_body body) (n : nat) :
  forall prev s g k1 k2,
    agree_below (String.length s) k1 k2 ->
    Re.star_loop body k1 n prev s g = Re.star_loop body k2 n prev s g.
Proof.
  induction n as [|n IH]; intros prev s g k1 k2 Hk; simpl.
  - apply Hk. lia.
  - rewrite (Hk prev s g) by lia.
    erewrite Hb; [reflexivity|].
    intros p' s' g' Hle.
    destruct (Nat.ltb (String.length s') (String.length s)) eqn:E; [|reflexivity].
    apply IH. intros p'' s'' g'' Hle'. apply Hk. lia.
Qed.

Lemma run_ext (ic : bool) (r : Re.regex) : local_body (Re.run ic r).
Proof.
  induction r as [|c|r1 IH1 r2 IH2|r1 IH1 r2 IH2|r1 IH1|r1 IH1| | |];
    intros prev s g k1 k2 Hk; cbn [Re.run].
  - apply Hk. lia.
  - destruct s as [|x t]; [reflexivity|].
    destruct (Re.cls_mem ic c x); [|reflexivity]. apply Hk. simpl. lia.
  - apply IH1. intros p' s' g' Hle. apply IH2.
    intros p'' s'' g'' Hle'. apply Hk. lia.
  - rewrite (IH1 prev s g k1 k2 Hk), (IH2 prev s g k1 k2 Hk). reflexivity.
  - now apply star_loop_ext.
  - apply IH1. intros p' s' g' Hle. apply Hk. exact Hle.
  - destruct prev; [reflexivity|]. apply Hk. lia.
  - destruct s as [|c [|c' t]]; try reflexivity.
    + apply Hk. lia.
    + destruct (Py.is_code 10 c); [|reflexivity]. apply Hk. lia.
  - destruct (xorb _ _); [|reflexivity]. apply Hk. lia.
Qed.

Lemma star_loop_fuel body (Hb : local_body body) (k : Re.cont) (n : nat) :
  forall m prev s g,
    String.length s < n -> String.length s < m ->
    Re.star_loop body k n prev s g = Re.star_loop body k m prev s g.
Proof.
  induction n as [|n IH]; intros [|m] prev s g Hn Hm; try lia.
  simpl. erewrite Hb; [reflexivity|].
  intros p' s' g' Hle.
  destruct (Nat.ltb (String.length s') (String.length s)) eqn:E; [|reflexivity].
  apply Nat.ltb_lt in E. apply IH; lia.
Qed.

Lemma run_Star_fuel (ic : bool) (r : Re.regex) (n : nat) (prev : option ascii)
      (s : string) (g : option string) (k : Re.cont) :
  String.length s < n ->
  Re.run ic (Re.Star r) prev s g k = Re.star_loop (Re.run ic r) k n prev s g.
Proof.
  intros H. cbn [Re.run]. apply star_loop_fuel; [apply run_ext | lia | exact H].
Qed.

(** ** Stars of one character *)

Lemma star_loop_chr (ic : bool) (c : Re.cls) (k : Re.cont) (s : string) :
  forall n prev g,
    String.length s < n ->
    Re.star_loop (Re.run ic (Re.Chr c)) k n prev s g = star_chr ic c k prev s g.
Proof.
  induction s as [|x t IH]; intros [|n] prev g Hn; simpl in Hn; try lia.
  - reflexivity.
  - simpl. destruct (Re.cls_mem ic c x); [|reflexivity].
    replace (Nat.ltb (String.length t) (S (String.length t))) with true
      by (symmetry; apply Nat.ltb_lt; lia).
    rewrite IH by lia. reflexivity.
Qed.

Lemma run_Star_Chr (ic : bool) (c : Re.cls) (prev : option ascii) (s : string)
      (g : option string) (k : Re.cont) :
  Re.run ic (Re.Star (Re.Chr c)) prev s g k = star_chr ic c k prev s g.
Proof.
  change (Re.run ic (Re.Star (Re.Chr c)) prev s g k)
    with (Re.star_loop (Re.run ic (Re.Chr c)) k (S (String.length s)) prev s g).
  apply star_loop_chr. lia.
Qed.

Lemma star_chr_stop (ic : bool) (c : Re.cls) (k : Re.cont) (prev : option ascii)
      (s : string) (g : option string) :
  match s with String x _ => Re.cls_mem ic c x | "" => false end = false ->
  star_chr ic c k prev s g = k prev s g.
Proof.
  destruct s as [|x t]; simpl; [reflexivity|]. now intros ->.
Qed.

(** ** Equations of the matcher *)

Lemma run_Cat_cons (ic : bool) (r : Re.regex) (rs : list Re.regex)
      (p : option ascii) (s : string) (g : option string) (k : Re.cont) :
  Re.run ic (Re.Cat (r :: rs)) p s g k
  = Re.run ic r p s g (fun p' s' g' => Re.run ic (Re.Cat rs) p' s' g' k).
Proof. reflexivity. Qed.

Lemma run_Cat_nil (ic : bool) (p : option ascii) (s : string) (g : option string)
      (k : Re.cont) :
  Re.run ic (Re.Cat []) p s g k = k p s g.
Proof. reflexivity. Qed.

Lemma run_Group (ic : bool) (r : Re.regex) (p : option ascii) (s : string)
      (g : option string) (k : Re.cont) :
  Re.run ic (Re.Group r) p s g k
  = Re.run ic r p s g
      (fun p' s' _ => k p' s' (Some (Py.take (String.length s - String.length s') s))).
Proof. reflexivity. Qed.

Lemma run_Opt_Chr (ic : bool) (c : Re.cls) (p : option ascii) (s : string)
      (g : option string) (k : Re.cont) :
  Re.run ic (Re.Opt (Re.Chr c)) p s g k
  = match
      match s with
      | String x t => if Re.cls_mem ic c x then k (Some x) t g else None
      | "" => None
      end
    with
    | Some x => Some x
    | None => k p s g
    end.
Proof. reflexivity. Qed.

Lemma run_Plus_Chr (ic : bool) (c : Re.cls) (p : option ascii) (s : string)
      (g : option string) (k : Re.cont) :
  Re.run ic (Re.Plus (Re.Chr c)) p s g k
  = match s with
    | String x t => if Re.cls_mem ic c x then star_chr ic c k (Some x) t g else None
    | "" => None
    end.
Proof.
  unfold Re.Plus.
  change (Re.run ic (Re.Seq (Re.Chr c) (Re.Star (Re.Chr c))) p s g k)
    with (Re.run ic (Re.Chr c) p s g
            (fun p' s' g' => Re.run ic (Re.Star (Re.Chr c)) p' s' g' k)).
  simpl Re.run at 1. destruct s as [|x t]; [reflexivity|].
  destruct (Re.cls_mem ic c x); [apply run_Star_Chr | reflexivity].
Qed.

Ltac crunch := cbn -[Re.run Re.Cat Re.Str Re.Opt Re.Plus Nat.sub].

(** ** The header *)

(** The fields of [extract_header] are those of the text read from the
    top fifth of the image. *)
Lemma extract_header_fields {Image : Type} (size : Image -> Z * Z)
      (pil_crop : Image -> Z * Z * Z * Z -> res Image)
      (image_to_string : Image -> string -> res string)
      (img : Image) (r : option string * option string) :
  extract_header size pil_crop image_to_string img = Ok r ->
  exists b hdr txt,
    int_of_product (snd (size img)) Num.f0_2 = Ok b
    /\ pil_crop img (0, 0, fst (size img), b)%Z = Ok hdr
    /\ image_to_string hdr "--psm 6" = Ok txt
    /\ r = (header_inv_no txt, header_inv_dt txt).
Proof.
  unfold extract_header, int_of_product. destruct (size img) as [w h]. simpl.
  destruct (Num.int_mul_float h Num.f0_2) as [f|]; simpl; [|discriminate].
  destruct (Num.int_of_float f) as [b|]; simpl; [|discriminate].
  destruct (pil_crop img (0, 0, w, b)%Z) as [hdr|] eqn:E; simpl; [|discriminate].
  destruct (image_to_string hdr "--psm 6") as [txt|] eqn:Et; simpl; [|discriminate].
  intros H. injection H as <-. exists b, hdr, txt. now rewrite E.
Qed.

(** ** The invoice number *)

Lemma match_invoice_no_482 (prev : option ascii) (post : string) :
  starts_with_digit post = false ->
  Re.match_at true Pat.invoice_no prev ("Invoice No: 482" ++ post)
  = Some (15, Some "482").
Proof.
  intros H. unfold Re.match_at, Pat.invoice_no, Pat.ws, Pat.sep, Pat.d.
  cbn [append].
  rewrite run_Cat_cons, run_Str; crunch.
  rewrite run_Cat_cons, run_Star_Chr; crunch.
  rewrite run_Cat_cons, run_Str; crunch.
  rewrite run_Cat_cons, run_Opt_Chr; crunch.
  rewrite run_Cat_cons, run_Opt_Chr; crunch.
  rewrite run_Cat_cons, run_Star_Chr; crunch.
  rewrite run_Cat_cons, run_Group, run_Plus_Chr; crunch.
  rewrite star_chr_stop by exact H.
  rewrite run_Cat_nil.
  replace (S (S (S (String.length post))) - String.length post) with 3 by lia.
  replace (S (S (S (S (S (S (S (S (S (S (S (S (S (S (S (String.length post)))))))))))))))
           - String.length post) with 15 by lia.
  reflexivity.
Qed.

(** C6, as stated: every header text that contains "Invoice No: 482"
    would give the invoice number "482".  A digit after the occurrence
    belongs to the number, and an earlier label with a number is found
    first. *)
Lemma header_inv_no_not_482 :
  Py.contains "Invoice No: 482" "Invoice No: 4825" = true
  /\ header_inv_no "Invoice No: 4825" = Some "4825"
  /\ Py.contains "Invoice No: 482" "Invoice No: 7, Invoice No: 482" = true
  /\ header_inv_no "Invoice No: 7, Invoice No: 482" = Some "7".
Proof.
  repeat split; reflexivity.
Qed.

(** C6, amended.  When the header text holds "Invoice No: 482", no digit
    follows the occurrence and the first pattern of the invoice number has
    no match that starts before the occurrence, the invoice number is
    "482". *)
Theorem header_inv_no_482 (pre post : string) :
  (forall i, i < String.length pre ->
             Re.match_pos true Pat.invoice_no None
               (pre ++ "Invoice No: 482" ++ post) i = None) ->
  starts_with_digit post = false ->
  header_inv_no (pre ++ "Invoice No: 482" ++ post) = Some "482".
Proof.
  intros Hpre Hpost.
  unfold header_inv_no, inv_no_patterns, first_search, Re.search.
  rewrite (search_from_leftmost true Pat.invoice_no _ 0 None
             (String.length pre) 15 (Some "482")).
  - reflexivity.
  - rewrite match_pos_app. now apply match_invoice_no_482.
  - exact Hpre.
Qed.

(** A header with a date before the label and a word after the number. *)
Lemma header_inv_no_482_witness :
  starts_with_digit " Due" = false
  /\ header_inv_no ("Date 03/14/2024 " ++ "Invoice No: 482" ++ " Due") = Some "482".
Proof.
  split; [reflexivity|].
  apply (header_inv_no_482 "Date 03/14/2024 " " Due").
  - intros i Hi.
    do 16 (destruct i as [|i]; [reflexivity|]).
    simpl in Hi. lia.
  - reflexivity.
Defined.

(** ** The label of the seller *)

Lemma rstrip_by_keep (p : ascii -> bool) (c : ascii) (t : string) :
  p c = false -> Py.rstrip_by p (String c t) = String c (Py.rstrip_by p t).
Proof.
  intros H. simpl. now rewrite H, andb_false_r.
Qed.

Lemma rstrip_by_empty (p : ascii -> bool) (s : string) :
  Py.is_empty (Py.rstrip_by p s) = all_chars p s.
Proof.
  induction s as [|c t IH]; simpl; [reflexivity|].
  rewrite IH. destruct (all_chars p t); simpl.
  - destruct (p c); reflexivity.
  - now rewrite andb_false_r.
Qed.

Lemma all_colons_chars (s : string) :
  Spec.all_colons s = all_chars (fun c => Py.contains (String c "") ":") s.
Proof.
  induction s as [|c t IH]; simpl; [reflexivity|].
  rewrite IH. now destruct (Ascii.eqb c ":").
Qed.

(** A character whose lower-case form is an ASCII letter is neither a
    white-space character nor a colon. *)
Lemma letter_plain (c : ascii) :
  Py.isasciialpha (Py.lower_char c) = true ->
  Py.isspace c = false /\ Py.contains (String c "") ":" = false.
Proof.
  destruct c as [[] [] [] [] [] [] [] []]; vm_compute; intros H;
    first [discriminate H | split; reflexivity].
Qed.

Lemma lower_colon (c : ascii) : Py.lower_char c = ":"%char -> c = ":"%char.
Proof.
  destruct c as [[] [] [] [] [] [] [] []]; vm_compute; intros H;
    first [discriminate H | reflexivity].
Qed.

Lemma is_seller_label_spec (ln : string) : is_seller_label ln = Spec.seller_label ln.
Proof.
  unfold is_seller_label, Spec.seller_label.
  destruct ln as [|c1 [|c2 [|c3 [|c4 [|c5 [|c6 [|c7 rest]]]]]]];
    try (cbn [Py.lower Py.startswith]; rewrite ?andb_false_r; reflexivity).
  destruct (Py.startswith "seller:" (Py.lower (String c1 (String c2 (String c3
              (String c4 (String c5 (String c6 (String c7 rest))))))))) eqn:E;
    [|reflexivity].
  cbn [Py.lower Py.startswith] in E.
  apply andb_prop in E as [E1 E]. apply andb_prop in E as [E2 E].
  apply andb_prop in E as [E3 E]. apply andb_prop in E as [E4 E].
  apply andb_prop in E as [E5 E]. apply andb_prop in E as [E6 E].
  apply andb_prop in E as [E7 _].
  apply Ascii.eqb_eq in E1, E2, E3, E4, E5, E6, E7.
  symmetry in E1, E2, E3, E4, E5, E6, E7.
  apply lower_colon in E7. subst c7.
  assert (P1 := letter_plain c1). assert (P2 := letter_plain c2).
  assert (P3 := letter_plain c3). assert (P4 := letter_plain c4).
  assert (P5 := letter_plain c5). assert (P6 := letter_plain c6).
  rewrite E1 in P1. rewrite E2 in P2. rewrite E3 in P3.
  rewrite E4 in P4. rewrite E5 in P5. rewrite E6 in P6.
  destruct (P1 eq_refl) as [S1 C1]. destruct (P2 eq_refl) as [S2 C2].
  destruct (P3 eq_refl) as [S3 C3]. destruct (P4 eq_refl) as [S4 C4].
  destruct (P5 eq_refl) as [S5 C5]. destruct (P6 eq_refl) as [S6 C6].
  clear P1 P2 P3 P4 P5 P6.
  cbn [andb Py.drop]. unfold Py.rstrip_chars, Py.strip.
  rewrite !rstrip_by_keep by assumption.
  rewrite all_colons_chars, <- rstrip_by_empty.
  set (p := fun c : ascii => Py.contains (String c "") ":").
  cbn [Py.rstrip_by].
  destruct (Py.rstrip_by p rest) as [|r1 rs] eqn:R.
  - cbn [Py.is_empty andb]. change (p ":"%char) with true. cbn iota.
    rewrite ?rstrip_by_keep by assumption.
    cbn [Py.rstrip_by Py.lstrip_by]. rewrite S1.
    cbn [Py.lower]. rewrite E1, E2, E3, E4, E5, E6. reflexivity.
  - cbn [Py.is_empty andb]. cbn iota.
    rewrite ?rstrip_by_keep by assumption.
    rewrite (rstrip_by_keep Py.isspace ":"%char) by reflexivity.
    cbn [Py.lstrip_by]. rewrite S1.
    cbn [Py.lower]. rewrite E1, E2, E3, E4, E5, E6. reflexivity.
Qed.

(** ** The vendor *)

Lemma next_name_first (passed : list string) (name : string) (rest : list string) :
  Forall (fun ln => Spec.skipped ln = true) passed ->
  Spec.skipped name = false ->
  next_name (passed ++ name :: rest) = Some name.
Proof.
  intros Hp Hn. induction Hp as [|ln passed Hln _ IH]; cbn [next_name app].
  - unfold Spec.skipped in Hn. apply orb_false_elim in Hn as [-> ->]. reflexivity.
  - unfold Spec.skipped in Hln.
    destruct (Py.is_empty ln); [exact IH|].
    cbn [orb] in Hln. rewrite Hln. exact IH.
Qed.

Lemma standalone_seller_skip (before rest : list string) :
  Forall (fun ln => Spec.seller_label ln = false) before ->
  standalone_seller (before ++ rest) = standalone_seller rest.
Proof.
  induction 1 as [|ln before Hln _ IH]; cbn [standalone_seller app]; [reflexivity|].
  now rewrite is_seller_label_spec, Hln.
Qed.

(** C8, as stated: after a line that is "seller:" and nothing else, the
    result would be the first later line that is neither blank nor starts
    with "client".  In the text below the third line is the only one that
    equals "seller:", in any case, and "Bar" is the first such line after
    it; the result is "Foo", the line after "Seller::", which the program
    takes for a label too. *)
Lemma extract_vendor_after_other_label :
  let txt := Py.join nl ["Seller::"; "Foo"; "Seller:"; "Bar"] in
  map Py.strip (Py.splitlines txt) = ["Seller::"; "Foo"; "Seller:"; "Bar"]
  /\ map (fun ln => String.eqb (Py.lower ln) "seller:") (map Py.strip (Py.splitlines txt))
     = [false; false; true; false]
  /\ Spec.skipped "Bar" = false
  /\ extract_vendor txt = Some "Foo"
  /\ extract_vendor txt <> Some "Bar".
Proof.
  repeat split; try reflexivity. discriminate.
Qed.

(** C8, amended.  A label is a line that, trimmed, is "seller" in any
    case followed by one colon or more and nothing else.  When the first
    label of the text has, among the lines after it, a line that is
    neither blank nor starts with "client" in any case, [extract_vendor]
    returns the first such line, trimmed. *)
Theorem extract_vendor_after_label
        (txt : string) (before : list string) (label : string)
        (passed : list string) (name : string) (rest : list string) :
  map Py.strip (Py.splitlines txt) = before ++ label :: passed ++ name :: rest ->
  Forall (fun ln => Spec.seller_label ln = false) before ->
  Spec.seller_label label = true ->
  Forall (fun ln => Spec.skipped ln = true) passed ->
  Spec.skipped name = false ->
  extract_vendor txt = Some name.
Proof.
  intros Hlines Hbefore Hlabel Hpassed Hname.
  unfold extract_vendor. rewrite Hlines.
  rewrite standalone_seller_skip by assumption.
  cbn [standalone_seller]. rewrite is_seller_label_spec, Hlabel.
  now rewrite next_name_first.
Qed.

(** The text "Seller:", "Client", "Acme Corp" of the specification. *)
Lemma extract_vendor_after_label_witness :
  extract_vendor (Py.join nl ["Seller:"; "Client"; "Acme Corp"]) = Some "Acme Corp".
Proof.
  apply (extract_vendor_after_label _ [] "Seller:" ["Client"] "Acme Corp" []).
  - reflexivity.
  - constructor.
  - reflexivity.
  - repeat constructor.
  - reflexivity.
Defined.

(** ** The invoice date *)

Ltac split_text H :=
  repeat (match type of H with
          | context [match ?s with "" => _ | String _ _ => _ end] =>
              is_var s; destruct s
          | context [if Py.isdecimal ?c then _ else _] =>
              destruct (Py.isdecimal c) eqn:?
          | context [if Ascii.eqb ?c ?d then _ else _] =>
              destruct (Ascii.eqb c d) eqn:?
          end; cbn -[Nat.sub] in H; try discriminate H).

Ltac use_digits :=
  repeat match goal with
         | H : Py.isdecimal ?c = true |- context [Py.isdecimal ?c] => rewrite H
         end.

Ltac date_fields i j :=
  match goal with
  | |- numeric_date ?w =>
      exists (Py.take i w), (Py.take j (Py.drop (S i) w)),
        (Py.drop (S (S (i + j))) w);
      cbn; unfold digits; cbn; use_digits; repeat split; solve [reflexivity | lia]
  end.

(** A match of the numeric pattern is a date in numeric form. *)
Lemma date_numeric_sound (prev : option ascii) (s : string) (n : nat)
      (g : option string) :
  Re.match_at false Pat.date_numeric prev s = Some (n, g) ->
  g = None /\ numeric_date (Py.take n s).
Proof.
  intros H. unfold Re.match_at in H.
  let r := eval cbv in Pat.date_numeric in change Pat.date_numeric with r in H.
  cbn -[Nat.sub] in H.
  split_text H; try discriminate H.
  all: match type of H with
       | Some (?e, _) = _ =>
           first [ replace e with 4 in H by lia | replace e with 5 in H by lia
                 | replace e with 6 in H by lia | replace e with 7 in H by lia
                 | replace e with 8 in H by lia | replace e with 9 in H by lia
                 | replace e with 10 in H by lia ]
       end.
  all: injection H as <- <-; split; [reflexivity|]; cbn [Py.take].
  all: repeat match goal with
              | H : Ascii.eqb _ _ = true |- _ => apply Ascii.eqb_eq in H; subst
              end.
  all: try (match goal with
            | H : Py.isdecimal "/"%char = true |- _ => cbv in H; discriminate H
            end).
  all: first [date_fields 1 1 | date_fields 1 2 | date_fields 2 1 | date_fields 2 2].
Qed.

Ltac split_goal :=
  repeat (match goal with
          | |- context [match ?s with "" => _ | String _ _ => _ end] =>
              is_var s; destruct s
          | |- context [if Py.isdecimal ?c then _ else _] =>
              destruct (Py.isdecimal c) eqn:?
          | |- context [if Ascii.eqb ?c ?d then _ else _] =>
              destruct (Ascii.eqb c d) eqn:?
          end; cbn -[Nat.sub]).

(** Where a date in numeric form starts, the numeric pattern matches. *)
Lemma date_numeric_complete (w : string) (prev : option ascii) (post : string) :
  numeric_date w ->
  exists n, Re.match_at false Pat.date_numeric prev (w ++ post) = Some (n, None).
Proof.
  intros (a & b & c & -> & [Ha La] & [Hb Lb] & [Hc Lc]).
  destruct a as [|a1 [|a2 [|? ?]]]; cbn in La; try lia;
    destruct b as [|b1 [|b2 [|? ?]]]; cbn in Lb; try lia;
    destruct c as [|c1 [|c2 [|c3 [|c4 [|? ?]]]]]; cbn in Lc; try lia.
  all: cbn in Ha, Hb, Hc;
    repeat match goal with
           | H : _ && _ = true |- _ => apply andb_prop in H; destruct H
           end.
  all: unfold Re.match_at;
    let r := eval cbv in Pat.date_numeric in change Pat.date_numeric with r.
  all: cbn -[Nat.sub]; use_digits; cbn -[Nat.sub].
  all: split_goal; use_digits; cbn -[Nat.sub].
  all: eexists; reflexivity.
Qed.

Lemma match_pos_drop (ic : bool) (r : Re.regex) (j : nat) :
  forall prev s x,
    Re.match_pos ic r prev s j = Some x ->
    Re.match_at ic r (prev_after prev j s) (Py.drop j s) = Some x.
Proof.
  induction j as [|j IH]; intros prev s x H; simpl in *.
  - now destruct s.
  - destruct s as [|c t]; [discriminate|]. now apply IH.
Qed.

Lemma string_app_assoc (a b c : string) : ((a ++ b) ++ c = a ++ b ++ c)%string.
Proof.
  induction a as [|x a IH]; simpl; [reflexivity | now rewrite IH].
Qed.

(** The second pattern is tried when the first has no match in the whole
    text, and only then. *)
Lemma header_inv_dt_order (txt : string) :
  header_inv_dt txt
  = match Re.search false Pat.date_numeric txt with
    | Some m => Some (Re.group0 m)
    | None =>
        match Re.search false Pat.date_month txt with
        | Some m => Some (Re.group0 m)
        | None => None
        end
    end.
Proof.
  unfold header_inv_dt, inv_dt_patterns, first_search.
  destruct (Re.search false Pat.date_numeric txt); [reflexivity|].
  destruct (Re.search false Pat.date_month txt); reflexivity.
Qed.

(** C7.  When the header text holds a date in numeric form, the date
    returned is a date in numeric form of the text, and it starts at the
    occurrence or before it: whatever the text holds besides, a date with
    the name of a month before the occurrence too, the second pattern is
    not tried, and among the matches of the first pattern the leftmost is
    taken. *)
Theorem header_inv_dt_numeric_first (pre d post : string) :
  numeric_date d ->
  exists pre' d' post',
    (pre ++ d ++ post = pre' ++ d' ++ post')%string
    /\ String.length pre' <= String.length pre
    /\ numeric_date d'
    /\ header_inv_dt (pre ++ d ++ post) = Some d'.
Proof.
  intros Hd.
  destruct (date_numeric_complete d (prev_after None (String.length pre) pre) post Hd)
    as [n Hn].
  rewrite <- match_pos_app in Hn.
  destruct (search_from_exists false Pat.date_numeric _ 0 None _ _ Hn)
    as (m & Hm & Hle).
  destruct (search_from_finds false Pat.date_numeric _ 0 None m Hm)
    as (j & n' & Em & Hj & _).
  apply match_pos_drop in Hj.
  apply date_numeric_sound in Hj as [_ Hdate].
  set (txt := (pre ++ d ++ post)%string) in *.
  exists (Py.take j txt), (Py.take n' (Py.drop j txt)), (Py.drop n' (Py.drop j txt)).
  repeat split.
  - now rewrite !take_drop.
  - pose proof (length_take_le j txt) as Hlen.
    rewrite Em in Hle. simpl in Hle. lia.
  - exact Hdate.
  - unfold header_inv_dt, inv_dt_patterns, first_search, Re.search.
    rewrite Hm, Em. reflexivity.
Qed.

(** A date with the name of a month before a date in numeric form: the
    second is returned; alone, the first is. *)
Lemma header_inv_dt_numeric_first_witness :
  header_inv_dt "March 14, 2024 03/14/2024" = Some "03/14/2024"
  /\ header_inv_dt "March 14, 2024" = Some "March 14, 2024"
  /\ exists pre' d' post',
       ("March 14, 2024 " ++ "03/14/2024" ++ "" = pre' ++ d' ++ post')%string
       /\ String.length pre' <= String.length "March 14, 2024 "
       /\ numeric_date d'
       /\ header_inv_dt ("March 14, 2024 " ++ "03/14/2024" ++ "") = Some d'.
Proof.
  split; [reflexivity|]. split; [reflexivity|].
  apply (header_inv_dt_numeric_first "March 14, 2024 " "03/14/2024" "").
  exists "03", "14", "2024". unfold digits. simpl. repeat split; lia.
Defined.

(** ** The pairs of the summary *)

Lemma lstrip_head (p : ascii -> bool) (s : string) (x : ascii) (t : string) :
  Py.lstrip_by p s = String x t -> p x = false.
Proof.
  induction s as [|c s IH]; simpl; [discriminate|].
  destruct (p c) eqn:E; [exact IH|]. intros H. injection H as <- _. exact E.
Qed.

Lemma lstrip_split (p : ascii -> bool) (s : string) :
  exists l, s = (l ++ Py.lstrip_by p s)%string /\ all_chars p l = true.
Proof.
  induction s as [|c t (l & E & Hl)]; [now exists ""|].
  cbn [Py.lstrip_by]. destruct (p c) eqn:Ec.
  - exists (String c l). cbn [append all_chars]. now rewrite <- E, Ec, Hl.
  - now exists "".
Qed.

Lemma rstrip_split (p : ascii -> bool) (s : string) :
  exists r, s = (Py.rstrip_by p s ++ r)%string /\ all_chars p r = true.
Proof.
  induction s as [|c t (r & E & Hr)]; [now exists ""|].
  cbn [Py.rstrip_by]. cbv zeta.
  destruct (Py.is_empty (Py.rstrip_by p t) && p c) eqn:Ec.
  - apply andb_prop in Ec as [Et Ec]. exists (String c t).
    split; [reflexivity|]. cbn [all_chars]. rewrite Ec.
    destruct (Py.rstrip_by p t); [|discriminate]. now rewrite E.
  - exists r. cbn [append]. now rewrite <- E.
Qed.

Lemma rstrip_last (p : ascii -> bool) (s : string) :
  match Py.rstrip_by p s with
  | "" => True
  | String x t => p (last_char x t) = false
  end.
Proof.
  induction s as [|c t IH]; [exact I|].
  cbn [Py.rstrip_by]. cbv zeta.
  destruct (Py.rstrip_by p t) as [|y u]; cbn [Py.is_empty andb last_char].
  - destruct (p c) eqn:Ec; [exact I | exact Ec].
  - exact IH.
Qed.

Lemma lstrip_last (p : ascii -> bool) (s : string) (x : ascii) (t : string) :
  Py.lstrip_by p s = String x t ->
  exists x0 t0, s = String x0 t0 /\ last_char x0 t0 = last_char x t.
Proof.
  induction s as [|c u IH]; cbn [Py.lstrip_by]; [discriminate|].
  destruct (p c).
  - intros H. destruct (IH H) as (x1 & t1 & -> & E). now exists c, (String x1 t1).
  - intros H. injection H as -> ->. now exists x, t.
Qed.

(** [str.strip] trims. *)
Lemma strip_trimmed (s : string) : trimmed s (Py.strip s).
Proof.
  unfold Py.strip.
  destruct (rstrip_split Py.isspace s) as (r & Es & Hr).
  destruct (lstrip_split Py.isspace (Py.rstrip_by Py.isspace s)) as (l & Eu & Hl).
  exists l, r. split; [|split; [exact Hl|split; [exact Hr|]]].
  - rewrite <- string_app_assoc, <- Eu. exact Es.
  - destruct (Py.lstrip_by Py.isspace (Py.rstrip_by Py.isspace s)) as [|x t] eqn:E;
      [reflexivity|].
    cbn [clean_ends]. rewrite (lstrip_head _ _ _ _ E). cbn [negb andb].
    destruct (lstrip_last _ _ _ _ E) as (x0 & t0 & Eu' & <-).
    pose proof (rstrip_last Py.isspace s) as Hlast. rewrite Eu' in Hlast.
    now rewrite Hlast.
Qed.

(** C9.  On every list of entries the loop of [extract_summary] leaves out
    the entries that start with "Summary", in any case, and gives one pair
    for every other entry, in the order of the entries, repeated keys
    included: the text before the first colon of the entry and the text
    after it, the second empty when the entry has no colon, each without
    the white space at its two ends.  The entries "Summary",
    "Subtotal: 100.00" and "Tax: 5.00" give the pairs of "Subtotal" and
    "Tax". *)
Theorem summary_of_entries_spec :
  (forall ents,
      exists pairs,
        summary_of_entries ents = Ok pairs
        /\ Forall2 pair_of_entry
             (filter (fun e => negb (Spec.starts_with_summary e)) ents) pairs)
  /\ summary_of_entries ["Summary"; "Subtotal: 100.00"; "Tax: 5.00"]
     = Ok [("Subtotal", "100.00"); ("Tax", "5.00")]
  /\ summary_of_entries ["Tax: 5.00"; "Tax: 5.00"; "Total"]
     = Ok [("Tax", "5.00"); ("Tax", "5.00"); ("Total", "")]
  /\ summary_of_entries ["SUMMARY of totals"; " Net worth  :  12.50 "; "Paid : 10:30 "]
     = Ok [("Net worth", "12.50"); ("Paid", "10:30")].
Proof.
  split; [|repeat split; reflexivity].
  intros ents. unfold summary_of_entries. rewrite summary_loop_spec. cbn [app].
  eexists. split; [reflexivity|]. unfold Spec.summary_pairs.
  induction (filter (fun e => negb (Spec.starts_with_summary e)) ents) as [|e l IH];
    cbn [map]; constructor; [|exact IH].
  split; apply strip_trimmed.
Qed.

(** * Further properties *)

(** ** Texts *)

Lemma all_chars_app (p : ascii -> bool) (a b : string) :
  all_chars p (a ++ b) = all_chars p a && all_chars p b.
Proof.
  induction a as [|c a IH]; simpl; [reflexivity|].
  now rewrite IH, andb_assoc.
Qed.

Lemma all_chars_lstrip (p q : ascii -> bool) (s : string) :
  all_chars p s = true -> all_chars p (Py.lstrip_by q s) = true.
Proof.
  induction s as [|c t IH]; simpl; [reflexivity|].
  intros H. apply andb_prop in H as [Hc Ht].
  destruct (q c); [now apply IH|]. simpl. now rewrite Hc, Ht.
Qed.

Lemma all_chars_rstrip (p q : ascii -> bool) (s : string) :
  all_chars p s = true -> all_chars p (Py.rstrip_by q s) = true.
Proof.
  induction s as [|c t IH]; simpl; [reflexivity|].
  intros H. apply andb_prop in H as [Hc Ht].
  destruct (Py.is_empty (Py.rstrip_by q t) && q c); [reflexivity|].
  simpl. now rewrite Hc, IH.
Qed.

Lemma all_chars_strip (p : ascii -> bool) (s : string) :
  all_chars p s = true -> all_chars p (Py.strip s) = true.
Proof.
  intros H. unfold Py.strip. now apply all_chars_lstrip, all_chars_rstrip.
Qed.

Lemma all_chars_replace_from (p : ascii -> bool) (old new : string) (s : string) :
  all_chars p new = true ->
  forall skip, all_chars p s = true -> all_chars p (Py.replace_from old new skip s) = true.
Proof.
  intros Hnew. induction s as [|c t IH]; intros skip H; simpl; [reflexivity|].
  simpl in H. apply andb_prop in H as [Hc Ht].
  destruct skip as [|k]; [|now apply IH].
  destruct (Py.startswith old (String c t)).
  - rewrite all_chars_app, Hnew. now apply IH.
  - simpl. rewrite Hc. now apply IH.
Qed.

Lemma replace_comma_none (s : string) :
  all_chars not_comma (Py.replace "," "" s) = true.
Proof.
  unfold Py.replace. induction s as [|c t IH]; [reflexivity|].
  cbn [Py.replace_from Py.startswith String.length Nat.sub].
  rewrite andb_true_r, (Ascii.eqb_sym "," c).
  destruct (Ascii.eqb c ",") eqn:E; cbn [append all_chars]; [exact IH|].
  unfold not_comma at 1. now rewrite E.
Qed.

(** [re.sub] brings in no character besides those of the text and of the
    replacement. *)
Lemma all_chars_sub_from (p : ascii -> bool) (ic : bool) (r : Re.regex)
      (repl : string) (s : string) :
  all_chars p repl = true ->
  forall skip prev,
    all_chars p s = true -> all_chars p (Re.sub_from ic r repl skip prev s) = true.
Proof.
  intros Hr. induction s as [|c t IH]; intros skip prev H.
  - destruct skip; simpl; [|reflexivity].
    destruct (Re.match_at ic r prev "") as [[[|n] g]|]; simpl;
      rewrite ?all_chars_app, ?Hr; reflexivity.
  - simpl in H. apply andb_prop in H as [Hc Ht].
    destruct skip as [|k]; simpl; [|now apply IH].
    destruct (Re.match_at ic r prev (String c t)) as [[[|n] g]|]; simpl;
      rewrite ?all_chars_app, ?Hr; simpl; rewrite ?Hc; now apply IH.
Qed.

(** ** What a match reads *)

(** The result of the matcher is that of its continuation on a rest of
    the text. *)
Lemma star_loop_reaches body
      (Hb : forall prev s g k res,
          body prev s g k = Some res ->
          exists p' w s' g', s = (w ++ s')%string /\ k p' s' g' = Some res)
      (k : Re.cont) (n : nat) :
  forall prev s g res,
    Re.star_loop body k n prev s g = Some res ->
    exists p' w s' g', s = (w ++ s')%string /\ k p' s' g' = Some res.
Proof.
  induction n as [|n IH]; intros prev s g res H; simpl in H.
  - exists prev, "", s, g. now split.
  - destruct (body prev s g _) as [x|] eqn:E.
    + injection H as ->.
      apply Hb in E as (p' & w & s' & g' & -> & E).
      destruct (Nat.ltb _ _); [|discriminate].
      apply IH in E as (p'' & w' & s'' & g'' & -> & E).
      exists p'', (w ++ w')%string, s'', g''. split; [|exact E].
      now rewrite string_app_assoc.
    + exists prev, "", s, g. now split.
Qed.

Lemma run_reaches (ic : bool) (r : Re.regex) :
  forall prev s g k res,
    Re.run ic r prev s g k = Some res ->
    exists p' w s' g', s = (w ++ s')%string /\ k p' s' g' = Some res.
Proof.
  induction r as [|c|r1 IH1 r2 IH2|r1 IH1 r2 IH2|r1 IH1|r1 IH1| | |];
    intros prev s g k res H; cbn [Re.run] in H.
  - exists prev, "", s, g. now split.
  - destruct s as [|x t]; [discriminate|].
    destruct (Re.cls_mem ic c x); [|discriminate].
    exists (Some x), (String x ""), t, g. now split.
  - apply IH1 in H as (p' & w & s' & g' & -> & H).
    apply IH2 in H as (p'' & w' & s'' & g'' & -> & H).
    exists p'', (w ++ w')%string, s'', g''. split; [|exact H].
    now rewrite string_app_assoc.
  - destruct (Re.run ic r1 prev s g k) as [x|] eqn:E.
    + injection H as ->. now apply IH1 in E.
    + now apply IH2 in H.
  - now apply (star_loop_reaches _ IH1) in H.
  - apply IH1 in H as (p' & w & s' & g' & -> & H).
    eexists p', w, s', _. split; [reflexivity | exact H].
  - destruct prev; [discriminate|]. exists None, "", s, g. now split.
  - exists prev, "", s, g. split; [reflexivity|].
    destruct s as [|c [|c' t]]; try discriminate; [exact H|].
    destruct (Py.is_code 10 c); [exact H | discriminate].
  - destruct (xorb _ _); [|discriminate]. exists prev, "", s, g. now split.
Qed.

Lemma str_length_app (a b : string) :
  String.length (a ++ b) = String.length a + String.length b.
Proof.
  induction a as [|c a IH]; simpl; [reflexivity | now rewrite IH].
Qed.

(** A match is no longer than the text. *)
Lemma match_at_length (ic : bool) (r : Re.regex) (prev : option ascii) (s : string)
      (n : nat) (g : option string) :
  Re.match_at ic r prev s = Some (n, g) ->
  exists w s', s = (w ++ s')%string /\ n = String.length w.
Proof.
  unfold Re.match_at. destruct (Re.run ic r prev s None _) as [[s' g']|] eqn:E;
    [|discriminate].
  intros H. injection H as <- <-.
  apply run_reaches in E as (p' & w & s'' & g'' & -> & E).
  injection E as <- <-. exists w, s''. split; [reflexivity|].
  rewrite str_length_app. lia.
Qed.

Lemma run_Seq (ic : bool) (r1 r2 : Re.regex) (p : option ascii) (s : string)
      (g : option string) (k : Re.cont) :
  Re.run ic (Re.Seq r1 r2) p s g k
  = Re.run ic r1 p s g (fun p' s' g' => Re.run ic r2 p' s' g' k).
Proof. reflexivity. Qed.

Lemma run_Opt_some (ic : bool) (r : Re.regex) (p : option ascii) (s : string)
      (g : option string) (k : Re.cont) :
  k p s g <> None -> Re.run ic (Re.Opt r) p s g k <> None.
Proof.
  intros H. unfold Re.Opt. cbn [Re.run].
  destruct (Re.run ic r p s g k); [discriminate | exact H].
Qed.

Lemma star_chr_some (ic : bool) (c : Re.cls) (k : Re.cont) (s : string) :
  (forall p s' g, k p s' g <> None) ->
  forall prev g, star_chr ic c k prev s g <> None.
Proof.
  intros Hk. induction s as [|x t IH]; intros prev g; simpl; [apply Hk|].
  destruct (Re.cls_mem ic c x); [|apply Hk].
  destruct (star_chr ic c k (Some x) t g); [discriminate | apply Hk].
Qed.

Lemma star_chr_reaches (ic : bool) (c : Re.cls) (k : Re.cont) (s : string) :
  forall prev g res,
    star_chr ic c k prev s g = Some res ->
    exists p' w s',
      s = (w ++ s')%string /\ all_chars (Re.cls_mem ic c) w = true
      /\ k p' s' g = Some res.
Proof.
  induction s as [|x t IH]; intros prev g res H; simpl in H.
  - exists prev, "", "". auto.
  - destruct (Re.cls_mem ic c x) eqn:Ex.
    + destruct (star_chr ic c k (Some x) t g) as [r|] eqn:E.
      * injection H as ->. apply IH in E as (p' & w & s' & -> & Hw & E).
        exists p', (String x w), s'. simpl. rewrite Ex, Hw. auto.
      * exists prev, "", (String x t). auto.
    + exists prev, "", (String x t). auto.
Qed.

(** ** The numbers of a description *)

Lemma numeric_no_match (prev : option ascii) (s : string) :
  starts_with_digit s = false -> Re.match_at false Pat.numeric prev s = None.
Proof.
  intros H. unfold Re.match_at, Pat.numeric, Pat.d.
  rewrite run_Seq, run_Plus_Chr.
  destruct s as [|x t]; [reflexivity|]. simpl in H. cbn [Re.cls_mem]. now rewrite H.
Qed.

Lemma numeric_match (prev : option ascii) (c : ascii) (t : string) :
  Py.isdecimal c = true ->
  exists n g, Re.match_at false Pat.numeric prev (String c t) = Some (S n, g).
Proof.
  intros H.
  destruct (Re.match_at false Pat.numeric prev (String c t)) as [[n g]|] eqn:E.
  - pose proof E as E'. unfold Re.match_at, Pat.numeric, Pat.d in E'.
    rewrite run_Seq, run_Plus_Chr in E'. cbn [Re.cls_mem] in E'. rewrite H in E'.
    destruct (star_chr _ _ _ _ _ _) as [[s' g']|] eqn:Es; [|discriminate].
    injection E' as <- <-.
    apply star_chr_reaches in Es as (p' & w & s'' & -> & _ & Es).
    apply run_reaches in Es as (p'' & w' & s3 & g3 & -> & Es).
    injection Es as <- <-.
    exists (String.length w + String.length w'), g3. f_equal. f_equal.
    cbn [String.length]. rewrite !str_length_app.
    destruct (String.length s3); lia.
  - exfalso. unfold Re.match_at, Pat.numeric, Pat.d in E.
    rewrite run_Seq, run_Plus_Chr in E. cbn [Re.cls_mem] in E. rewrite H in E.
    destruct (star_chr _ _ _ _ _ _) as [[s' g']|] eqn:Es; [discriminate|].
    revert Es. apply star_chr_some. intros p s' g.
    apply run_Opt_some. discriminate.
Qed.

Lemma sub_numeric_no_digit (s : string) :
  forall skip prev,
    all_chars not_digit (Re.sub_from false Pat.numeric "" skip prev s) = true.
Proof.
  induction s as [|c t IH]; intros skip prev.
  - destruct skip; [|reflexivity]. cbn [Re.sub_from].
    now rewrite numeric_no_match.
  - destruct skip as [|k]; [|apply IH]. cbn [Re.sub_from].
    destruct (Py.isdecimal c) eqn:Ec.
    + destruct (numeric_match prev c t Ec) as (n & g & ->). simpl. apply IH.
    + rewrite numeric_no_match by exact Ec. simpl.
      unfold not_digit at 1. rewrite Ec. simpl. apply IH.
Qed.

Lemma line_item_of_description (x : Z) (entry : string) (it : line_item) :
  line_item_of x entry = Ok it -> description it = description_of entry.
Proof.
  unfold line_item_of.
  destruct (Py.index _ 0); [|discriminate]. simpl.
  destruct (Py.index _ 1); [|discriminate]. simpl.
  destruct (Py.index _ 2); [|discriminate]. simpl.
  destruct (Py.index _ 3); [|discriminate]. simpl.
  destruct (Py.index _ 4); [|discriminate]. simpl.
  intros H. injection H as <-. reflexivity.
Qed.

Lemma description_of_clean (entry : string) :
  all_chars not_digit (description_of entry) = true
  /\ all_chars not_comma (description_of entry) = true.
Proof.
  unfold description_of. split; [|apply replace_comma_none].
  apply all_chars_replace_from; [reflexivity|].
  apply all_chars_strip.
  apply all_chars_sub_from; [reflexivity|].
  apply sub_numeric_no_digit.
Qed.

(** ** The items of [extract_line_items] *)

Lemma line_item_of_item (x : Z) (entry : string) :
  5 <= List.length (tokens entry) ->
  exists it, line_item_of x entry = Ok it /\ item_of_entry x entry it.
Proof.
  intros H. destruct (line_item_of_enough x entry H) as (q & u & n & v & g & d & Hf & Hi).
  eexists. split; [exact Hi|]. split; [reflexivity|].
  exists q, u, n, v, g. repeat split; assumption.
Qed.

Lemma line_items_loop_ok (ents : list string) :
  forall x items,
    Forall (fun entry => 5 <= List.length (tokens entry)) ents ->
    exists new,
      line_items_loop ents x items = Ok (items ++ new)
      /\ List.length new = List.length ents
      /\ forall i entry,
          nth_error ents i = Some entry ->
          exists it, nth_error new i = Some it
                     /\ item_of_entry (x + 1 + Z.of_nat i) entry it
                     /\ description it = description_of entry.
Proof.
  induction ents as [|entry rest IH]; intros x items H.
  - exists []. simpl. rewrite app_nil_r. repeat split. intros [|i] e; discriminate.
  - inversion H as [|? ? He Hrest]; subst.
    destruct (line_item_of_item (x + 1) entry He) as (it & Eit & Hit).
    destruct (IH (x + 1)%Z (items ++ [it]) Hrest) as (new & Enew & Hlen & Hnth).
    exists (it :: new). simpl. rewrite Eit. simpl. rewrite Enew, <- app_assoc.
    repeat split; [now rewrite Hlen|].
    intros [|i] e Hi; simpl in Hi.
    + injection Hi as <-. exists it. cbn [nth_error Z.of_nat]. rewrite Z.add_0_r.
      split; [reflexivity|]. split; [exact Hit|].
      now apply line_item_of_description in Eit.
    + destruct (Hnth i e Hi) as (it' & E' & H' & D'). exists it'.
      split; [exact E'|]. split; [|exact D'].
      replace (x + 1 + Z.of_nat (S i))%Z with (x + 1 + 1 + Z.of_nat i)%Z by lia.
      exact H'.
Qed.

Lemma line_items_ok_enough (ents : list string) (items : list line_item) :
  line_items_of_entries ents = Ok items ->
  Forall (fun entry => 5 <= List.length (tokens entry)) ents.
Proof.
  intros H. apply Forall_forall. intros entry Hin.
  destruct (Nat.le_gt_cases 5 (List.length (tokens entry))) as [Hle|Hgt]; [exact Hle|].
  unfold line_items_of_entries in H.
  rewrite line_items_loop_short in H; [discriminate|].
  apply Exists_exists. exists entry. split; [exact Hin | lia].
Qed.

(** The extraction succeeds exactly when every entry has five numeric
    tokens or more. *)
Theorem line_items_succeed_iff (ents : list string) :
  (exists items, line_items_of_entries ents = Ok items)
  <-> Forall (fun entry => 5 <= List.length (tokens entry)) ents.
Proof.
  split.
  - intros [items H]. exact (line_items_ok_enough ents items H).
  - intros H. destruct (line_items_loop_ok ents 0 [] H) as (new & E & _).
    exists new. exact E.
Qed.

(** When the extraction succeeds there is one item per entry, in the
    order of the entries; the item of the entry at position [i], from 0,
    has the number [i + 1], the first five numeric tokens of the entry as
    its fields, and a description without decimal digit and without
    comma. *)
Theorem line_items_of_entries_items (ents : list string) (items : list line_item) :
  line_items_of_entries ents = Ok items ->
  List.length items = List.length ents
  /\ forall i entry,
      nth_error ents i = Some entry ->
      exists it,
        nth_error items i = Some it
        /\ item_of_entry (Z.of_nat i + 1) entry it
        /\ all_chars not_digit (description it) = true
        /\ all_chars not_comma (description it) = true.
Proof.
  intros H.
  pose proof (line_items_ok_enough ents items H) as Hall.
  destruct (line_items_loop_ok ents 0 [] Hall) as (new & E & Hlen & Hnth).
  unfold line_items_of_entries in H. rewrite E in H. injection H as <-.
  split; [exact Hlen|].
  intros i entry Hi. destruct (Hnth i entry Hi) as (it & Eit & Hit & Hd).
  exists it. rewrite (Z.add_comm (Z.of_nat i) 1).
  split; [exact Eit|]. split; [exact Hit|].
  rewrite Hd. apply description_of_clean.
Qed.

Lemma line_items_of_entries_items_witness :
  line_items_of_entries two_entries = Ok two_items
  /\ List.length two_items = List.length two_entries
  /\ forall i entry,
      nth_error two_entries i = Some entry ->
      exists it,
        nth_error two_items i = Some it
        /\ item_of_entry (Z.of_nat i + 1) entry it
        /\ all_chars not_digit (description it) = true
        /\ all_chars not_comma (description it) = true.
Proof.
  split; [reflexivity|].
  apply (line_items_of_entries_items two_entries two_items). reflexivity.
Defined.

(** ** Trimming *)

Lemma lstrip_idem (p : ascii -> bool) (s : string) :
  Py.lstrip_by p (Py.lstrip_by p s) = Py.lstrip_by p s.
Proof.
  induction s as [|c s IH]; simpl; [reflexivity|].
  destruct (p c) eqn:E; [exact IH|]. simpl. now rewrite E.
Qed.

Lemma rstrip_idem (p : ascii -> bool) (s : string) :
  Py.rstrip_by p (Py.rstrip_by p s) = Py.rstrip_by p s.
Proof.
  induction s as [|c s IH]; simpl; [reflexivity|].
  destruct (Py.is_empty (Py.rstrip_by p s) && p c) eqn:E; [reflexivity|].
  simpl. now rewrite IH, E.
Qed.

Lemma lstrip_rstrip (p : ascii -> bool) (s : string) :
  Py.rstrip_by p (Py.lstrip_by p s) = Py.lstrip_by p (Py.rstrip_by p s).
Proof.
  induction s as [|c s IH]; simpl; [reflexivity|].
  destruct (p c) eqn:E.
  - rewrite IH, andb_true_r.
    destruct (Py.rstrip_by p s) eqn:R; simpl; [reflexivity|]. now rewrite E.
  - rewrite andb_false_r. simpl. now rewrite E, andb_false_r.
Qed.

(** [s.strip().strip()] is [s.strip()]. *)
Lemma strip_idem (s : string) : Py.strip (Py.strip s) = Py.strip s.
Proof.
  unfold Py.strip.
  now rewrite lstrip_rstrip, lstrip_idem, rstrip_idem.
Qed.

Lemma strip_head (s : string) (x : ascii) (t : string) :
  Py.lstrip_by Py.isspace s = String x t ->
  Py.strip s = String x (Py.rstrip_by Py.isspace t).
Proof.
  intros H. unfold Py.strip. rewrite <- lstrip_rstrip, H.
  apply rstrip_by_keep. now apply lstrip_head in H.
Qed.

(** ** The test of a numbered line *)

Lemma space_not_digit (c : ascii) : Py.isspace c = true -> Py.isdecimal c = false.
Proof.
  destruct c as [[] [] [] [] [] [] [] []]; vm_compute; intros H;
    first [discriminate H | reflexivity].
Qed.

Lemma digit_not_stop (c : ascii) : Py.isdecimal c = true -> Ascii.eqb c "." = false.
Proof.
  destruct c as [[] [] [] [] [] [] [] []]; vm_compute; intros H;
    first [discriminate H | reflexivity].
Qed.

(** A greedy star whose continuation fails on every text that starts with
    a character of the class reads all the characters of the class. *)
Lemma star_chr_lstrip (ic : bool) (c : Re.cls) (k : Re.cont) :
  (forall p x t g, Re.cls_mem ic c x = true -> k p (String x t) g = None) ->
  forall s prev g,
    exists p', star_chr ic c k prev s g = k p' (Py.lstrip_by (Re.cls_mem ic c) s) g.
Proof.
  intros Hk. induction s as [|x t IH]; intros prev g; simpl.
  - now exists prev.
  - destruct (Re.cls_mem ic c x) eqn:E; [|now exists prev].
    destruct (IH (Some x) g) as [p' Hp']. exists p'. rewrite Hp'.
    destruct (k p' (Py.lstrip_by (Re.cls_mem ic c) t) g) eqn:Ek; [reflexivity|].
    now apply Hk.
Qed.

Lemma match_numbered (ln : string) :
  is_match (Re.match_ false Pat.numbered ln) = numbered_line ln.
Proof.
  unfold Re.match_, Re.match_at, Pat.numbered, Pat.ws, Pat.d, numbered_line.
  rewrite run_Cat_cons. cbn [Re.run].
  rewrite run_Cat_cons, run_Star_Chr.
  destruct (star_chr_lstrip false Re.Space
              (fun p' s' g' =>
                 Re.run false
                   (Re.Cat [Re.Plus (Re.Chr Re.Digit); Re.Chr (Re.Lit ".");
                            Re.Plus (Re.Chr Re.Space)]) p' s' g'
                   (fun _ s'' g => Some (s'', g)))) with (s := ln) (prev := @None ascii)
      (g := @None string) as [p1 ->].
  { intros p x t g Hx. rewrite run_Cat_cons, run_Plus_Chr. cbn [Re.cls_mem] in *.
    now rewrite (space_not_digit x Hx). }
  change (Py.lstrip_by (Re.cls_mem false Re.Space) ln) with (Py.lstrip_by Py.isspace ln).
  rewrite run_Cat_cons, run_Plus_Chr.
  destruct (Py.lstrip_by Py.isspace ln) as [|x t]; [reflexivity|].
  cbn [Re.cls_mem]. destruct (Py.isdecimal x); [|reflexivity]. cbn [andb].
  destruct (star_chr_lstrip false Re.Digit
              (fun p' s' g' =>
                 Re.run false
                   (Re.Cat [Re.Chr (Re.Lit "."); Re.Plus (Re.Chr Re.Space)]) p' s' g'
                   (fun _ s'' g => Some (s'', g)))) with (s := t) (prev := Some x)
      (g := @None string) as [p2 ->].
  { intros p y t' g Hy. rewrite run_Cat_cons. cbn [Re.run Re.cls_mem Re.char_eq] in *.
    now rewrite (digit_not_stop y Hy). }
  change (Py.lstrip_by (Re.cls_mem false Re.Digit) t) with (Py.lstrip_by Py.isdecimal t).
  rewrite run_Cat_cons. cbn [Re.run Re.cls_mem Re.char_eq].
  destruct (Py.lstrip_by Py.isdecimal t) as [|y t']; [reflexivity|].
  destruct (Ascii.eqb y ".") eqn:Ey; [|now destruct t' as [|w t'']].
  rewrite run_Cat_cons, run_Plus_Chr. cbn [andb Re.cls_mem].
  destruct t' as [|w t'']; [reflexivity|].
  destruct (Py.isspace w); [|reflexivity].
  destruct (star_chr false Re.Space _ (Some w) t'' None) as [[s' g']|] eqn:E;
    [reflexivity|].
  exfalso. revert E. apply star_chr_some. intros p s' g. rewrite run_Cat_nil.
  discriminate.
Qed.

Lemma numbered_line_strip (ln : string) :
  numbered_line ln = true -> starts_with_digit (Py.strip ln) = true.
Proof.
  unfold numbered_line.
  destruct (Py.lstrip_by Py.isspace ln) as [|x t] eqn:E; [discriminate|].
  intros H. apply andb_prop in H as [Hx _].
  rewrite (strip_head ln x t E). exact Hx.
Qed.

(** ** The entries of [parse_entries] *)

Lemma collect_entries_cons (stop : bool) (ln : string) (rest ents : list string) :
  collect_entries stop (ln :: rest) ents
  = if stop && summary_line ln then ents
    else if numbered_line ln
         then collect_entries stop rest (ents ++ [Py.strip ln])
         else
           match ents with
           | [] => collect_entries stop rest ents
           | _ :: _ =>
               collect_entries stop rest
                 (removelast ents ++ [last ents "" ++ " " ++ Py.strip ln]%string)
           end.
Proof.
  cbn [collect_entries]. now rewrite match_numbered.
Qed.

(** The lines after an entry change the last entry only. *)
Lemma collect_entries_last (stop : bool) (lines : list string) :
  forall ents e,
    collect_entries stop lines (ents ++ [e]) = ents ++ collect_entries stop lines [e].
Proof.
  induction lines as [|ln rest IH]; intros ents e; [reflexivity|].
  rewrite !collect_entries_cons.
  destruct (stop && summary_line ln); [reflexivity|].
  destruct (numbered_line ln).
  - rewrite (IH (ents ++ [e])), (IH [e]). now rewrite <- app_assoc.
  - destruct (ents ++ [e]) as [|a l] eqn:E; [now destruct ents|].
    rewrite <- E, removelast_last, last_last. cbn [removelast last app].
    apply IH.
Qed.

Lemma starts_with_digit_app (e x : string) :
  starts_with_digit e = true -> starts_with_digit (e ++ x) = true.
Proof.
  destruct e as [|c t]; [discriminate | simpl; auto].
Qed.

(** Every entry starts with a decimal digit. *)
Lemma collect_entries_digit (stop : bool) (lines : list string) :
  forall ents,
    Forall (fun e => starts_with_digit e = true) ents ->
    Forall (fun e => starts_with_digit e = true) (collect_entries stop lines ents).
Proof.
  induction lines as [|ln rest IH]; intros ents H; [exact H|].
  rewrite collect_entries_cons.
  destruct (stop && summary_line ln); [exact H|].
  destruct (numbered_line ln) eqn:En.
  - apply IH. apply Forall_app. split; [exact H|].
    constructor; [now apply numbered_line_strip | constructor].
  - destruct ents as [|a l]; [now apply IH|].
    apply IH.
    assert (Hne : a :: l <> []) by discriminate.
    pose proof (app_removelast_last "" Hne) as Hd.
    rewrite Hd in H.
    apply Forall_app in H as [H1 H2]. apply Forall_app. split; [exact H1|].
    inversion H2 as [|? ? Hl _]; subst. constructor; [|constructor].
    apply starts_with_digit_app. exact Hl.
Qed.

Lemma strings_raises (ws : list cell) (e : exn) :
  Pd.strings ws = Raise e -> e = TypeError.
Proof.
  induction ws as [|c t IH]; cbn [Pd.strings]; [discriminate|].
  destruct c; try (intros H; now injection H as <-).
  destruct (Pd.strings t) as [l|e']; cbn [bind]; [discriminate|].
  intros H. injection H as <-. now apply IH.
Qed.

Lemma traverse_raises {A B : Type} (f : A -> res B) (l : list A) (e : exn) :
  Pd.traverse f l = Raise e -> exists x, In x l /\ f x = Raise e.
Proof.
  induction l as [|x t IH]; cbn [Pd.traverse]; [discriminate|].
  destruct (f x) as [y|e'] eqn:E; cbn [bind].
  - destruct (Pd.traverse f t) as [ys|e'']; cbn [bind]; [discriminate|].
    intros H. injection H as <-. destruct (IH eq_refl) as (z & Hz & Ez).
    exists z. split; [now right | exact Ez].
  - intros H. injection H as <-. exists x. split; [now left | exact E].
Qed.

(** Line 86 raises nothing but [TypeError]. *)
Lemma table_lines_raises (df : list row) (e : exn) :
  table_lines df = Raise e -> e = TypeError.
Proof.
  unfold table_lines, Pd.groupby_line_num_join. intros H.
  apply traverse_raises in H as (k & _ & H). unfold Pd.join_texts in H.
  destruct (Pd.strings _) as [l|e'] eqn:E; cbn [bind] in H; [discriminate|].
  injection H as <-. exact (strings_raises _ _ E).
Qed.

Section EntriesFacts.

Context {Image : Type}.
Variable image_to_table : Image -> string -> res (list row).

(** Every entry that [parse_entries] returns starts with a decimal digit:
    none is empty, none starts with a letter. *)
Theorem parse_entries_start_with_digit (img : Image) (stop_summary : bool)
        (ents : list string) :
  parse_entries image_to_table img stop_summary = Ok ents ->
  Forall (fun e => starts_with_digit e = true) ents.
Proof.
  unfold parse_entries, entries_of_table.
  destruct (image_to_table img "--psm 6") as [df|e]; cbn [bind]; [|discriminate].
  destruct (table_lines df) as [lines|e]; cbn [bind]; [|discriminate].
  intros H. injection H as <-. apply collect_entries_digit. constructor.
Qed.

End EntriesFacts.

(** Without a stop at the summary each numbered line adds one entry to
    those collected so far and no other line adds or removes one: from the
    empty list there are as many entries as numbered lines. *)
Theorem entries_count_numbered_lines (lines : list string) :
  forall ents,
    List.length (collect_entries false lines ents)
    = List.length ents + List.length (filter numbered_line lines).
Proof.
  induction lines as [|ln rest IH]; intros ents; [simpl; lia|].
  rewrite collect_entries_cons. cbn [andb filter].
  destruct (numbered_line ln).
  - rewrite IH, length_app. simpl. lia.
  - destruct ents as [|a l]; [apply IH|].
    rewrite IH, length_app.
    assert (Hne : a :: l <> []) by discriminate.
    pose proof (f_equal (@List.length string) (app_removelast_last "" Hne)) as Hd.
    rewrite length_app in Hd. cbn [List.length] in *. lia.
Qed.

Lemma collect_entries_noise (stop : bool) (noise lines : list string) :
  Forall (fun ln => numbered_line ln = false) noise ->
  Forall (fun ln => stop && summary_line ln = false) noise ->
  collect_entries stop (noise ++ lines) [] = collect_entries stop lines [].
Proof.
  intros Hn Hs. induction Hn as [|ln noise Hln _ IH]; [reflexivity|].
  inversion Hs as [|? ? Hs1 Hs2]; subst.
  cbn [app]. rewrite collect_entries_cons, Hln, Hs1. now apply IH.
Qed.

Lemma join_cons (sep x : string) (l : list string) :
  l <> [] -> Py.join sep (x :: l) = (x ++ sep ++ Py.join sep l)%string.
Proof.
  destruct l; [congruence | reflexivity].
Qed.

Lemma collect_entries_wrap (stop : bool) (conts lines : list string) :
  Forall (fun ln => numbered_line ln = false) conts ->
  Forall (fun ln => stop && summary_line ln = false) conts ->
  forall e,
    collect_entries stop (conts ++ lines) [e]
    = collect_entries stop lines [Py.join " " (e :: map Py.strip conts)].
Proof.
  intros Hn Hs. induction Hn as [|ln conts Hln _ IH]; intros e; [reflexivity|].
  inversion Hs as [|? ? Hs1 Hs2]; subst.
  cbn [app]. rewrite collect_entries_cons, Hln, Hs1.
  cbn [removelast last app]. rewrite (IH Hs2).
  do 2 f_equal. cbn [map].
  rewrite (join_cons " " e) by discriminate.
  destruct (map Py.strip conts) as [|c l] eqn:E.
  - reflexivity.
  - rewrite (join_cons " " _ (c :: l)) by discriminate.
    rewrite (join_cons " " (Py.strip ln)) by discriminate.
    now rewrite !string_app_assoc.
Qed.

(** An entry is a numbered line and the lines after it up to the next
    numbered line, each trimmed, joined by single spaces; the lines before
    the first numbered line are dropped.  None of these lines is one at
    which the loop stops; the line after them, if any, is a numbered line
    or one at which the loop stops. *)
Theorem collect_entries_entry (stop : bool) (noise : list string) (ln : string)
        (conts rest : list string) :
  Forall (fun l => numbered_line l = false) noise ->
  numbered_line ln = true ->
  Forall (fun l => numbered_line l = false) conts ->
  Forall (fun l => stop && summary_line l = false) (noise ++ ln :: conts) ->
  match rest with
  | [] => True
  | l :: _ => numbered_line l = true \/ stop && summary_line l = true
  end ->
  collect_entries stop (noise ++ ln :: conts ++ rest) []
  = Py.join " " (map Py.strip (ln :: conts)) :: collect_entries stop rest [].
Proof.
  intros Hnoise Hln Hconts Hsum Hrest.
  apply Forall_app in Hsum as [Hs1 Hs2].
  inversion Hs2 as [|? ? Hs3 Hs4]; subst.
  rewrite collect_entries_noise by assumption.
  rewrite collect_entries_cons, Hs3, Hln. cbn [app].
  rewrite collect_entries_wrap by assumption. cbn [map].
  destruct rest as [|l rest]; [reflexivity|].
  rewrite !(collect_entries_cons stop l).
  destruct (stop && summary_line l) eqn:Es; [reflexivity|].
  destruct Hrest as [Hl|Hl]; [|discriminate].
  rewrite Hl. cbn [app]. apply (collect_entries_last stop rest [_]).
Qed.

(** With the stop at the summary the entries are those of the lines
    before the first line whose text, in upper case, holds "SUMMARY"; that
    line and the lines after it have no effect.  Without such a line the
    stop changes nothing. *)
Theorem collect_entries_stop (before : list string) (ln : string) (after : list string) :
  Forall (fun l => summary_line l = false) before ->
  (summary_line ln = true ->
   collect_entries true (before ++ ln :: after) [] = collect_entries false before [])
  /\ collect_entries true before [] = collect_entries false before [].
Proof.
  intros Hb.
  assert (G : forall tail ents,
             (tail = [] \/ exists l t, tail = l :: t /\ summary_line l = true) ->
             collect_entries true (before ++ tail) ents
             = collect_entries false before ents).
  { induction Hb as [|l before Hl _ IH]; intros tail ents Ht.
    - destruct Ht as [->|(l & t & -> & Hl)]; [reflexivity|].
      cbn [app]. now rewrite collect_entries_cons, Hl.
    - cbn [app]. rewrite !collect_entries_cons, Hl. cbn [andb].
      destruct (numbered_line l); [now apply IH|].
      destruct ents; now apply IH. }
  split.
  - intros Hln. apply G. right. now exists ln, after.
  - rewrite <- (app_nil_r before) at 1. apply G. now left.
Qed.

Lemma collect_entries_entry_witness :
  collect_entries true wrapped_lines [] = ["1. Widget 2,00 wrapped"; "2. Gadget"].
Proof.
  exact (collect_entries_entry true ["Item Qty Price"] "1. Widget 2,00" ["  wrapped"]
           ["2. Gadget"]
           ltac:(repeat constructor) eq_refl ltac:(repeat constructor)
           ltac:(repeat constructor) (or_introl eq_refl)).
Defined.

Lemma collect_entries_stop_witness :
  summary_line "Summary of totals" = true
  /\ collect_entries true body_lines [] = ["1. Widget wrapped"]
  /\ collect_entries false body_lines []
     = ["1. Widget wrapped Summary of totals"; "2. Late"].
Proof.
  split; [reflexivity|]. split; [|reflexivity].
  destruct (collect_entries_stop ["1. Widget"; "wrapped"] "Summary of totals" ["2. Late"])
    as [H _].
  - repeat constructor.
  - exact (H eq_refl).
Defined.

(** ** The pairs of [extract_summary] *)

Lemma digit_not_s (c : ascii) :
  Py.isdecimal c = true -> Ascii.eqb "s" (Py.lower_char c) = false.
Proof.
  destruct c as [[] [] [] [] [] [] [] []]; vm_compute; intros H;
    first [discriminate H | reflexivity].
Qed.

Lemma digit_plain (c : ascii) :
  Py.isdecimal c = true -> Ascii.eqb c ":" = false /\ Py.isspace c = false.
Proof.
  destruct c as [[] [] [] [] [] [] [] []]; vm_compute; intros H;
    first [discriminate H | split; reflexivity].
Qed.

Lemma digit_entry_kept (e : string) :
  starts_with_digit e = true -> Spec.starts_with_summary e = false.
Proof.
  destruct e as [|c t]; [discriminate|]. simpl. intros H.
  unfold Spec.starts_with_summary. cbn [Py.lower Py.startswith].
  now rewrite (digit_not_s c H).
Qed.

Lemma digit_entry_key (e : string) :
  starts_with_digit e = true ->
  starts_with_digit (Py.strip (Spec.before_colon e)) = true.
Proof.
  destruct e as [|c t]; [discriminate|]. simpl. intros H.
  destruct (digit_plain c H) as [-> Hs].
  rewrite (strip_head _ c (Spec.before_colon t)).
  - exact H.
  - simpl. now rewrite Hs.
Qed.

Lemma summary_pairs_digit (ents : list string) :
  Forall (fun e => starts_with_digit e = true) ents ->
  List.length (Spec.summary_pairs ents) = List.length ents
  /\ Forall (fun kv => starts_with_digit (fst kv) = true) (Spec.summary_pairs ents).
Proof.
  unfold Spec.summary_pairs.
  induction 1 as [|e ents He _ [IH1 IH2]]; simpl; [split; [reflexivity|constructor]|].
  rewrite (digit_entry_kept e He). simpl. split; [now rewrite IH1|].
  constructor; [|exact IH2]. simpl. now apply digit_entry_key.
Qed.

Section SummaryFacts.

Context {Image : Type}.
Variable size : Image -> Z * Z.
Variable pil_crop : Image -> Z * Z * Z * Z -> res Image.
Variable image_to_table : Image -> string -> res (list row).

(** [extract_summary] skips no entry: an entry of [parse_entries] starts
    with a digit, so the test on "Summary" never holds.  When
    [parse_entries] returns the entries of the band there is one pair per
    entry and every key starts with the digits that open the entry; when
    it raises, as on a band whose texts are no strings, [extract_summary]
    raises the same exception. *)
Theorem extract_summary_skips_nothing (img band : Image) :
  crop size pil_crop img Num.f0_8 Num.f1_0 = Ok band ->
  match parse_entries image_to_table band false with
  | Ok ents =>
      exists pairs,
        extract_summary size pil_crop image_to_table img = Ok pairs
        /\ List.length pairs = List.length ents
        /\ Forall (fun kv => starts_with_digit (fst kv) = true) pairs
  | Raise e => extract_summary size pil_crop image_to_table img = Raise e
  end.
Proof.
  intros Hcrop. unfold extract_summary. rewrite Hcrop. cbn [bind].
  unfold parse_entries, entries_of_table.
  destruct (image_to_table band "--psm 6") as [df|e]; cbn [bind]; [|reflexivity].
  destruct (table_lines df) as [lines|e]; cbn [bind]; [|reflexivity].
  unfold summary_of_entries. rewrite summary_loop_spec. cbn [app].
  eexists. split; [reflexivity|].
  apply summary_pairs_digit, collect_entries_digit. constructor.
Qed.

End SummaryFacts.

Lemma before_colon_none (s : string) : all_chars not_colon (Spec.before_colon s) = true.
Proof.
  induction s as [|c t IH]; simpl; [reflexivity|].
  destruct (Ascii.eqb c ":") eqn:E; [reflexivity|].
  simpl. unfold not_colon at 1. now rewrite E.
Qed.

(** The loop of [extract_summary] raises on no list of entries; no key
    holds a colon, and keys and values are trimmed. *)
Theorem summary_pairs_shape (ents : list string) :
  exists pairs,
    summary_of_entries ents = Ok pairs
    /\ Forall (fun kv =>
                 all_chars not_colon (fst kv) = true
                 /\ Py.strip (fst kv) = fst kv /\ Py.strip (snd kv) = snd kv) pairs.
Proof.
  unfold summary_of_entries. rewrite summary_loop_spec. cbn [app].
  eexists. split; [reflexivity|].
  unfold Spec.summary_pairs. apply Forall_map, Forall_forall. intros e _. simpl.
  repeat split; [|apply strip_idem|apply strip_idem].
  apply all_chars_strip, before_colon_none.
Qed.

(** ** The invoice number *)

Lemma take_length_sub (w rest : string) :
  Py.take (String.length (w ++ rest) - String.length rest) (w ++ rest) = w.
Proof.
  replace (String.length (w ++ rest) - String.length rest) with (String.length w)
    by (rewrite str_length_app; lia).
  apply take_app.
Qed.

(** A pattern that ends with the group [(\d+)] captures decimal digits,
    one or more. *)
Lemma run_digits_group (ic : bool) (rs : list Re.regex) :
  forall prev s g s' g',
    Re.run ic (Re.Cat (rs ++ [Re.Group (Re.Plus (Re.Chr Re.Digit))])) prev s g
      (fun _ s'' g'' => Some (s'', g'')) = Some (s', g') ->
    exists w, g' = Some w /\ w <> "" /\ all_chars Py.isdecimal w = true.
Proof.
  induction rs as [|r rs IH]; intros prev s g s' g' H.
  - cbn [app] in H. rewrite run_Cat_cons, run_Group, run_Plus_Chr in H.
    destruct s as [|x t]; [discriminate|].
    change (Re.cls_mem ic Re.Digit x) with (Py.isdecimal x) in H.
    destruct (Py.isdecimal x) eqn:Ex; [|discriminate].
    apply star_chr_reaches in H as (p' & w & s'' & -> & Hw & H).
    rewrite run_Cat_nil in H.
    change (String x (w ++ s'')) with (String x w ++ s'')%string in H.
    rewrite take_length_sub in H. injection H as <- <-.
    exists (String x w). repeat split; [discriminate|].
    simpl. now rewrite Ex.
  - cbn [app] in H. rewrite run_Cat_cons in H.
    apply run_reaches in H as (p' & w & s'' & g'' & -> & H).
    now apply IH in H.
Qed.

Lemma first_search_finds (ic : bool) (pats : list Re.regex) (txt : string)
      (m : Re.match_obj) :
  first_search ic pats txt = Some m ->
  exists pat j n,
    In pat pats
    /\ Re.match_at ic pat (prev_after None j txt) (Py.drop j txt) = Some (n, Re.group1 m)
    /\ Re.group0 m = Py.take n (Py.drop j txt).
Proof.
  induction pats as [|pat pats IH]; simpl; [discriminate|].
  destruct (Re.search ic pat txt) as [m'|] eqn:E.
  - intros H. injection H as ->.
    apply search_from_finds in E as (j & n & Em & Hj & _).
    apply match_pos_drop in Hj.
    exists pat, j, n. repeat split; [now left | exact Hj|].
    rewrite Em. reflexivity.
  - intros H. destruct (IH H) as (p & j & n & Hin & Hm).
    exists p, j, n. split; [now right | exact Hm].
Qed.

(** The invoice number, when there is one, is made of decimal digits, one
    or more. *)
Theorem header_inv_no_digits (txt n : string) :
  header_inv_no txt = Some n -> n <> "" /\ all_chars Py.isdecimal n = true.
Proof.
  unfold header_inv_no.
  destruct (first_search true inv_no_patterns txt) as [m|] eqn:E; [|discriminate].
  intros Hn.
  apply first_search_finds in E as (pat & j & k & Hin & Hm & _).
  rewrite Hn in Hm. unfold Re.match_at in Hm.
  destruct (Re.run true pat _ _ None _) as [[s' g']|] eqn:Er; [|discriminate].
  injection Hm as _ ->.
  assert (G : exists w, Some n = Some w /\ w <> "" /\ all_chars Py.isdecimal w = true).
  { destruct Hin as [<-|[<-|[<-|[]]]].
    - apply (run_digits_group true
               [Re.Str "Invoice"; Re.Star Pat.ws; Re.Str "No"; Re.Opt (Re.Chr (Re.Lit "."));
                Re.Opt Pat.sep; Re.Star Pat.ws]) in Er. exact Er.
    - apply (run_digits_group true
               [Re.Str "Inv"; Re.Opt (Re.Chr (Re.Lit "#")); Re.Opt Pat.sep;
                Re.Star Pat.ws]) in Er. exact Er.
    - apply (run_digits_group true
               [Re.Str "Invoice"; Re.Star Pat.ws; Re.Str "ID"; Re.Opt Pat.sep;
                Re.Star Pat.ws]) in Er. exact Er. }
  destruct G as (w & Hw & Hne & Hd). injection Hw as ->. now split.
Qed.

Lemma header_inv_no_digits_witness :
  header_inv_no "INVOICE ID-0042" = Some "0042"
  /\ "0042" <> "" /\ all_chars Py.isdecimal "0042" = true.
Proof.
  split; [reflexivity|].
  apply (header_inv_no_digits "INVOICE ID-0042" "0042"). reflexivity.
Defined.

(** ** The vendor: what is returned *)

Lemma search_digit (ln : string) :
  forall pos prev,
    is_match (Re.search_from false Pat.d pos prev ln) = negb (all_chars not_digit ln).
Proof.
  induction ln as [|c t IH]; intros pos prev; [reflexivity|].
  cbn [Re.search_from all_chars]. unfold Re.match_at, Pat.d. cbn [Re.run Re.cls_mem].
  unfold not_digit at 1. destruct (Py.isdecimal c); [reflexivity|].
  cbn [negb andb]. apply IH.
Qed.

Lemma first_plain_line_spec (ln : string) (rest : list string) :
  first_plain_line (ln :: rest)
  = if blank_or_digit ln then first_plain_line rest else Some ln.
Proof.
  cbn [first_plain_line]. unfold blank_or_digit.
  pose proof (search_digit ln 0 None) as H. fold (Re.search false Pat.d ln) in H.
  destruct (Re.search false Pat.d ln); simpl in H; rewrite <- H;
    now destruct (Py.is_empty ln).
Qed.

Lemma next_name_in (l : list string) (v : string) :
  next_name l = Some v -> In v l /\ v <> "".
Proof.
  induction l as [|x l IH]; cbn [next_name In]; [discriminate|].
  destruct (Py.is_empty x) eqn:E; [intros H; apply IH in H; tauto|].
  destruct (Py.startswith "client" (Py.lower x)); [intros H; apply IH in H; tauto|].
  intros H. injection H as <-. split; [now left|]. intros ->. discriminate.
Qed.

Lemma standalone_seller_in (l : list string) (v : string) :
  standalone_seller l = Some v -> In v l /\ v <> "".
Proof.
  induction l as [|x l IH]; cbn [standalone_seller In]; [discriminate|].
  destruct (is_seller_label x).
  - destruct (next_name l) as [n|] eqn:E.
    + intros H. injection H as <-. apply next_name_in in E. tauto.
    + intros H. apply IH in H. tauto.
  - intros H. apply IH in H. tauto.
Qed.

Lemma first_plain_line_in (l : list string) (v : string) :
  first_plain_line l = Some v -> In v l /\ v <> "".
Proof.
  induction l as [|x l IH]; [discriminate|].
  rewrite first_plain_line_spec. unfold blank_or_digit.
  destruct (Py.is_empty x) eqn:E; cbn [orb negb In];
    [intros H; apply IH in H; tauto|].
  destruct (all_chars not_digit x); cbn [orb negb In];
    [|intros H; apply IH in H; tauto].
  intros H. injection H as <-. split; [now left|]. intros ->. discriminate.
Qed.

Lemma inline_seller_in (l : list string) (v : string) :
  inline_seller l = Some v ->
  exists ln m g,
    In ln l /\ Re.match_ true Pat.inline_label ln = Some m
    /\ Re.group1 m = Some g /\ v = Py.strip g.
Proof.
  induction l as [|x l IH]; cbn [inline_seller In]; [discriminate|].
  assert (R : inline_seller l = Some v ->
              exists ln m g,
                (x = ln \/ In ln l) /\ Re.match_ true Pat.inline_label ln = Some m
                /\ Re.group1 m = Some g /\ v = Py.strip g).
  { intros H. destruct (IH H) as (ln & m & g & Hin & Hm). exists ln, m, g. tauto. }
  destruct (Re.match_ true Pat.inline_label x) as [m|] eqn:Em; [|exact R].
  destruct (Re.group1 m) as [g|] eqn:Eg; [|exact R].
  destruct (negb _); [|exact R].
  intros H. injection H as <-. exists x, m, g. auto.
Qed.

(** A pattern that ends with [(.+)$] captures the rest of the line, one
    character or more, up to a line feed that ends the text. *)
Lemma run_rest_group (ic : bool) (rs : list Re.regex) :
  forall prev s g s' g',
    Re.run ic (Re.Cat (rs ++ [Re.Group (Re.Plus (Re.Chr Re.Dot)); Re.Eol])) prev s g
      (fun _ s'' g'' => Some (s'', g'')) = Some (s', g') ->
    exists pre w,
      g' = Some w /\ w <> "" /\ s = (pre ++ w ++ s')%string /\ (s' = "" \/ s' = nl).
Proof.
  induction rs as [|r rs IH]; intros prev s g s' g' H.
  - cbn [app] in H. rewrite run_Cat_cons, run_Group, run_Plus_Chr in H.
    destruct s as [|x t]; [discriminate|].
    destruct (Re.cls_mem ic Re.Dot x); [|discriminate].
    apply star_chr_reaches in H as (p' & w & s'' & -> & Hw & H).
    change (String x (w ++ s'')) with (String x w ++ s'')%string in H.
    rewrite take_length_sub in H. cbn [Re.run Re.Cat] in H.
    exists "", (String x w).
    destruct s'' as [|c [|c' t']]; try discriminate.
    + injection H as <- <-. repeat split; [discriminate | now left].
    + destruct (Py.is_code 10 c) eqn:Ec; [|discriminate].
      injection H as <- <-. repeat split; [discriminate|]. right.
      unfold nl. f_equal. unfold Py.is_code, Py.code in Ec.
      apply N.eqb_eq in Ec. rewrite <- Ec. symmetry. apply ascii_N_embedding.
  - cbn [app] in H. rewrite run_Cat_cons in H.
    apply run_reaches in H as (p' & w & s'' & g'' & -> & H).
    apply IH in H as (pre & w' & Hg & Hw & -> & Hs).
    exists (w ++ pre)%string, w'. repeat split; try assumption.
    now rewrite string_app_assoc.
Qed.

Lemma str_app_empty (s : string) : (s ++ "")%string = s.
Proof. induction s as [|c t IH]; simpl; [reflexivity | now rewrite IH]. Qed.

Lemma rstrip_length (p : ascii -> bool) (s : string) :
  String.length (Py.rstrip_by p s) <= String.length s.
Proof.
  induction s as [|c t IH]; simpl; [lia|].
  destruct (Py.is_empty (Py.rstrip_by p t) && p c); simpl; lia.
Qed.

Lemma rstrip_app (p : ascii -> bool) (a b : string) :
  Py.rstrip_by p (a ++ b)
  = if Py.is_empty (Py.rstrip_by p b) then Py.rstrip_by p a
    else (a ++ Py.rstrip_by p b)%string.
Proof.
  induction a as [|c a IH]; simpl.
  - now destruct (Py.rstrip_by p b).
  - rewrite IH. destruct (Py.is_empty (Py.rstrip_by p b)) eqn:E; [reflexivity|].
    destruct a; simpl; [|reflexivity].
    destruct (Py.rstrip_by p b); [discriminate | reflexivity].
Qed.

Lemma all_chars_lstrip_same (p : ascii -> bool) (s : string) :
  all_chars p (Py.lstrip_by p s) = all_chars p s.
Proof.
  induction s as [|c t IH]; simpl; [reflexivity|].
  destruct (p c) eqn:E; [exact IH|]. simpl. now rewrite E.
Qed.

Lemma strip_empty (s : string) : Py.is_empty (Py.strip s) = all_chars Py.isspace s.
Proof.
  unfold Py.strip. now rewrite <- lstrip_rstrip, rstrip_by_empty, all_chars_lstrip_same.
Qed.

Lemma stripped_rstrip (s : string) : Py.strip s = s -> Py.rstrip_by Py.isspace s = s.
Proof.
  intros H. rewrite <- H at 1. unfold Py.strip.
  rewrite lstrip_rstrip, rstrip_idem. exact H.
Qed.

(** A text that ends a trimmed text is not made of white space. *)
Lemma stripped_suffix (pre g : string) :
  Py.strip (pre ++ g) = (pre ++ g)%string -> g <> "" -> Py.strip g <> "".
Proof.
  intros H Hg.
  apply stripped_rstrip in H. rewrite rstrip_app in H.
  assert (E : all_chars Py.isspace g = false).
  { rewrite <- rstrip_by_empty.
    destruct (Py.is_empty (Py.rstrip_by Py.isspace g)) eqn:E; [|reflexivity].
    exfalso. pose proof (rstrip_length Py.isspace pre) as Hl.
    rewrite H, str_length_app in Hl. destruct g; [congruence | simpl in Hl; lia]. }
  intros Hs. rewrite <- strip_empty, Hs in E. discriminate.
Qed.

(** The vendor, when there is one, is not empty and has no white space at
    its ends. *)
Theorem extract_vendor_trimmed (txt v : string) :
  extract_vendor txt = Some v -> v <> "" /\ Py.strip v = v.
Proof.
  unfold extract_vendor. set (lines := map Py.strip (Py.splitlines txt)).
  assert (Hstripped : forall ln, In ln lines -> Py.strip ln = ln).
  { intros ln Hin. apply in_map_iff in Hin as (x & <- & _). apply strip_idem. }
  destruct (standalone_seller lines) as [a|] eqn:E1.
  { intros H. injection H as <-. apply standalone_seller_in in E1 as [Hin Hne].
    split; [exact Hne | now apply Hstripped]. }
  destruct (inline_seller lines) as [b|] eqn:E2.
  { intros H. injection H as <-.
    apply inline_seller_in in E2 as (ln & m & g & Hin & Hm & Hg & ->).
    split; [|apply strip_idem].
    unfold Re.match_, Re.match_at in Hm.
    destruct (Re.run true Pat.inline_label None ln None _) as [[s' g']|] eqn:Er;
      [|discriminate].
    injection Hm as <-. simpl in Hg. subst g'.
    apply (run_rest_group true
             [Re.Bol; Re.Alt (Re.Str "Seller") (Re.Str "Vendor"); Re.Star Pat.ws;
              Pat.sep; Re.Star Pat.ws]) in Er
      as (pre & w & Hw & Hne & Hln & Hs').
    injection Hw as <-.
    pose proof (Hstripped ln Hin) as Hst. rewrite Hln in Hst.
    destruct Hs' as [-> | ->].
    - rewrite str_app_empty in Hst. now apply stripped_suffix in Hst.
    - rewrite <- string_app_assoc in Hst.
      apply stripped_suffix in Hst; [|discriminate]. now contradict Hst. }
  intros H. apply first_plain_line_in in H as [Hin Hne].
  split; [exact Hne | now apply Hstripped].
Qed.


(** ** The vendor: which line is taken *)

(** [extract_vendor] finds no vendor only in a text all of whose lines are
    blank or hold a digit. *)
Theorem extract_vendor_none (txt : string) :
  extract_vendor txt = None ->
  Forall (fun ln => blank_or_digit ln = true) (map Py.strip (Py.splitlines txt)).
Proof.
  unfold extract_vendor.
  destruct (standalone_seller _); [discriminate|].
  destruct (inline_seller _); [discriminate|].
  induction (map Py.strip (Py.splitlines txt)) as [|ln l IH]; [constructor|].
  rewrite first_plain_line_spec.
  destruct (blank_or_digit ln) eqn:E; [|discriminate].
  intros H. constructor; [exact E | exact (IH H)].
Qed.

Lemma extract_vendor_none_witness :
  extract_vendor "12" = None
  /\ Forall (fun ln => blank_or_digit ln = true) (map Py.strip (Py.splitlines "12")).
Proof.
  split; [reflexivity | exact (extract_vendor_none "12" eq_refl)].
Defined.

Lemma startswith_app (a b s : string) :
  Py.startswith (a ++ b) s = true -> Py.startswith a s = true.
Proof.
  revert s. induction a as [|x a IH]; intros s; simpl; [reflexivity|].
  destruct s as [|y s]; [discriminate|].
  intros H. apply andb_prop in H as [-> H]. exact (IH _ H).
Qed.

Lemma unlabelled_no_label (ln : string) :
  unlabelled ln = true -> is_seller_label ln = false.
Proof.
  unfold unlabelled, is_seller_label. intros H. apply andb_prop in H as [H _].
  destruct (Py.startswith "seller:" (Py.lower ln)) eqn:E; [|reflexivity].
  apply (startswith_app "seller" ":") in E. rewrite E in H. discriminate.
Qed.

Lemma unlabelled_no_match (ln : string) :
  unlabelled ln = true -> Re.match_ true Pat.inline_label ln = None.
Proof.
  unfold unlabelled. intros H. apply andb_prop in H as [H1 H2].
  apply negb_true_iff in H1, H2.
  unfold Re.match_, Re.match_at, Pat.inline_label.
  rewrite run_Cat_cons. cbn [Re.run]. rewrite run_Cat_cons.
  change (Re.run true (Re.Alt (Re.Str "Seller") (Re.Str "Vendor")) None ln None ?k)
    with (match Re.run true (Re.Str "Seller") None ln None k with
          | Some x => Some x
          | None => Re.run true (Re.Str "Vendor") None ln None k
          end).
  rewrite !run_Str, !prefix_ci_lower.
  change (Py.lower "Seller") with "seller". change (Py.lower "Vendor") with "vendor".
  now rewrite H1, H2.
Qed.

Lemma standalone_seller_unlabelled (l : list string) :
  Forall (fun ln => unlabelled ln = true) l -> standalone_seller l = None.
Proof.
  induction 1 as [|ln l Hln _ IH]; cbn [standalone_seller]; [reflexivity|].
  now rewrite (unlabelled_no_label _ Hln).
Qed.

Lemma inline_seller_skip (before rest : list string) :
  Forall (fun ln => unlabelled ln = true) before ->
  inline_seller (before ++ rest) = inline_seller rest.
Proof.
  induction 1 as [|ln l Hln _ IH]; cbn [inline_seller app]; [reflexivity|].
  now rewrite (unlabelled_no_match _ Hln).
Qed.

Lemma first_plain_line_first (passed : list string) (name : string)
      (rest : list string) :
  Forall (fun ln => blank_or_digit ln = true) passed ->
  blank_or_digit name = false ->
  first_plain_line (passed ++ name :: rest) = Some name.
Proof.
  intros Hp Hn. induction Hp as [|ln passed Hln _ IH]; cbn [app];
    rewrite first_plain_line_spec.
  - now rewrite Hn.
  - now rewrite Hln.
Qed.

(** In a text without a line that starts with "seller" or "vendor", in any
    case, the vendor is the first trimmed line that is neither blank nor
    holds a digit. *)
Theorem extract_vendor_first_plain_line (txt : string) (passed : list string)
        (name : string) (rest : list string) :
  map Py.strip (Py.splitlines txt) = passed ++ name :: rest ->
  Forall (fun ln => unlabelled ln = true) (passed ++ name :: rest) ->
  Forall (fun ln => blank_or_digit ln = true) passed ->
  blank_or_digit name = false ->
  extract_vendor txt = Some name.
Proof.
  intros El Hu Hp Hn. unfold extract_vendor. rewrite El.
  rewrite (standalone_seller_unlabelled _ Hu).
  rewrite <- (app_nil_r (passed ++ name :: rest)).
  rewrite (inline_seller_skip _ [] Hu). cbn [inline_seller].
  rewrite app_nil_r. now apply first_plain_line_first.
Qed.

Lemma extract_vendor_first_plain_line_witness :
  extract_vendor plain_text = Some "Acme Tools".
Proof.
  apply (extract_vendor_first_plain_line plain_text ["12 Main St"; ""] "Acme Tools"
           ["Client: Bob"]).
  - reflexivity.
  - repeat constructor.
  - repeat constructor.
  - reflexivity.
Defined.

Lemma star_chr_greedy (ic : bool) (c : Re.cls) (k : Re.cont) (w s' : string)
      (g : option string) (r : Re.result) :
  all_chars (Re.cls_mem ic c) w = true ->
  match s' with String x _ => Re.cls_mem ic c x | "" => false end = false ->
  (forall p, k p s' g = Some r) ->
  forall prev, star_chr ic c k prev (w ++ s') g = Some r.
Proof.
  intros Hw Hs Hk. induction w as [|x w IH]; intros prev.
  - cbn [append]. rewrite star_chr_stop by exact Hs. apply Hk.
  - cbn [append star_chr]. cbn [all_chars] in Hw. apply andb_prop in Hw as [-> Hw].
    now rewrite (IH Hw).
Qed.

Lemma lower_app (a b : string) : Py.lower (a ++ b) = (Py.lower a ++ Py.lower b)%string.
Proof. induction a as [|x a IH]; simpl; [reflexivity | now rewrite IH]. Qed.

Lemma lower_length (s : string) : String.length (Py.lower s) = String.length s.
Proof. induction s as [|x s IH]; simpl; [reflexivity | now rewrite IH]. Qed.

Lemma take_all (s : string) : Py.take (String.length s) s = s.
Proof. induction s as [|x s IH]; simpl; [reflexivity | now rewrite IH]. Qed.

Lemma strip_head_not_space (s : string) :
  Py.strip s = s ->
  match s with String x _ => Py.isspace x | "" => false end = false.
Proof.
  intros H. destruct s as [|x t]; [reflexivity|].
  unfold Py.strip in H. now apply lstrip_head in H.
Qed.

(** The part of the pattern [inline_label] after the label, on the rest of
    a line that carries a name. *)
Lemma inline_label_rest (gap1 : string) (c : ascii) (gap2 name : string) :
  all_chars Py.isspace gap1 = true ->
  (c = ":" \/ c = "-")%char ->
  all_chars Py.isspace gap2 = true ->
  name <> "" -> Py.strip name = name -> all_chars not_linefeed name = true ->
  forall p,
    Re.run true (Re.Cat [Re.Star Pat.ws; Pat.sep; Re.Star Pat.ws;
                         Re.Group (Re.Plus (Re.Chr Re.Dot)); Re.Eol])
      p (gap1 ++ String c (gap2 ++ name)) None (fun _ s' g => Some (s', g))
    = Some ("", Some name).
Proof.
  intros H1 Hc H2 Hne Hst Hlf p.
  rewrite run_Cat_cons. unfold Pat.ws at 1. rewrite run_Star_Chr.
  apply star_chr_greedy; [exact H1 | now destruct Hc as [-> | ->] |].
  clear p. intros p. rewrite run_Cat_cons. unfold Pat.sep. cbn [Re.run].
  replace (Re.cls_mem true (Re.OneOf ":-") c) with true
    by now destruct Hc as [-> | ->].
  rewrite run_Cat_cons. unfold Pat.ws. rewrite run_Star_Chr.
  apply star_chr_greedy; [exact H2 | now apply strip_head_not_space |].
  clear p. intros p. rewrite run_Cat_cons, run_Group, run_Plus_Chr.
  destruct name as [|x t]; [congruence|].
  cbn [all_chars] in Hlf. apply andb_prop in Hlf as [Hx Ht].
  change (Re.cls_mem true Re.Dot x) with (not_linefeed x). rewrite Hx.
  rewrite <- (str_app_empty t) at 1.
  apply star_chr_greedy; [exact Ht | reflexivity |].
  intros q. cbn [Re.run Re.Cat String.length].
  rewrite Nat.sub_0_r. change (S (String.length t)) with (String.length (String x t)).
  now rewrite take_all.
Qed.

Lemma inline_label_match (ln name : string) :
  inline_vendor_line ln name ->
  exists m, Re.match_ true Pat.inline_label ln = Some m /\ Re.group1 m = Some name.
Proof.
  intros (label & gap1 & c & gap2 & -> & Hl & H1 & Hc & H2 & Hne & Hst & Hlf).
  pose proof (inline_label_rest gap1 c gap2 name H1 Hc H2 Hne Hst Hlf) as Hr.
  set (rest := (gap1 ++ String c (gap2 ++ name))%string) in *.
  assert (Hlen : String.length label = 6).
  { rewrite <- lower_length. now destruct Hl as [-> | ->]. }
  assert (Hrun : Re.run true Pat.inline_label None (label ++ rest) None
                   (fun _ s' g => Some (s', g)) = Some ("", Some name)).
  { unfold Pat.inline_label. rewrite run_Cat_cons. cbn [Re.run]. rewrite run_Cat_cons.
    change (Re.run true (Re.Alt (Re.Str "Seller") (Re.Str "Vendor")) None
              (label ++ rest) None ?k)
      with (match Re.run true (Re.Str "Seller") None (label ++ rest) None k with
            | Some x => Some x
            | None => Re.run true (Re.Str "Vendor") None (label ++ rest) None k
            end).
    rewrite !run_Str, !prefix_ci_lower, lower_app.
    change (String.length "Seller") with 6. change (String.length "Vendor") with 6.
    rewrite <- Hlen, (take_drop_app label rest).
    change (Py.lower "Seller") with "seller". change (Py.lower "Vendor") with "vendor".
    destruct Hl as [-> | ->].
    - change (Py.startswith "seller" ("seller" ++ Py.lower rest)) with true.
      cbv iota. now rewrite Hr.
    - change (Py.startswith "seller" ("vendor" ++ Py.lower rest)) with false.
      change (Py.startswith "vendor" ("vendor" ++ Py.lower rest)) with true.
      cbv iota. now rewrite Hr. }
  unfold Re.match_, Re.match_at. rewrite Hrun. eexists. split; reflexivity.
Qed.

(** Where no line is the label "seller:" alone, the vendor is the name on
    the first line that starts with "seller" or "vendor", in any case, when
    that line carries a name after a colon or a hyphen and the name is not
    "client". *)
Theorem extract_vendor_inline_label (txt : string) (before : list string)
        (ln name : string) (rest : list string) :
  map Py.strip (Py.splitlines txt) = before ++ ln :: rest ->
  Forall (fun l => Spec.seller_label l = false) (before ++ ln :: rest) ->
  Forall (fun l => unlabelled l = true) before ->
  inline_vendor_line ln name ->
  Py.lower name <> "client" ->
  extract_vendor txt = Some name.
Proof.
  intros El Hs Hb Hln Hc. unfold extract_vendor. rewrite El.
  rewrite <- (app_nil_r (before ++ ln :: rest)) at 1.
  rewrite (standalone_seller_skip _ [] Hs). cbn [standalone_seller].
  rewrite (inline_seller_skip _ _ Hb). cbn [inline_seller].
  destruct (inline_label_match ln name Hln) as (m & -> & ->).
  cbv zeta. destruct Hln as (_ & _ & _ & _ & _ & _ & _ & _ & _ & _ & Hst & _).
  rewrite Hst. apply String.eqb_neq in Hc. now rewrite Hc.
Qed.

Lemma extract_vendor_inline_label_witness :
  extract_vendor vendor_text = Some "Beta LLC".
Proof.
  apply (extract_vendor_inline_label vendor_text ["INVOICE 2024"; ""]
           "Vendor -  Beta LLC" "Beta LLC" ["Seller: Gamma"]).
  - reflexivity.
  - repeat constructor.
  - repeat constructor.
  - exists "Vendor", " ", "-"%char, "  ".
    repeat split; try reflexivity; [now right | now right | discriminate].
  - discriminate.
Defined.

(** ** The date of the header *)

Lemma run_Times_Chr (ic : bool) (c : Re.cls) (m : nat) :
  forall prev s g k r,
    Re.run ic (Re.Times m (Re.Chr c)) prev s g k = Some r ->
    exists w s' p,
      s = (w ++ s')%string /\ all_chars (Re.cls_mem ic c) w = true
      /\ String.length w = m /\ k p s' g = Some r.
Proof.
  induction m as [|m IH]; intros prev s g k r H; cbn [Re.Times Re.run] in H.
  - exists "", s, prev. auto.
  - destruct s as [|x t]; [discriminate|].
    destruct (Re.cls_mem ic c x) eqn:Ex; [|discriminate].
    apply IH in H as (w & s' & p & -> & Hw & Hl & H).
    exists (String x w), s', p. cbn [all_chars String.length append].
    rewrite Ex, Hw, Hl. auto.
Qed.

Lemma run_Upto_Chr (ic : bool) (c : Re.cls) (n : nat) :
  forall prev s g k r,
    Re.run ic (Re.Upto n (Re.Chr c)) prev s g k = Some r ->
    exists w s' p,
      s = (w ++ s')%string /\ all_chars (Re.cls_mem ic c) w = true
      /\ String.length w <= n /\ k p s' g = Some r.
Proof.
  induction n as [|n IH]; intros prev s g k r H.
  - exists "", s, prev. auto.
  - cbn [Re.Upto] in H. unfold Re.Opt in H. cbn [Re.run] in H.
    assert (Hk : k prev s g = Some r ->
                 exists w s' p,
                   s = (w ++ s')%string /\ all_chars (Re.cls_mem ic c) w = true
                   /\ String.length w <= S n /\ k p s' g = Some r).
    { intros Hk. exists "", s, prev. cbn. repeat split; [lia | exact Hk]. }
    destruct s as [|x t]; [exact (Hk H)|].
    destruct (Re.cls_mem ic c x) eqn:Ex; [|exact (Hk H)].
    destruct (Re.run ic (Re.Upto n (Re.Chr c)) (Some x) t g k) as [r'|] eqn:E;
      [|exact (Hk H)].
    injection H as ->. apply IH in E as (w & s' & p & -> & Hw & Hl & E).
    exists (String x w), s', p. cbn [all_chars String.length append].
    rewrite Ex, Hw. repeat split; [lia | exact E].
Qed.

(** A match of [c{lo,hi}] takes between [lo] and [hi] characters of the
    class. *)
Lemma run_Rep_Chr (ic : bool) (c : Re.cls) (lo hi : nat) :
  lo <= hi ->
  forall prev s g k r,
    Re.run ic (Re.Rep lo hi (Re.Chr c)) prev s g k = Some r ->
    exists w s' p,
      s = (w ++ s')%string /\ all_chars (Re.cls_mem ic c) w = true
      /\ lo <= String.length w <= hi /\ k p s' g = Some r.
Proof.
  intros Hle prev s g k r H. unfold Re.Rep in H. rewrite run_Seq in H.
  apply run_Times_Chr in H as (w1 & s1 & p1 & -> & Hw1 & Hl1 & H).
  apply run_Upto_Chr in H as (w2 & s2 & p2 & -> & Hw2 & Hl2 & H).
  exists (w1 ++ w2)%string, s2, p2.
  rewrite string_app_assoc, all_chars_app, Hw1, Hw2, str_length_app.
  repeat split; [lia | lia | exact H].
Qed.

(** A match of the second pattern is a date with the name of a month. *)
Lemma date_month_sound (prev : option ascii) (s : string) (n : nat)
      (g : option string) :
  Re.match_at false Pat.date_month prev s = Some (n, g) ->
  month_date (Py.take n s).
Proof.
  unfold Re.match_at.
  destruct (Re.run false Pat.date_month prev s None _) as [[s' g']|] eqn:E;
    [|discriminate].
  intros H. injection H as <- <-. unfold Pat.date_month in E.
  rewrite run_Cat_cons in E.
  apply run_Rep_Chr in E as (m & s1 & p1 & -> & Hm & Lm & E); [|lia].
  rewrite run_Cat_cons in E. unfold Pat.ws at 1 in E. rewrite run_Plus_Chr in E.
  destruct s1 as [|x1 t1]; [discriminate|].
  destruct (Re.cls_mem false Re.Space x1) eqn:Ex1; [|discriminate].
  apply star_chr_reaches in E as (p2 & g1 & s2 & -> & Hg1 & E).
  rewrite run_Cat_cons in E.
  apply run_Rep_Chr in E as (a & s3 & p3 & -> & Ha & La & E); [|lia].
  rewrite run_Cat_cons in E. cbn [Re.run] in E.
  destruct s3 as [|x3 t3]; [discriminate|].
  destruct (Re.cls_mem false (Re.Lit ",") x3) eqn:Ex3; [|discriminate].
  apply Ascii.eqb_eq in Ex3. subst x3.
  rewrite run_Cat_cons in E. unfold Pat.ws in E. rewrite run_Star_Chr in E.
  apply star_chr_reaches in E as (p5 & g2 & s5 & -> & Hg2 & E).
  rewrite run_Cat_cons in E.
  apply run_Rep_Chr in E as (y & s6 & p6 & -> & Hy & Ly & E); [|lia].
  rewrite run_Cat_nil in E. injection E as <- _.
  set (d := (m ++ String x1 g1 ++ a ++ "," ++ g2 ++ y)%string).
  assert (Es : (m ++ String x1 (g1 ++ a ++ String "," (g2 ++ y ++ s6)))%string
               = (d ++ s6)%string).
  { unfold d. change (String x1 (g1 ++ a ++ String "," (g2 ++ y ++ s6)))
      with (String x1 g1 ++ a ++ "," ++ g2 ++ y ++ s6)%string.
    now rewrite !string_app_assoc. }
  rewrite Es, take_length_sub.
  exists m, (String x1 g1), a, g2, y.
  repeat split; try assumption; try lia; try discriminate.
  cbn [all_chars]. change (Re.cls_mem false Re.Space x1) with (Py.isspace x1) in Ex1.
  now rewrite Ex1.
Qed.

(** The date that [extract_header] returns is a piece of the header text,
    and it is a date in numeric form or a date with the name of a month. *)
Theorem header_inv_dt_form (txt d : string) :
  header_inv_dt txt = Some d ->
  (exists pre post, txt = (pre ++ d ++ post)%string)
  /\ (numeric_date d \/ month_date d).
Proof.
  rewrite header_inv_dt_order. unfold Re.search.
  assert (G : forall r m,
             Re.search_from false r 0 None txt = Some m ->
             (exists pre post, txt = (pre ++ Re.group0 m ++ post)%string)
             /\ exists p s n g,
                 Re.match_at false r p s = Some (n, g) /\ Re.group0 m = Py.take n s).
  { intros r m H. apply search_from_finds in H as (j & n & Hm & Hj & _).
    apply match_pos_drop in Hj. rewrite Hm. cbn [Re.group0]. split.
    - exists (Py.take j txt), (Py.drop n (Py.drop j txt)).
      now rewrite take_drop, take_drop.
    - now exists (prev_after None j txt), (Py.drop j txt), n, (Re.group1 m). }
  destruct (Re.search_from false Pat.date_numeric 0 None txt) as [m|] eqn:E1.
  - intros H. injection H as <-. destruct (G _ _ E1) as [Hp (p & s & n & g & Hm & Hg)].
    split; [exact Hp|]. rewrite Hg. left. now apply date_numeric_sound in Hm.
  - destruct (Re.search_from false Pat.date_month 0 None txt) as [m|] eqn:E2;
      [|discriminate].
    intros H. injection H as <-. destruct (G _ _ E2) as [Hp (p & s & n & g & Hm & Hg)].
    split; [exact Hp|]. rewrite Hg. right. now apply date_month_sound in Hm.
Qed.

Lemma header_inv_dt_form_witness :
  (exists pre post, "Date: March 5, 2024 ref" = (pre ++ "March 5, 2024" ++ post)%string)
  /\ (numeric_date "March 5, 2024" \/ month_date "March 5, 2024").
Proof.
  exact (header_inv_dt_form "Date: March 5, 2024 ref" "March 5, 2024" eq_refl).
Defined.

(** ** The script *)

Lemma summary_of_entries_ok (ents : list string) :
  exists pairs, summary_of_entries ents = Ok pairs.
Proof. unfold summary_of_entries. rewrite summary_loop_spec. eauto. Qed.

Section ScriptFacts.

Context {Image : Type}.
Variable size : Image -> Z * Z.
Variable pil_crop : Image -> Z * Z * Z * Z -> res Image.
Variable image_to_string : Image -> string -> res string.
Variable image_to_table : Image -> string -> res (list row).
Variable preprocess : Image -> res Image.

(** The script shows a report exactly when the image is preprocessed, the
    text of the page is read, the three bands can be cut from the
    preprocessed image, the header is read, [parse_entries] returns the
    entries of the body and of the summary band, and every entry of the
    body has five numeric tokens or more.  The report then holds the
    vendor of the page text, the two fields of the header and one line
    item per entry of the body. *)
Theorem on_upload_report (img : Image) :
  ((exists rep, on_upload size pil_crop image_to_string image_to_table preprocess img
                = Ok rep)
   <-> exists proc,
         preprocess img = Ok proc
         /\ (exists txt, image_to_string proc "--psm 3" = Ok txt)
         /\ (exists hdr, extract_header size pil_crop image_to_string proc = Ok hdr)
         /\ (exists body ents,
                crop size pil_crop proc Num.f0_2 Num.f0_8 = Ok body
                /\ parse_entries image_to_table body true = Ok ents
                /\ Forall (fun entry => 5 <= List.length (tokens entry)) ents)
         /\ (exists foot ents,
                crop size pil_crop proc Num.f0_8 Num.f1_0 = Ok foot
                /\ parse_entries image_to_table foot false = Ok ents))
  /\ forall rep,
      on_upload size pil_crop image_to_string image_to_table preprocess img = Ok rep ->
      exists proc txt,
        preprocess img = Ok proc
        /\ image_to_string proc "--psm 3" = Ok txt
        /\ vendor rep = extract_vendor txt
        /\ extract_header size pil_crop image_to_string proc
           = Ok (invoice_number rep, invoice_date rep)
        /\ extract_line_items size pil_crop image_to_table proc = Ok (line_items rep).
Proof.
  unfold on_upload.
  destruct (preprocess img) as [proc|e]; cbn [bind].
  2:{ split; [|discriminate]. split; [intros [? H]; discriminate H|].
      intros (? & H & _). discriminate H. }
  assert (G : forall P : Image -> Prop,
             (exists proc', Ok proc = Ok proc' /\ P proc') <-> P proc).
  { intros P. split; [|eauto]. intros (proc' & H & HP). now injection H as <-. }
  rewrite G. clear G.
  unfold extract_line_items at 1 2, extract_summary.
  destruct (image_to_string proc "--psm 3") as [txt|e] eqn:Et; cbn [bind].
  2:{ split; [|discriminate]. split; [intros [? H]; discriminate H|].
      intros [[? H] _]. discriminate H. }
  destruct (extract_header size pil_crop image_to_string proc) as [[no dt]|e]
    eqn:Eh; cbn [bind].
  2:{ split; [|discriminate]. split; [intros [? H]; discriminate H|].
      intros (_ & [? H] & _). discriminate H. }
  destruct (crop size pil_crop proc Num.f0_2 Num.f0_8) as [body|e] eqn:Ec;
    cbn [bind].
  2:{ split; [|discriminate]. split; [intros [? H]; discriminate H|].
      intros (_ & _ & (? & ? & H & _) & _). discriminate H. }
  destruct (parse_entries image_to_table body true) as [ents|e] eqn:Eb; cbn [bind].
  2:{ split; [|discriminate]. split; [intros [? H]; discriminate H|].
      intros (_ & _ & (b & ? & H & H' & _) & _). injection H as <-.
      rewrite Eb in H'. discriminate H'. }
  destruct (line_items_of_entries ents) as [items|e] eqn:Ei; cbn [bind].
  2:{ split; [|discriminate]. split; [intros [? H]; discriminate H|].
      intros (_ & _ & (b & l & H & H' & Hall) & _). injection H as <-.
      rewrite Eb in H'. injection H' as <-.
      destruct (line_items_loop_ok _ 0 [] Hall) as (new & E & _).
      unfold line_items_of_entries in Ei. rewrite E in Ei. discriminate Ei. }
  destruct (crop size pil_crop proc Num.f0_8 Num.f1_0) as [foot|e]; cbn [bind].
  2:{ split; [|discriminate]. split; [intros [? H]; discriminate H|].
      intros (_ & _ & _ & (? & ? & H & _)). discriminate H. }
  destruct (parse_entries image_to_table foot false) as [fents|e] eqn:Ef; cbn [bind].
  2:{ split; [|discriminate]. split; [intros [? H]; discriminate H|].
      intros (_ & _ & _ & (f & ? & H & H')). injection H as <-.
      rewrite Ef in H'. discriminate H'. }
  destruct (summary_of_entries_ok fents) as [pairs ->]. cbn [bind].
  split.
  - split; [|eauto]. intros _. split; [eauto|]. split; [eauto|]. split; [|eauto].
    exists body, ents. split; [reflexivity|]. split; [exact Eb|].
    exact (line_items_ok_enough _ _ Ei).
  - intros rep H. injection H as <-. exists proc, txt.
    cbn [vendor invoice_number invoice_date line_items].
    split; [reflexivity|]. split; [exact Et|]. split; [reflexivity|].
    split; [exact Eh|].
    unfold extract_line_items. rewrite Ec. cbn [bind]. rewrite Eb. cbn [bind].
    exact Ei.
Qed.

End ScriptFacts.

(** ** Examples *)

Lemma extract_summary_skips_nothing_witness :
  exists pairs,
    Page.extract_summary short_entry_page = Ok pairs
    /\ List.length pairs
       = List.length ["1. Widget 2,00 10.00 20.00 5,0 21.00"; "2. Gadget 3,00"]
    /\ Forall (fun kv => starts_with_digit (fst kv) = true) pairs.
Proof.
  exact (extract_summary_skips_nothing Page.size Page.pil_crop Page.image_to_table
           short_entry_page (Page.Image 80 20 "" (Page.table short_entry_page))
           eq_refl).
Defined.

Lemma parse_entries_start_with_digit_witness :
  Forall (fun e => starts_with_digit e = true)
    ["1. Widget 2,00 10.00 20.00 5,0 21.00"; "2. Gadget 3,00"].
Proof.
  exact (parse_entries_start_with_digit Page.image_to_table short_entry_page true
           ["1. Widget 2,00 10.00 20.00 5,0 21.00"; "2. Gadget 3,00"] eq_refl).
Defined.

Lemma extract_vendor_trimmed_witness :
  "Beta LLC" <> "" /\ Py.strip "Beta LLC" = "Beta LLC".
Proof.
  exact (extract_vendor_trimmed vendor_text "Beta LLC" eq_refl).
Defined.

(** ** The order of the rows of the table *)

Lemma row_leb_spec (a b : row) :
  Pd.row_leb a b = true
  <-> (block_num a < block_num b
       \/ block_num a = block_num b
          /\ (par_num a < par_num b
              \/ par_num a = par_num b
                 /\ (line_num a < line_num b
                     \/ line_num a = line_num b /\ word_num a <= word_num b)))%Z.
Proof.
  unfold Pd.row_leb.
  destruct (Z.eqb_spec (block_num a) (block_num b)); [|rewrite Z.ltb_lt; lia].
  destruct (Z.eqb_spec (par_num a) (par_num b)); [|rewrite Z.ltb_lt; lia].
  destruct (Z.eqb_spec (line_num a) (line_num b)); [|rewrite Z.ltb_lt; lia].
  rewrite Z.leb_le. lia.
Qed.

Lemma row_leb_total (a b : row) : Pd.row_leb a b = false -> Pd.row_leb b a = true.
Proof.
  intros H. apply not_true_iff_false in H. rewrite row_leb_spec in *. lia.
Qed.

Lemma row_leb_trans (a b c : row) :
  Pd.row_leb a b = true -> Pd.row_leb b c = true -> Pd.row_leb a c = true.
Proof. rewrite !row_leb_spec. lia. Qed.

Lemma row_leb_antisym (a b : row) :
  Pd.row_leb a b = true -> Pd.row_leb b a = true -> word_key a = word_key b.
Proof.
  rewrite !row_leb_spec. intros H1 H2. unfold word_key.
  assert (E1 : block_num a = block_num b) by lia.
  assert (E2 : par_num a = par_num b) by lia.
  assert (E3 : line_num a = line_num b) by lia.
  assert (E4 : word_num a = word_num b) by lia.
  now rewrite E1, E2, E3, E4.
Qed.

Lemma insert_perm {A : Type} (leb : A -> A -> bool) (x : A) (l : list A) :
  Permutation (Pd.insert leb x l) (x :: l).
Proof.
  induction l as [|y t IH]; simpl; [reflexivity|].
  destruct (leb x y); [reflexivity|].
  rewrite IH. apply perm_swap.
Qed.

Lemma sort_perm {A : Type} (leb : A -> A -> bool) (l : list A) :
  Permutation (Pd.sort leb l) l.
Proof.
  induction l as [|x t IH]; simpl; [reflexivity|].
  rewrite insert_perm. now constructor.
Qed.

Lemma filter_perm {A : Type} (f : A -> bool) (l l' : list A) :
  Permutation l l' -> Permutation (filter f l) (filter f l').
Proof.
  induction 1 as [|x l l' _ IH|x y l|l l' l'' _ IH1 _ IH2]; simpl.
  - reflexivity.
  - destruct (f x); [now constructor | exact IH].
  - destruct (f x), (f y); try reflexivity. apply perm_swap.
  - now rewrite IH1.
Qed.

Lemma insert_rows_sorted (x : row) (l : list row) :
  StronglySorted (fun a b => Pd.row_leb a b = true) l ->
  StronglySorted (fun a b => Pd.row_leb a b = true) (Pd.insert Pd.row_leb x l).
Proof.
  induction 1 as [|y t Hs IH Hy]; simpl; [repeat constructor|].
  destruct (Pd.row_leb x y) eqn:E.
  - constructor; [now constructor|]. constructor; [exact E|].
    rewrite Forall_forall in Hy |- *. intros z Hz.
    exact (row_leb_trans x y z E (Hy z Hz)).
  - constructor; [exact IH|].
    rewrite Forall_forall in Hy |- *. intros z Hz.
    apply (Permutation_in _ (insert_perm Pd.row_leb x t)) in Hz.
    destruct Hz as [<-|Hz]; [now apply row_leb_total | now apply Hy].
Qed.

Lemma sort_rows_sorted (l : list row) :
  StronglySorted (fun a b => Pd.row_leb a b = true) (Pd.sort_values l).
Proof.
  induction l as [|x t IH]; simpl; [constructor|]. now apply insert_rows_sorted.
Qed.

(** Two sorted lists with the same elements are equal, when no two
    elements are equivalent in the order. *)
Lemma sorted_perm_eq {A : Type} (R : A -> A -> Prop) (l1 : list A) :
  forall l2,
    StronglySorted R l1 -> StronglySorted R l2 -> Permutation l1 l2 ->
    (forall a b, In a l1 -> In b l1 -> R a b -> R b a -> a = b) ->
    l1 = l2.
Proof.
  induction l1 as [|a t1 IH]; intros l2 H1 H2 Hp Hanti.
  - apply Permutation_nil in Hp. now subst.
  - destruct l2 as [|b t2]; [apply Permutation_sym, Permutation_nil in Hp; discriminate|].
    inversion H1 as [|? ? Hs1 Ha]; subst. inversion H2 as [|? ? Hs2 Hb]; subst.
    rewrite Forall_forall in Ha, Hb.
    assert (E : a = b).
    { assert (Hb1 : In b (a :: t1))
        by (apply (Permutation_in _ (Permutation_sym Hp)); now left).
      assert (Ha2 : In a (b :: t2)) by (apply (Permutation_in _ Hp); now left).
      destruct Hb1 as [E|Hb1]; [exact E|].
      destruct Ha2 as [E|Ha2]; [now symmetry|].
      apply Hanti; [now left | now right | now apply Ha | now apply Hb]. }
    subst b. f_equal. apply IH; try assumption.
    + now apply Permutation_cons_inv in Hp.
    + intros x y Hx Hy. apply Hanti; now right.
Qed.

Lemma key_injective (l : list row) (a b : row) :
  NoDup (map word_key l) -> In a l -> In b l -> word_key a = word_key b -> a = b.
Proof.
  induction l as [|x t IH]; intros Hn Ha Hb E; [destruct Ha|].
  cbn [map] in Hn. inversion Hn as [|? ? Hx Hn']; subst.
  destruct Ha as [->|Ha], Hb as [->|Hb]; try reflexivity.
  - exfalso. apply Hx. rewrite E. now apply in_map.
  - exfalso. apply Hx. rewrite <- E. now apply in_map.
  - now apply IH.
Qed.

(** The lines read from the table do not depend on the order of its rows,
    when no two rows with a text have the same four indices. *)
Theorem table_lines_order (df df' : list row) :
  Permutation df df' ->
  NoDup (map word_key (Pd.dropna df)) ->
  table_lines df = table_lines df'.
Proof.
  intros Hp Hn. unfold table_lines. f_equal.
  assert (Hd : Permutation (Pd.dropna df) (Pd.dropna df')) by now apply filter_perm.
  apply (sorted_perm_eq (fun a b => Pd.row_leb a b = true)).
  - apply sort_rows_sorted.
  - apply sort_rows_sorted.
  - unfold Pd.sort_values. now rewrite !sort_perm.
  - intros a b Ha Hb Hab Hba.
    apply (Permutation_in _ (sort_perm Pd.row_leb _)) in Ha, Hb.
    apply (key_injective (Pd.dropna df)); try assumption.
    now apply row_leb_antisym.
Qed.

Lemma table_lines_order_witness :
  table_lines (Page.words 1 1 2 1 ["2."; "Gadget"] ++ Page.words 1 1 1 1 ["1."; "Widget"])
  = table_lines (Page.words 1 1 1 1 ["1."; "Widget"] ++ Page.words 1 1 2 1 ["2."; "Gadget"]).
Proof.
  apply table_lines_order.
  - apply (Permutation_app_comm (Page.words 1 1 2 1 ["2."; "Gadget"])).
  - repeat constructor; cbn; intuition discriminate.
Defined.

(** ** Texts that are no strings *)






(** On a band that holds amounts only the summary is not empty: the
    extraction raises. *)
Lemma extract_summary_amounts :
  Page.extract_summary amounts_page = Raise TypeError.
Proof. reflexivity. Qed.

(** ** The trimmed text of a text *)

Lemma lstrip_spaces (p : ascii -> bool) (l s : string) :
  all_chars p l = true -> Py.lstrip_by p (l ++ s) = Py.lstrip_by p s.
Proof.
  induction l as [|c l IH]; [reflexivity|].
  cbn [all_chars append Py.lstrip_by]. intros H. apply andb_prop in H as [-> H].
  exact (IH H).
Qed.

Lemma rstrip_clean (p : ascii -> bool) (t : string) :
  forall x, p (last_char x t) = false -> Py.rstrip_by p (String x t) = String x t.
Proof.
  induction t as [|y u IH]; intros x H; cbn [last_char] in H.
  - cbn. now rewrite H.
  - specialize (IH y H). cbn [Py.rstrip_by] in *. cbv zeta in *. now rewrite IH.
Qed.

(** A text has one trimmed text, that of [str.strip]. *)
Lemma trimmed_strip (raw t : string) : trimmed raw t -> Py.strip raw = t.
Proof.
  intros (l & r & -> & Hl & Hr & Hc). destruct t as [|x t'].
  - cbn [append].
    assert (E : Py.is_empty (Py.strip (l ++ r)) = true)
      by now rewrite strip_empty, all_chars_app, Hl, Hr.
    now destruct (Py.strip (l ++ r)).
  - cbn [clean_ends] in Hc. apply andb_prop in Hc as [Hx Hlast].
    apply negb_true_iff in Hx, Hlast.
    assert (E : Py.rstrip_by Py.isspace (String x t' ++ r) = String x t').
    { now rewrite rstrip_app, rstrip_by_empty, Hr, rstrip_clean. }
    unfold Py.strip. rewrite rstrip_app, E. cbn [Py.is_empty].
    rewrite lstrip_spaces by exact Hl. cbn [Py.lstrip_by]. now rewrite Hx.
Qed.
